(** * twisted.names.authority: authoritative resolvers

    A shallow embedding of [MemoryAuthority] (the resolution engine) and of
    [BindAuthority] (the master-file parser) of
    [src/twisted/names/authority.py], followed by the properties of the
    natural-language specification that were checked against it.

    Conventions of the embedding:
    - a Python 2 [str] is a [string]; Python [int]s are [Z];
    - [None]-able attributes are [option]s;
    - the [records] dict is a [gmap string (list IRecord)];
    - a raised Python exception is [Raise e] in the [Exc] monad, a fired
      [Deferred] is [succeed v] or [fail f]. *)

From Stdlib Require Import ZArith String Ascii List Bool Lia.
From stdpp Require Import base option list gmap strings.

Local Open Scope Z_scope.

(** ** Exceptions and Deferreds *)

Inductive Exn : Type :=
| AttributeError
| IndexError
| UnboundLocalError
| ValueError
| TypeError
| NotImplementedError (msg : string).

Inductive Exc (A : Type) : Type :=
| Ok (a : A)
| Raise (e : Exn).
Arguments Ok {A} a.
Arguments Raise {A} e.

Definition bind {A B : Type} (m : Exc A) (k : A -> Exc B) : Exc B :=
  match m with
  | Ok a => k a
  | Raise e => Raise e
  end.

Declare Scope exc_scope.
Delimit Scope exc_scope with exc.
Notation "'let*' x ':=' m 'in' k" := (bind m (fun x => k))
  (at level 10, x pattern, m at level 100, k at level 200) : exc_scope.
Local Open Scope exc_scope.

(** [twisted.names.error]: the two failures a lookup can fire with. *)
Inductive Failure : Type :=
| AuthoritativeDomainError (name : string)
| DomainError (name : string).

(** [defer.succeed(v)] and [defer.fail(failure.Failure(e))]: a Deferred that
    has already fired. *)
Inductive Deferred (A : Type) : Type :=
| succeed (v : A)
| fail (f : Failure).
Arguments succeed {A} v.
Arguments fail {A} f.

(** ** Python string methods used by the module *)

Module Py.

Definition lower_ascii (c : ascii) : ascii :=
  let n := N_of_ascii c in
  if ((65 <=? n) && (n <=? 90))%N then ascii_of_N (n + 32) else c.

(** [s.lower()] *)
Fixpoint lower (s : string) : string :=
  match s with
  | EmptyString => EmptyString
  | String c s' => String (lower_ascii c) (lower s')
  end.

(** [len(s)] *)
Definition len (s : string) : Z := Z.of_nat (String.length s).

(** [s.find(c)] for a one-character needle: the first index, or [-1]. *)
Fixpoint find (c : ascii) (s : string) : Z :=
  match s with
  | EmptyString => -1
  | String d s' =>
      if Ascii.eqb d c then 0
      else let i := find c s' in if i =? -1 then -1 else i + 1
  end.

Fixpoint take (n : nat) (s : string) : string :=
  match n, s with
  | O, _ | _, EmptyString => EmptyString
  | S n', String c s' => String c (take n' s')
  end.

(** [s[:i]]: a negative bound counts from the end. *)
Definition slice_to (s : string) (i : Z) : string :=
  if i <? 0 then take (Z.to_nat (Z.max 0 (len s + i))) s
  else take (Z.to_nat i) s.

Fixpoint lstrip (s : string) : string :=
  match s with
  | String c s' => if Ascii.is_space c then lstrip s' else s
  | EmptyString => EmptyString
  end.

(** [s.strip()] *)
Definition strip (s : string) : string :=
  String.rev (lstrip (String.rev (lstrip s))).

(** [s.split()]: split on runs of whitespace, no empty words. *)
Definition split (s : string) : list string := String.words s.

(** [s.endswith(c)] for a one-character suffix. *)
Fixpoint endswith (c : ascii) (s : string) : bool :=
  match s with
  | EmptyString => false
  | String d EmptyString => Ascii.eqb d c
  | String _ s' => endswith c s'
  end.

Definition is_digit (c : ascii) : bool :=
  let n := N_of_ascii c in ((48 <=? n) && (n <=? 57))%N.

Fixpoint all_digits (s : string) : bool :=
  match s with
  | EmptyString => true
  | String c s' => is_digit c && all_digits s'
  end.

(** [s.isdigit()]: at least one character and all of them digits. *)
Definition isdigit (s : string) : bool :=
  match s with
  | EmptyString => false
  | _ => all_digits s
  end.

Fixpoint int_go (acc : Z) (s : string) : Exc Z :=
  match s with
  | EmptyString => Ok acc
  | String c s' =>
      if is_digit c
      then int_go (10 * acc + (Z.of_N (N_of_ascii c) - 48)) s'
      else Raise ValueError
  end.

(** [int(s)] on a string of decimal digits (the only way the module
    calls it: every call is guarded by [isdigit]). *)
Definition int (s : string) : Exc Z :=
  match s with
  | EmptyString => Raise ValueError
  | _ => int_go 0 s
  end.

(** [x in xs] for a list of strings *)
Definition str_in (x : string) (xs : list string) : bool :=
  existsb (String.eqb x) xs.

(** [x in xs] for a tuple of ints *)
Definition int_in (x : Z) (xs : list Z) : bool :=
  existsb (Z.eqb x) xs.

End Py.

(** ** The parts of [twisted.names.dns] the module uses *)

Module dns.

(** Modelled from the spec: the record type and class codes of
    [twisted.names.dns] (that module is not part of the sources at hand).
    The spec names the types SOA, NS, A, AAAA, CNAME, MX and the wildcard
    ALL; the numbers are their RFC 1035 / RFC 3596 codes.  The properties
    below only use that they are pairwise distinct. *)
Definition A : Z := 1.
Definition NS : Z := 2.
Definition CNAME : Z := 5.
Definition SOA : Z := 6.
Definition MX : Z := 15.
Definition TXT : Z := 16.
Definition AAAA : Z := 28.
Definition ALL_RECORDS : Z := 255.
Definition IN : Z := 1.

(** The type-specific payload of a record object ([Record_A], ...). *)
Inductive RData : Type :=
| Record_A (address : string)
| Record_AAAA (address : string)
| Record_NS (name : string)
| Record_CNAME (name : string)
| Record_MX (preference : Z) (name : string)
| Record_SOA (mname rname : string)
             (serial refresh retry expire minimum : Z)
| Record_TXT (data : list string).

(** A record object: its payload and its [ttl] attribute ([None] when
    no TTL was set). *)
Record IRecord : Type := mkRecord {
  fields : RData;
  ttl : option Z
}.

(** The class attribute [TYPE] of each record class. *)
Definition TYPE (r : IRecord) : Z :=
  match fields r with
  | Record_A _ => A
  | Record_AAAA _ => AAAA
  | Record_NS _ => NS
  | Record_CNAME _ => CNAME
  | Record_MX _ _ => MX
  | Record_SOA _ _ _ _ _ _ _ => SOA
  | Record_TXT _ => TXT
  end.

(** [dns.RRHeader(name, type, cls, ttl, payload, auth)] *)
Record RRHeader : Type := mkRRHeader {
  rr_name : string;
  rr_type : Z;
  rr_cls : Z;
  rr_ttl : Z;
  rr_payload : option IRecord;
  rr_auth : bool
}.

(** [header.payload.name.name]: only NS, CNAME and MX payloads have a
    [name] attribute. *)
Definition payload_name (h : RRHeader) : Exc string :=
  match rr_payload h with
  | Some r =>
      match fields r with
      | Record_NS n | Record_CNAME n | Record_MX _ n => Ok n
      | _ => Raise AttributeError
      end
  | None => Raise AttributeError
  end.

(** Modelled from the spec: [dns._isSubdomainOf], which is not part of
    the sources at hand.  The spec only says when it holds: the name
    "is a subdomain of (or equal to) the zone apex".  Names are compared
    label by label, without regard to case and to a final dot: the
    labels of the apex are the last labels of the name. *)
Fixpoint split_dots (s : string) (cur : string) : list string :=
  match s with
  | EmptyString => [String.rev cur]
  | String c s' =>
      if Ascii.eqb c "."
      then String.rev cur :: split_dots s' EmptyString
      else split_dots s' (String c cur)
  end.

Definition _nameToLabels (name : string) : list string :=
  let labels := split_dots name EmptyString in
  match last labels with
  | Some EmptyString => labels
  | _ => labels ++ [EmptyString]
  end.

Definition _isSubdomainOf (descendantName ancestorName : string) : bool :=
  let descendantLabels := _nameToLabels (Py.lower descendantName) in
  let ancestorLabels := _nameToLabels (Py.lower ancestorName) in
  bool_decide
    (drop (length descendantLabels - length ancestorLabels)%nat
       descendantLabels = ancestorLabels).

(** Modelled from the spec: the class keywords ("a fixed recognized set,
    e.g. IN/CH/HS") and the type keywords of [dns.QUERY_CLASSES] and
    [dns.QUERY_TYPES], which are not part of the sources at hand. *)
Definition QUERY_CLASSES_values : list string :=
  ["IN"; "CS"; "CH"; "HS"]%string.
Definition QUERY_TYPES_values : list string :=
  ["A"; "NS"; "MD"; "MF"; "CNAME"; "SOA"; "MB"; "MG"; "MR"; "NULL"; "WKS";
   "PTR"; "HINFO"; "MINFO"; "MX"; "TXT"; "RP"; "AFSDB"; "AAAA"; "SRV";
   "NAPTR"; "A6"; "DNAME"; "SPF"]%string.

(** Modelled from the spec: [dns.str2time], not part of the sources at
    hand, on the plain decimal durations the spec's examples use. *)
Definition str2time (s : string) : Exc Z := Py.int s.

(** Modelled from the spec: the "static registry of constructors" behind
    [getattr(dns, 'Record_%s' % type, None)], for the types the spec
    lists; each constructor "consumes the positional rdata tokens for
    its type" and leaves [ttl] unset. *)
Definition Record_ (type : string)
    : option (list string -> Exc IRecord) :=
  let one (mk : string -> RData) :=
    Some (fun rdata : list string =>
            match rdata with
            | [x] => Ok (mkRecord (mk x) None)
            | _ => Raise TypeError
            end) in
  if (type =? "A")%string then one Record_A
  else if (type =? "AAAA")%string then one Record_AAAA
  else if (type =? "NS")%string then one Record_NS
  else if (type =? "CNAME")%string then one Record_CNAME
  else if (type =? "MX")%string then
    Some (fun rdata =>
            match rdata with
            | [preference; name] =>
                let* preference := Py.int preference in
                Ok (mkRecord (Record_MX preference name) None)
            | _ => Raise TypeError
            end)
  else if (type =? "SOA")%string then
    Some (fun rdata =>
            match rdata with
            | [mname; rname; serial; refresh; retry; expire; minimum] =>
                let* serial := str2time serial in
                let* refresh := str2time refresh in
                let* retry := str2time retry in
                let* expire := str2time expire in
                let* minimum := str2time minimum in
                Ok (mkRecord
                      (Record_SOA mname rname serial refresh retry expire
                         minimum) None)
            | _ => Raise TypeError
            end)
  else if (type =? "TXT")%string then
    Some (fun rdata => Ok (mkRecord (Record_TXT rdata) None))
  else None.

End dns.

(** ** [class MemoryAuthority]: the in-memory authoritative resolver *)

Module MemoryAuthority.

(** The instance attributes set by [__init__]: [soa] is the pair of the
    zone's apex name and its SOA record ([(b'', None)] when none was
    given), [records] maps lower-cased owner names to their records. *)
Record t : Type := mk {
  soa : string * option dns.IRecord;
  records : gmap string (list dns.IRecord);
  _defaultTTLValue : option Z
}.

(** [MemoryAuthority()] with every argument left at its default. *)
Definition __init__ : t :=
  {| soa := ("", None); records := ∅; _defaultTTLValue := None |}.

Definition _ADDITIONAL_PROCESSING_TYPES : list Z :=
  [dns.CNAME; dns.MX; dns.NS].
Definition _ADDRESS_TYPES : list Z := [dns.A; dns.AAAA].

(** The property [_defaultTTL]: the configured value, else the larger of
    the SOA record's [minimum] and [expire]. *)
Definition _defaultTTL (self : t) : Exc Z :=
  match _defaultTTLValue self with
  | Some defaultTTL => Ok defaultTTL
  | None =>
      match (soa self).2 with
      | Some r =>
          match dns.fields r with
          | dns.Record_SOA _ _ _ _ _ expire minimum =>
              Ok (Z.max minimum expire)
          | _ => Raise AttributeError
          end
      | None => Raise AttributeError
      end
  end.

(** [record.ttl if record.ttl is not None else self._defaultTTL], the
    test of [_lookup] and [lookupZone]. *)
Definition ttl_if_not_None (self : t) (record : dns.IRecord) : Exc Z :=
  match dns.ttl record with
  | Some ttl => Ok ttl
  | None => _defaultTTL self
  end.

(** [rec.ttl or self._defaultTTL], the test of [_additionalRecords]:
    Python's [or] takes the right operand whenever the left one is falsy,
    that is [None] or [0]. *)
Definition ttl_or_default (self : t) (rec : dns.IRecord) : Exc Z :=
  match dns.ttl rec with
  | Some ttl => if ttl =? 0 then _defaultTTL self else Ok ttl
  | None => _defaultTTL self
  end.

(** The inner loop of [_additionalRecords]: the address records found
    under one referenced name. *)
Fixpoint address_headers (self : t) (name : string)
    (recs : list dns.IRecord) : Exc (list dns.RRHeader) :=
  match recs with
  | [] => Ok []
  | rec :: recs' =>
      if Py.int_in (dns.TYPE rec) _ADDRESS_TYPES then
        let* ttl := ttl_or_default self rec in
        let* rest := address_headers self name recs' in
        Ok (dns.mkRRHeader name (dns.TYPE rec) dns.IN ttl (Some rec) true
              :: rest)
      else address_headers self name recs'
  end.

(** The outer loop of [_additionalRecords] over [answer + authority]. *)
Fixpoint additional_for (self : t) (headers : list dns.RRHeader)
    : Exc (list dns.RRHeader) :=
  match headers with
  | [] => Ok []
  | record :: headers' =>
      let* here :=
        if Py.int_in (dns.rr_type record) _ADDITIONAL_PROCESSING_TYPES
        then
          let* name := dns.payload_name record in
          address_headers self name
            (default [] (records self !! Py.lower name))
        else Ok [] in
      let* rest := additional_for self headers' in
      Ok (here ++ rest)
  end.

(** [_additionalRecords(answer, authority)].  The generator is consumed
    in full by the [extend] that follows its creation, so it is modelled
    by the list of what it yields (or the exception it raises on the
    way).  Its loop runs over the fresh list [answer + authority], built
    on the first step: what [extend] then appends to [results] (which may
    be the very list [cnames]) is not seen by the loop. *)
Definition _additionalRecords (self : t)
    (answer authority : list dns.RRHeader) : Exc (list dns.RRHeader) :=
  additional_for self (answer ++ authority).

(** The local variables of [_lookup] that the record loop updates;
    [ttl] is unbound until a record has been examined. *)
Record Locals : Type := mkLocals {
  results : list dns.RRHeader;
  authority : list dns.RRHeader;
  cnames : list dns.RRHeader;
  ttl : option Z
}.

Definition locals0 : Locals :=
  {| results := []; authority := []; cnames := []; ttl := None |}.

(** One iteration of [for record in domain_records]. *)
Definition record_step (self : t) (name : string) (type : Z)
    (record : dns.IRecord) (l : Locals) : Exc Locals :=
  let* ttl := ttl_if_not_None self record in
  let header auth :=
    dns.mkRRHeader name (dns.TYPE record) dns.IN ttl (Some record) auth in
  let '(results, authority) :=
    if (dns.TYPE record =? dns.NS)
       && negb (Py.lower name =? Py.lower (soa self).1)%string
    then (results l, authority l ++ [header false])
    else if (dns.TYPE record =? type) || (type =? dns.ALL_RECORDS)
    then (results l ++ [header true], authority l)
    else (results l, authority l) in
  let cnames :=
    if dns.TYPE record =? dns.CNAME
    then cnames l ++ [header true] else cnames l in
  Ok {| results := results; authority := authority;
        cnames := cnames; ttl := Some ttl |}.

Fixpoint record_pass (self : t) (name : string) (type : Z)
    (domain_records : list dns.IRecord) (l : Locals) : Exc Locals :=
  match domain_records with
  | [] => Ok l
  | record :: rest =>
      let* l' := record_step self name type record l in
      record_pass self name type rest l'
  end.

(** [if not results: results = cnames] *)
Definition substituted (l : Locals) : list dns.RRHeader :=
  match results l with
  | [] => cnames l
  | _ => results l
  end.

(** The three sections as they stand before the empty-response test:
    the record pass, [if not results: results = cnames], and the
    additional processing whose output goes to [results] when [cnames]
    is non-empty and to [additional] otherwise.  The last component is
    the loop variable [ttl] as the pass left it. *)
Definition sections (self : t) (name : string) (type : Z)
    (domain_records : list dns.IRecord)
    : Exc (list dns.RRHeader * list dns.RRHeader * list dns.RRHeader
           * option Z) :=
  let* l := record_pass self name type domain_records locals0 in
  let results := substituted l in
  let* additionalInformation :=
    _additionalRecords self results (authority l) in
  match cnames l with
  | _ :: _ =>
      Ok (results ++ additionalInformation, authority l, [], ttl l)
  | [] =>
      Ok (results, authority l, additionalInformation, ttl l)
  end.

Section Lookup.

(** [dns._isSubdomainOf(descendantName, ancestorName)] is defined in
    [twisted.names.dns], outside the sources at hand: it is a
    parameter of the lookup. *)
Variable _isSubdomainOf : string -> string -> bool.

(** [_lookup(name, cls, type, timeout)] *)
Definition _lookup (self : t) (name : string) (cls : Z) (type : Z)
    (timeout : option Z)
    : Exc (Deferred (list dns.RRHeader * list dns.RRHeader
                     * list dns.RRHeader)) :=
  match records self !! Py.lower name with
  | Some ((_ :: _) as domain_records) =>
      let* secs := sections self name type domain_records in
      let '(results, authority, additional, ttl) := secs in
      match results, authority with
      | [], [] =>
          match ttl with
          | Some ttl =>
              Ok (succeed
                    (results,
                     authority ++
                       [dns.mkRRHeader (soa self).1 dns.SOA dns.IN ttl
                          (soa self).2 true],
                     additional))
          | None => Raise UnboundLocalError
          end
      | _, _ => Ok (succeed (results, authority, additional))
      end
  | _ =>
      if _isSubdomainOf name (soa self).1
      then Ok (fail (AuthoritativeDomainError name))
      else Ok (fail (DomainError name))
  end.

End Lookup.

(** The body of [for (k, r) in self.records.items(): for rec in r]. *)
Fixpoint zone_records (self : t) (k : string) (r : list dns.IRecord)
    : Exc (list dns.RRHeader) :=
  match r with
  | [] => Ok []
  | rec :: r' =>
      let* ttl := ttl_if_not_None self rec in
      let* rest := zone_records self k r' in
      if negb (dns.TYPE rec =? dns.SOA)
      then Ok (dns.mkRRHeader k (dns.TYPE rec) dns.IN ttl (Some rec) true
                 :: rest)
      else Ok rest
  end.

Fixpoint zone_items (self : t) (items : list (string * list dns.IRecord))
    : Exc (list dns.RRHeader) :=
  match items with
  | [] => Ok []
  | (k, r) :: items' =>
      let* here := zone_records self k r in
      let* rest := zone_items self items' in
      Ok (here ++ rest)
  end.

(** [lookupZone(name, timeout)].  [self.records.items()] is the dict's
    own iteration order, here [map_to_list].  [dns.DomainError] is the
    class [twisted.names.error.DomainError] that [_lookup] raises for a
    name outside the zone. *)
Definition lookupZone (self : t) (name : string) (timeout : option Z)
    : Exc (Deferred (list dns.RRHeader * list dns.RRHeader
                     * list dns.RRHeader)) :=
  if (Py.lower (soa self).1 =? Py.lower name)%string then
    match (soa self).2 with
    | None => Raise AttributeError
    | Some soa_record =>
        let* soa_ttl := ttl_if_not_None self soa_record in
        let first :=
          dns.mkRRHeader (soa self).1 dns.SOA dns.IN soa_ttl
            (Some soa_record) true in
        let* others := zone_items self (map_to_list (records self)) in
        Ok (succeed (first :: others ++ [first], [], []))
    end
  else Ok (fail (DomainError name)).

(** [_cbAllRecords(results)]: [results] is a list of pairs
    [(success, value)]; the value of a pair is looked at only when its
    flag is true, and is then a triple of sections. *)
Fixpoint _cbAllRecords
    (results : list (bool * (list dns.RRHeader * list dns.RRHeader
                             * list dns.RRHeader)))
    : list dns.RRHeader * list dns.RRHeader * list dns.RRHeader :=
  match results with
  | [] => ([], [], [])
  | res :: results' =>
      let '(ans, auth, add) := _cbAllRecords results' in
      if res.1
      then (res.2.1.1 ++ ans, res.2.1.2 ++ auth, res.2.2 ++ add)
      else (ans, auth, add)
  end.

End MemoryAuthority.

(** ** [class BindAuthority]: loading a BIND master file *)

Module BindAuthority.

(** [FileAuthority] adds nothing to the attributes of [MemoryAuthority]
    that the parser touches; [BindAuthority.loadFile] adds [origin]. *)
Record t : Type := mk {
  base : MemoryAuthority.t;
  origin : string
}.

Definition set_records (self : t)
    (records : gmap string (list dns.IRecord)) : t :=
  {| base := {| MemoryAuthority.soa := MemoryAuthority.soa (base self);
                MemoryAuthority.records := records;
                MemoryAuthority._defaultTTLValue :=
                  MemoryAuthority._defaultTTLValue (base self) |};
     origin := origin self |}.

Definition set_soa (self : t) (soa : string * option dns.IRecord) : t :=
  {| base := {| MemoryAuthority.soa := soa;
                MemoryAuthority.records :=
                  MemoryAuthority.records (base self);
                MemoryAuthority._defaultTTLValue :=
                  MemoryAuthority._defaultTTLValue (base self) |};
     origin := origin self |}.

(** [line[0]] and [line[1]] on a token list *)
Definition item (i : nat) (line : list string) : Exc string :=
  match line !! i with
  | Some tok => Ok tok
  | None => Raise IndexError
  end.

(** [a.find(';') == -1 and a or a[:a.find(';')]] over the stripped
    lines: [x and a or y] is [a] only when [x] holds and [a] is truthy
    (non-empty). *)
Definition stripComments (lines : list string) : list string :=
  map (fun b =>
         let a := Py.strip b in
         if (Py.find ";" a =? -1) && negb (a =? "")%string
         then a
         else Py.slice_to a (Py.find ";" a))
      lines.

(** [L[-1] += s] *)
Definition add_to_last (L : list string) (s : string)
    : Exc (list string) :=
  match reverse L with
  | [] => Raise IndexError
  | x :: before => Ok (reverse before ++ [x +:+ s])
  end.

(** The first loop of [collapseContinuations], with its variables [L]
    and [state] ([false] for 0, [true] for 1). *)
Fixpoint collapse (lines : list string) (L : list string) (state : bool)
    : Exc (list string) :=
  match lines with
  | [] => Ok L
  | line :: lines' =>
      if negb state then
        if Py.find "(" line =? -1
        then collapse lines' (L ++ [line]) false
        else collapse lines'
               (L ++ [Py.slice_to line (Py.find "(" line)]) true
      else
        if negb (Py.find ")" line =? -1) then
          let* L' :=
            add_to_last L (" " +:+ Py.slice_to line (Py.find ")" line)) in
          collapse lines' L' false
        else
          let* L' := add_to_last L (" " +:+ line) in
          collapse lines' L' true
  end.

(** [collapseContinuations(lines)]: the joined lines, split into tokens,
    without the empty token lists ([filter(None, L)]). *)
Definition collapseContinuations (lines : list string)
    : Exc (list (list string)) :=
  let* L := collapse lines [] false in
  Ok (List.filter (fun toks => match toks with [] => false | _ => true end)
        (map Py.split L)).

(** The arguments [parseRecordLine] hands to [addRecord]. *)
Record AddRecord : Type := mkAddRecord {
  owner : string;
  ttl : Z;
  type : string;
  domain : string;
  cls : string;
  rdata : list string
}.

Section Parser.

(** Tables and functions of [twisted.names.dns], outside the sources
    at hand, taken as parameters: the values of [dns.QUERY_CLASSES]
    and [dns.QUERY_TYPES], [dns.str2time], and the lookup
    [getattr(dns, 'Record_%s' % type, None)] of a record class,
    together with the call [record( *rdata)] of what it finds. *)
Variable QUERY_CLASSES_values : list string.
Variable QUERY_TYPES_values : list string.
Variable str2time : string -> Exc Z.
Variable Record_ : string -> option (list string -> Exc dns.IRecord).

Definition MARKERS : list string :=
  QUERY_CLASSES_values ++ QUERY_TYPES_values.

(** [tok.isdigit() or tok in MARKERS] *)
Definition numeric_or_marker (tok : string) : bool :=
  Py.isdigit tok || Py.str_in tok MARKERS.

(** [parseRecordLine(origin, ttl, line)] up to its final call. *)
Definition recordLine (origin : string) (ttl : Z) (line : list string)
    : Exc AddRecord :=
  let cls := "IN"%string in
  let owner := origin in
  let* t0 := item 0 line in
  let '(owner, line) :=
    if (t0 =? "@")%string then (origin, tail line)
    else if negb (Py.isdigit t0) && negb (Py.str_in t0 MARKERS)
    then (t0, tail line)
    else (owner, line) in
  let* t := item 0 line in
  let '(domain, owner, line) :=
    if numeric_or_marker t then (owner, origin, line)
    else (t, owner, tail line) in
  let* t := item 0 line in
  let* rest :=
    if Py.str_in t QUERY_CLASSES_values then
      let cls := t in
      let line := tail line in
      let* t := item 0 line in
      if Py.isdigit t then
        let* ttl := Py.int t in
        Ok (cls, ttl, tail line)
      else Ok (cls, ttl, line)
    else if Py.isdigit t then
      let* ttl := Py.int t in
      let line := tail line in
      let* t := item 0 line in
      if Py.str_in t QUERY_CLASSES_values
      then Ok (t, ttl, tail line)
      else Ok (cls, ttl, line)
    else Ok (cls, ttl, line) in
  let '(cls, ttl, line) := rest in
  let* type := item 0 line in
  let rdata := tail line in
  Ok (mkAddRecord owner ttl type domain cls rdata).

(** The first statement of [addRecord]: a relative [domain] gets
    ["." + owner] appended, an absolute one loses its final dot. *)
Definition qualify (owner domain : string) : string :=
  if negb (Py.endswith "." domain)
  then domain +:+ "." +:+ owner
  else Py.slice_to domain (-1).

(** [class_IN(ttl, type, domain, rdata)]; the [print] is left out. *)
Definition class_IN (self : t) (ttl : Z) (type : string)
    (domain : string) (rdata : list string) : Exc t :=
  match Record_ type with
  | Some record =>
      let* r := record rdata in
      let r := {| dns.fields := dns.fields r; dns.ttl := Some ttl |} in
      let records := MemoryAuthority.records (base self) in
      let key := Py.lower domain in
      let self :=
        set_records self
          (<[key := default [] (records !! key) ++ [r]]> records) in
      if (type =? "SOA")%string
      then Ok (set_soa self (domain, Some r))
      else Ok self
  | None =>
      Raise (NotImplementedError
               ("Record type '" +:+ type +:+ "' not supported"))
  end.

(** [addRecord(owner, ttl, type, domain, cls, rdata)]: the only
    [class_...] method is [class_IN]. *)
Definition addRecord (self : t) (a : AddRecord) : Exc t :=
  let domain := qualify (owner a) (domain a) in
  if (cls a =? "IN")%string
  then class_IN self (ttl a) (type a) domain (rdata a)
  else Raise (NotImplementedError
                ("Record class '" +:+ cls a +:+ "' not supported")).

(** [parseRecordLine(origin, ttl, line)] *)
Definition parseRecordLine (self : t) (origin : string) (ttl : Z)
    (line : list string) : Exc t :=
  let* a := recordLine origin ttl line in
  addRecord self a.

(** The loop of [parseLines], with its variables [TTL] and [ORIGIN]. *)
Fixpoint parse_loop (self : t) (TTL : Z) (ORIGIN : string)
    (lines : list (list string)) : Exc t :=
  match lines with
  | [] => Ok self
  | line :: lines' =>
      let* t0 := item 0 line in
      if (t0 =? "$TTL")%string then
        let* arg := item 1 line in
        let* TTL := str2time arg in
        parse_loop self TTL ORIGIN lines'
      else if (t0 =? "$ORIGIN")%string then
        let* ORIGIN := item 1 line in
        parse_loop self TTL ORIGIN lines'
      else if (t0 =? "$INCLUDE")%string then
        Raise (NotImplementedError "$INCLUDE directive not implemented")
      else if (t0 =? "$GENERATE")%string then
        Raise (NotImplementedError "$GENERATE directive not implemented")
      else
        let* self := parseRecordLine self ORIGIN TTL line in
        parse_loop self TTL ORIGIN lines'
  end.

(** [parseLines(lines)] *)
Definition parseLines (self : t) (lines : list (list string)) : Exc t :=
  let TTL := 60 * 60 * 3 in
  let ORIGIN := origin self in
  parse_loop (set_records self ∅) TTL ORIGIN lines.

(** [loadFile(filename)], given [os.path.basename(filename)] and the
    result of [open(filename).readlines()]. *)
Definition loadFile (self : t) (basename : string)
    (lines : list string) : Exc t :=
  let self := {| base := base self; origin := basename +:+ "." |} in
  let lines := stripComments lines in
  let* lines := collapseContinuations lines in
  parseLines self lines.

(** [BindAuthority(filename)]: [FileAuthority.__init__]. *)
Definition __init__ (basename : string) (lines : list string) : Exc t :=
  loadFile {| base := MemoryAuthority.__init__; origin := "" |}
    basename lines.

End Parser.

End BindAuthority.

(** ** Notions the properties below are stated with *)

Module Zone.

(** The record objects of a store that are not SOA records, each with
    its owner key, in the order [items()] yields them. *)
Definition non_soa_records (items : list (string * list dns.IRecord))
    : list (string * dns.IRecord) :=
  flat_map
    (fun kr : string * list dns.IRecord =>
       map (pair kr.1)
         (List.filter (fun rec => negb (dns.TYPE rec =? dns.SOA)) kr.2))
    items.

(** Whether an owner's record list holds a CNAME record. *)
Definition owner_has_CNAME (recs : list dns.IRecord) : bool :=
  existsb (fun r => dns.TYPE r =? dns.CNAME) recs.

(** Whether a section holds a CNAME record. *)
Definition section_has_CNAME (section : list dns.RRHeader) : bool :=
  existsb (fun h => dns.rr_type h =? dns.CNAME) section.

(** The authority with one key removed from its store. *)
Definition without (key : string) (self : MemoryAuthority.t)
    : MemoryAuthority.t :=
  {| MemoryAuthority.soa := MemoryAuthority.soa self;
     MemoryAuthority.records := delete key (MemoryAuthority.records self);
     MemoryAuthority._defaultTTLValue :=
       MemoryAuthority._defaultTTLValue self |}.

(** The SOA header [_lookup] adds to an empty response. *)
Definition soa_header (self : MemoryAuthority.t) (ttl : Z)
    : dns.RRHeader :=
  dns.mkRRHeader (MemoryAuthority.soa self).1 dns.SOA dns.IN ttl
    (MemoryAuthority.soa self).2 true.

(** A record line that starts with two names: its first token is not
    [@], and neither of its first two tokens is numeric or a class or
    type keyword. *)
Definition two_leading_names (QUERY_CLASSES_values QUERY_TYPES_values
    : list string) (line : list string) : bool :=
  let keyword :=
    BindAuthority.numeric_or_marker QUERY_CLASSES_values
      QUERY_TYPES_values in
  match line with
  | t0 :: t1 :: _ =>
      negb (t0 =? "@")%string && negb (keyword t0) && negb (keyword t1)
  | _ => false
  end.

(** What a record line appends to a domain token that does not end with
    a dot: the first name of a line that starts with two names, the
    current origin on every other line. *)
Definition key_suffix (QUERY_CLASSES_values QUERY_TYPES_values
    : list string) (origin : string) (line : list string) : string :=
  match line with
  | t0 :: _ =>
      if two_leading_names QUERY_CLASSES_values QUERY_TYPES_values line
      then t0 else origin
  | [] => origin
  end.

End Zone.

(** ** A zone to run the definitions on *)

Module Example.

Definition soa_record : dns.IRecord :=
  dns.mkRecord
    (dns.Record_SOA "ns1.example.com" "admin.example.com"
       2020010100 3600 600 604800 3600) None.

Definition A_www : dns.IRecord :=
  dns.mkRecord (dns.Record_A "192.0.2.80") (Some 300).
Definition A_zero : dns.IRecord :=
  dns.mkRecord (dns.Record_A "192.0.2.7") (Some 0).
Definition CNAME_www : dns.IRecord :=
  dns.mkRecord (dns.Record_CNAME "www.example.com") None.
Definition CNAME_zero : dns.IRecord :=
  dns.mkRecord (dns.Record_CNAME "zero.example.com") None.
Definition MX_www : dns.IRecord :=
  dns.mkRecord (dns.Record_MX 10 "www.example.com") None.
Definition NS_ns1 : dns.IRecord :=
  dns.mkRecord (dns.Record_NS "ns1.example.com") None.

Definition zone : MemoryAuthority.t :=
  {| MemoryAuthority.soa := ("example.com"%string, Some soa_record);
     MemoryAuthority.records :=
       list_to_map
         [("example.com"%string, [soa_record; NS_ns1]);
          ("ns1.example.com"%string,
             [dns.mkRecord (dns.Record_A "192.0.2.1") None]);
          ("www.example.com"%string, [A_www]);
          ("alias.example.com"%string, [CNAME_www]);
          ("mail.example.com"%string, [MX_www; CNAME_www]);
          ("zero.example.com"%string, [A_zero]);
          ("alias0.example.com"%string, [CNAME_zero]);
          ("empty.example.com"%string, [])];
     MemoryAuthority._defaultTTLValue := Some 3600 |}.

(** The SOA line of the spec's parser example, on one physical line and
    split after the opening parenthesis. *)
Definition newline : string := String (ascii_of_nat 10) EmptyString.

Definition soa_one_line : list string :=
  ["@ IN SOA ns1 admin ( 2020010100 3600 600 604800 3600 )" +:+ newline].

Definition soa_split : list string :=
  ["@ IN SOA ns1 admin (" +:+ newline;
   "        2020010100 3600 600" +:+ newline;
   "        604800 3600 )" +:+ newline].

(** The same text, broken between the numbers instead. *)
Definition soa_split_inside : list string :=
  ["@ IN SOA ns1 admin ( 2020010100 3600" +:+ newline;
   "        600 604800 3600 )" +:+ newline].


(** [BindAuthority] with the tables of [dns]. *)
Definition load (basename : string) (lines : list string)
    : Exc BindAuthority.t :=
  BindAuthority.__init__ dns.QUERY_CLASSES_values dns.QUERY_TYPES_values
    dns.str2time dns.Record_ basename lines.

Definition lookup := MemoryAuthority._lookup dns._isSubdomainOf.

(** The header the record pass builds from a record. *)
Definition header (name : string) (r : dns.IRecord) (ttl : Z) (auth : bool)
    : dns.RRHeader :=
  dns.mkRRHeader name (dns.TYPE r) dns.IN ttl (Some r) auth.

(** An authority without SOA and without default TTL, holding one record
    that has no TTL of its own. *)
Definition A_host : dns.IRecord :=
  dns.mkRecord (dns.Record_A "192.0.2.9") None.

Definition bare : MemoryAuthority.t :=
  {| MemoryAuthority.soa := (""%string, None);
     MemoryAuthority.records := {["host.example.org"%string := [A_host]]};
     MemoryAuthority._defaultTTLValue := None |}.

(** The [zone] list of a Python source zone. *)
Definition pyzone : list (string * dns.IRecord) :=
  [("Example.com"%string, soa_record);
   ("WWW.example.com"%string, A_www);
   ("example.com"%string, NS_ns1);
   ("www.example.com"%string, A_zero)].

(** A master file, as physical lines and as the token lists that
    [collapseContinuations] makes of them. *)
Definition master_file : list string :=
  ["$TTL 300 ; five minutes" +:+ newline;
   "@ IN SOA ns1 admin (" +:+ newline;
   "    2020010100 3600 600 604800 3600 )" +:+ newline;
   "@ IN NS ns1" +:+ newline;
   "www 60 IN A 192.0.2.80" +:+ newline].

Definition master_lines : list (list string) :=
  [["$TTL"; "300"];
   ["@"; "IN"; "SOA"; "ns1"; "admin"; "2020010100"; "3600"; "600";
    "604800"; "3600"];
   ["@"; "IN"; "NS"; "ns1"];
   ["www"; "60"; "IN"; "A"; "192.0.2.80"]]%string.

Definition fresh : BindAuthority.t :=
  {| BindAuthority.base := MemoryAuthority.__init__;
     BindAuthority.origin := "example.com." |}.

Definition parse (self : BindAuthority.t) (lines : list (list string))
    : Exc BindAuthority.t :=
  BindAuthority.parseLines dns.QUERY_CLASSES_values dns.QUERY_TYPES_values
    dns.str2time dns.Record_ self lines.

(** A zone whose owners have several records with different TTLs: the
    last record of [multi] has a TTL of its own, the last record of
    [plain] has none. *)
Definition A_first : dns.IRecord :=
  dns.mkRecord (dns.Record_A "192.0.2.10") (Some 0).
Definition A_second : dns.IRecord :=
  dns.mkRecord (dns.Record_A "192.0.2.11") None.
Definition TXT_last : dns.IRecord :=
  dns.mkRecord (dns.Record_TXT ["v=1"%string]) (Some 45).
Definition A_early : dns.IRecord :=
  dns.mkRecord (dns.Record_A "192.0.2.12") (Some 7).
Definition TXT_plain : dns.IRecord :=
  dns.mkRecord (dns.Record_TXT ["plain"%string]) None.

Definition hosts : MemoryAuthority.t :=
  {| MemoryAuthority.soa := ("Example.com"%string, Some soa_record);
     MemoryAuthority.records :=
       list_to_map
         [("example.com"%string, [soa_record]);
          ("multi.example.com"%string, [A_first; A_second; TXT_last]);
          ("plain.example.com"%string, [A_early; TXT_plain])];
     MemoryAuthority._defaultTTLValue := Some 3600 |}.


End Example.

(** ** [class PySourceAuthority]: a zone given as a list of records *)

Module PySourceAuthority.

(** [isinstance(rr[1], dns.Record_SOA)] *)
Definition is_Record_SOA (r : dns.IRecord) : bool :=
  match dns.fields r with
  | dns.Record_SOA _ _ _ _ _ _ _ => true
  | _ => false
  end.

(** One iteration of [for rr in l['zone']]. *)
Definition add_rr (self : MemoryAuthority.t) (rr : string * dns.IRecord)
    : MemoryAuthority.t :=
  let key := Py.lower rr.1 in
  {| MemoryAuthority.soa :=
       if is_Record_SOA rr.2 then (rr.1, Some rr.2)
       else MemoryAuthority.soa self;
     MemoryAuthority.records :=
       <[key := default [] (MemoryAuthority.records self !! key) ++ [rr.2]]>
         (MemoryAuthority.records self);
     MemoryAuthority._defaultTTLValue :=
       MemoryAuthority._defaultTTLValue self |}.

Fixpoint zone_loop (self : MemoryAuthority.t)
    (zone : list (string * dns.IRecord)) : MemoryAuthority.t :=
  match zone with
  | [] => self
  | rr :: zone' => zone_loop (add_rr self rr) zone'
  end.

(** [loadFile(filename)], given what running the file left under the
    name [zone] in its local namespace ([None] when it defined no
    [zone]). *)
Definition loadFile (self : MemoryAuthority.t)
    (zone : option (list (string * dns.IRecord))) : Exc MemoryAuthority.t :=
  match zone with
  | None => Raise ValueError
  | Some zone =>
      Ok (zone_loop
            {| MemoryAuthority.soa := MemoryAuthority.soa self;
               MemoryAuthority.records := ∅;
               MemoryAuthority._defaultTTLValue :=
                 MemoryAuthority._defaultTTLValue self |}
            zone)
  end.

(** [PySourceAuthority(filename)]: [FileAuthority.__init__]. *)
Definition __init__ (zone : option (list (string * dns.IRecord)))
    : Exc MemoryAuthority.t :=
  loadFile MemoryAuthority.__init__ zone.

End PySourceAuthority.

(** ** Further notions for the properties *)

Module Query.

Abbreviation Sections :=
  (list dns.RRHeader * list dns.RRHeader * list dns.RRHeader)%type.

(** An NS record under a name other than the apex: a referral. *)
Definition referral (self : MemoryAuthority.t) (name : string)
    (r : dns.IRecord) : bool :=
  (dns.TYPE r =? dns.NS)
  && negb (Py.lower name =? Py.lower (MemoryAuthority.soa self).1)%string.

(** A record the pass puts into the answer for a query of [type]. *)
Definition answers (self : MemoryAuthority.t) (name : string) (type : Z)
    (r : dns.IRecord) : bool :=
  negb (referral self name r)
  && ((dns.TYPE r =? type) || (type =? dns.ALL_RECORDS)).

(** [h] is the header the pass builds from [r] for the queried [name]. *)
Definition built_from (self : MemoryAuthority.t) (name : string)
    (auth : bool) (r : dns.IRecord) (h : dns.RRHeader) : Prop :=
  exists t,
    MemoryAuthority.ttl_if_not_None self r = Ok t /\
    h = dns.mkRRHeader name (dns.TYPE r) dns.IN t (Some r) auth.

(** A header without its owner name. *)
Definition anonymous (h : dns.RRHeader)
    : Z * Z * Z * option dns.IRecord * bool :=
  (dns.rr_type h, dns.rr_cls h, dns.rr_ttl h, dns.rr_payload h,
   dns.rr_auth h).

Definition anonymous_sections (s : Sections) :=
  (map anonymous s.1.1, map anonymous s.1.2, map anonymous s.2).

(** Two states of the pass that differ in the owner names of their
    headers only. *)
Definition similar (l1 l2 : MemoryAuthority.Locals) : Prop :=
  map anonymous (MemoryAuthority.results l1) =
    map anonymous (MemoryAuthority.results l2) /\
  map anonymous (MemoryAuthority.authority l1) =
    map anonymous (MemoryAuthority.authority l2) /\
  map anonymous (MemoryAuthority.cnames l1) =
    map anonymous (MemoryAuthority.cnames l2) /\
  MemoryAuthority.ttl l1 = MemoryAuthority.ttl l2.

(** The store has no empty entry, all its keys are lower-cased and all
    its records have a TTL. *)
Definition loaded (records : gmap string (list dns.IRecord)) : Prop :=
  forall k recs,
    records !! k = Some recs ->
    Py.lower k = k /\ recs <> [] /\
    Forall (fun r => is_Some (dns.ttl r)) recs.

(** [t] is the TTL a header for [r] carries: the record's own TTL when
    it has one, 0 included, and the zone default otherwise. *)
Definition effective_ttl (self : MemoryAuthority.t) (r : dns.IRecord)
    (t : Z) : Prop :=
  match dns.ttl r with
  | Some own => t = own
  | None => MemoryAuthority._defaultTTL self = Ok t
  end.

(** [h] is the class-IN header for [r] under [name], carrying [r] as its
    payload, the type of [r] and the TTL above. *)
Definition header_of (self : MemoryAuthority.t) (name : string)
    (auth : bool) (r : dns.IRecord) (h : dns.RRHeader) : Prop :=
  exists t,
    effective_ttl self r t /\
    h = dns.mkRRHeader name (dns.TYPE r) dns.IN t (Some r) auth.



(** The first two [if] statements of [parseRecordLine]: the owner, the
    domain and what is left of the line. *)
Definition names_part (QUERY_CLASSES_values QUERY_TYPES_values : list string)
    (origin : string) (line : list string)
    : Exc (string * string * list string) :=
  let keyword :=
    BindAuthority.numeric_or_marker QUERY_CLASSES_values
      QUERY_TYPES_values in
  let* t0 := BindAuthority.item 0 line in
  let '(owner, line) :=
    if (t0 =? "@")%string then (origin, tail line)
    else if negb (keyword t0) then (t0, tail line)
    else (origin, line) in
  let* t := BindAuthority.item 0 line in
  if keyword t then Ok (origin, owner, line)
  else Ok (owner, t, tail line).

(** The third [if] statement of [parseRecordLine]: the class, the TTL
    and what is left of the line. *)
Definition class_ttl_part (QUERY_CLASSES_values : list string) (ttl : Z)
    (line : list string) : Exc (string * Z * list string) :=
  let cls := "IN"%string in
  let* t := BindAuthority.item 0 line in
  if Py.str_in t QUERY_CLASSES_values then
    let* t' := BindAuthority.item 0 (tail line) in
    if Py.isdigit t' then
      let* ttl := Py.int t' in Ok (t, ttl, tail (tail line))
    else Ok (t, ttl, tail line)
  else if Py.isdigit t then
    let* ttl := Py.int t in
    let* t' := BindAuthority.item 0 (tail line) in
    if Py.str_in t' QUERY_CLASSES_values
    then Ok (t', ttl, tail (tail line))
    else Ok (cls, ttl, tail line)
  else Ok (cls, ttl, line).

End Query.

(** ** [getSerial]: the serial number kept in a file *)

(** More of Python for [getSerial]: [int] on a token with a sign, the
    formats [%d] and [%02d], and [readline]. *)
Module Fmt.

Definition digit_char (d : N) : ascii := ascii_of_N (48 + d).

Fixpoint str_go (fuel : nat) (n : N) : string :=
  match fuel with
  | O => EmptyString
  | S fuel' =>
      if (n <? 10)%N then String (digit_char n) EmptyString
      else str_go fuel' (n / 10)
           +:+ String (digit_char (n mod 10)) EmptyString
  end.

(** The decimal digits of [n]; [N.size n] bits have at most that many
    decimal digits. *)
Definition str_N (n : N) : string := str_go (S (N.to_nat (N.size n))) n.

(** ['%d' % z] *)
Definition format_d (z : Z) : string :=
  if z <? 0 then String "-" (str_N (Z.to_N (- z))) else str_N (Z.to_N z).

(** ['%02d' % z]: zero-padded to two characters, sign included. *)
Definition format_02d (z : Z) : string :=
  let s := format_d z in
  if (String.length s <? 2)%nat then String "0" s else s.

(** [int(s)] on a token: an optional sign, then decimal digits. *)
Definition int (s : string) : Exc Z :=
  match s with
  | String "-" s' => let* n := Py.int s' in Ok (- n)
  | String "+" s' => Py.int s'
  | _ => Py.int s
  end.

(** [f.readline()] on a file just opened: the text up to and including
    the first newline. *)
Fixpoint readline (content : string) : string :=
  match content with
  | EmptyString => EmptyString
  | String c content' =>
      if Ascii.eqb c "010" then String c EmptyString
      else String c (readline content')
  end.

(** A string without whitespace. *)
Fixpoint no_space (s : string) : bool :=
  match s with
  | EmptyString => true
  | String c s' => negb (Ascii.is_space c) && no_space s'
  end.

(** A non-empty string without whitespace: what [split] returns as one
    word. *)
Definition is_token (s : string) : bool :=
  match s with
  | EmptyString => false
  | _ => no_space s
  end.

End Fmt.

(** [getSerial(filename)].  The environment it reads and writes is made
    explicit: [today] is what [time.strftime('%Y%m%d')] returns, [file]
    is the content of the file at [filename] ([None] when there is no
    such file); the result comes with the content the call leaves
    behind.  The file is taken to be readable and writable; its
    permission bits, which [os.umask] governs on creation, are not part
    of the model. *)
Definition getSerial (today : string) (file : option string)
    : Exc string * option string :=
  let serial := today in
  let content :=
    match file with
    | None => serial +:+ " 0"
    | Some content => content
    end in
  match Py.split (Fmt.readline content) with
  | [lastSerial; ID] =>
      let ID :=
        if (lastSerial =? serial)%string then
          let* n := Fmt.int ID in
          Ok (if n + 1 =? 0 then 0 else n + 1)
        else Ok 0 in
      match ID with
      | Ok ID =>
          (Ok (serial +:+ Fmt.format_02d ID),
           Some (serial +:+ " " +:+ Fmt.format_d ID))
      | Raise e => (Raise e, Some content)
      end
  | _ => (Raise ValueError, Some content)
  end.

(** * Properties *)

(** ** The error monad *)

Lemma bind_Ok {A B : Type} (m : Exc A) (k : A -> Exc B) (b : B) :
  bind m k = Ok b -> exists a, m = Ok a /\ k a = Ok b.
Proof. destruct m as [a|e]; simpl; [eauto | discriminate]. Qed.

(** Split a hypothesis [bind m k = Ok b] into its two halves. *)
Ltac bind_inv H :=
  let a := fresh "a" in
  let Ha := fresh "H" a in
  apply bind_Ok in H; destruct H as (a & Ha & H).

(** ** TTL selection *)

Section TTL.

Variable self : MemoryAuthority.t.

Lemma ttl_if_not_None_explicit (r : dns.IRecord) (t : Z) :
  dns.ttl r = Some t -> MemoryAuthority.ttl_if_not_None self r = Ok t.
Proof. unfold MemoryAuthority.ttl_if_not_None. by intros ->. Qed.

Lemma ttl_or_default_nonzero (r : dns.IRecord) (t : Z) :
  dns.ttl r = Some t -> t <> 0 ->
  MemoryAuthority.ttl_or_default self r = Ok t.
Proof.
  unfold MemoryAuthority.ttl_or_default. intros -> Ht.
  by apply Z.eqb_neq in Ht as ->.
Qed.

Lemma ttl_or_default_zero (r : dns.IRecord) :
  dns.ttl r = Some 0 ->
  MemoryAuthority.ttl_or_default self r = MemoryAuthority._defaultTTL self.
Proof. unfold MemoryAuthority.ttl_or_default. by intros ->. Qed.

(** With an SOA record in place the default TTL is always defined. *)
Lemma _defaultTTL_defined (soa_record : dns.IRecord) :
  (MemoryAuthority.soa self).2 = Some soa_record ->
  dns.TYPE soa_record = dns.SOA ->
  exists d, MemoryAuthority._defaultTTL self = Ok d.
Proof.
  unfold MemoryAuthority._defaultTTL, dns.TYPE. intros -> Hty.
  destruct (MemoryAuthority._defaultTTLValue self); [eauto|].
  destruct (dns.fields soa_record); try discriminate; eauto.
Qed.

Lemma ttl_if_not_None_defined (soa_record r : dns.IRecord) :
  (MemoryAuthority.soa self).2 = Some soa_record ->
  dns.TYPE soa_record = dns.SOA ->
  exists t, MemoryAuthority.ttl_if_not_None self r = Ok t.
Proof.
  intros Hsoa Hty. unfold MemoryAuthority.ttl_if_not_None.
  destruct (dns.ttl r); [eauto|]. by eapply _defaultTTL_defined.
Qed.

End TTL.

(** ** The record pass of [_lookup] *)

Section RecordPass.

Variables (self : MemoryAuthority.t) (name : string) (type : Z).

Local Abbreviation step := (MemoryAuthority.record_step self name type).
Local Abbreviation pass := (MemoryAuthority.record_pass self name type).

(** What one iteration does to each local variable. *)
Lemma record_step_Ok (record : dns.IRecord) (l l' : MemoryAuthority.Locals) :
  step record l = Ok l' ->
  exists t,
    MemoryAuthority.ttl_if_not_None self record = Ok t /\
    MemoryAuthority.ttl l' = Some t /\
    MemoryAuthority.cnames l' =
      (if dns.TYPE record =? dns.CNAME
       then MemoryAuthority.cnames l ++
              [dns.mkRRHeader name (dns.TYPE record) dns.IN t
                 (Some record) true]
       else MemoryAuthority.cnames l) /\
    (MemoryAuthority.results l' = MemoryAuthority.results l \/
     MemoryAuthority.results l' =
       MemoryAuthority.results l ++
         [dns.mkRRHeader name (dns.TYPE record) dns.IN t
            (Some record) true]).
Proof.
  unfold MemoryAuthority.record_step. intros H. bind_inv H.
  exists a. split; [done|].
  destruct (_ && _); [|destruct (_ || _)];
    injection H as <-; simpl; auto.
Qed.

(** The loop variable [ttl] ends as the TTL of the last record. *)
Lemma record_pass_ttl (recs : list dns.IRecord) (r : dns.IRecord)
    (l l' : MemoryAuthority.Locals) :
  pass recs l = Ok l' ->
  last recs = Some r ->
  exists t,
    MemoryAuthority.ttl_if_not_None self r = Ok t /\
    MemoryAuthority.ttl l' = Some t.
Proof.
  revert l. induction recs as [|record recs IH]; intros l Hpass Hlast.
  - discriminate.
  - simpl in Hpass. bind_inv Hpass.
    destruct recs as [|record' recs].
    + simpl in Hpass, Hlast. injection Hpass as <-. injection Hlast as <-.
      apply record_step_Ok in Ha as (t & ? & ? & _). eauto.
    + apply (IH a); [done|]. by rewrite last_cons_cons in Hlast.
Qed.

(** [cnames] is empty at the end exactly when it was at the start and
    the owner has no CNAME record. *)
Lemma record_pass_cnames (recs : list dns.IRecord)
    (l l' : MemoryAuthority.Locals) :
  pass recs l = Ok l' ->
  MemoryAuthority.cnames l' = [] <->
  MemoryAuthority.cnames l = [] /\ Zone.owner_has_CNAME recs = false.
Proof.
  revert l. induction recs as [|record recs IH]; intros l Hpass.
  - injection Hpass as <-. simpl. tauto.
  - simpl in Hpass. bind_inv Hpass.
    rewrite (IH a Hpass). simpl.
    apply record_step_Ok in Ha as (t & _ & _ & Hc & _). rewrite Hc.
    destruct (dns.TYPE record =? dns.CNAME); simpl; [|tauto].
    split; [intros [[_ ?]%app_nil _] | intros [_ ?]]; discriminate.
Qed.

(** A CNAME header in [results] has a twin in [cnames]. *)
Lemma record_pass_results_CNAME (recs : list dns.IRecord)
    (l l' : MemoryAuthority.Locals) :
  pass recs l = Ok l' ->
  (Zone.section_has_CNAME (MemoryAuthority.results l) = true ->
   MemoryAuthority.cnames l <> []) ->
  Zone.section_has_CNAME (MemoryAuthority.results l') = true ->
  MemoryAuthority.cnames l' <> [].
Proof.
  revert l. induction recs as [|record recs IH]; intros l Hpass Hinv.
  - by injection Hpass as <-.
  - simpl in Hpass. bind_inv Hpass. apply (IH a Hpass).
    apply record_step_Ok in Ha as (t & _ & _ & Hc & Hr). rewrite Hc.
    unfold Zone.section_has_CNAME in *.
    destruct Hr as [-> | ->].
    + intros ?. destruct (dns.TYPE record =? dns.CNAME);
        [by intros []%app_nil | auto].
    + rewrite existsb_app. simpl.
      destruct (dns.TYPE record =? dns.CNAME);
        [by intros _ []%app_nil |].
      rewrite !orb_false_r. auto.
Qed.

Lemma record_pass_ttl_bound (record : dns.IRecord)
    (recs : list dns.IRecord) (l l' : MemoryAuthority.Locals) :
  pass (record :: recs) l = Ok l' ->
  exists t, MemoryAuthority.ttl l' = Some t.
Proof.
  intros Hpass.
  destruct (last (record :: recs)) as [r|] eqn:Hlast.
  - destruct (record_pass_ttl _ _ _ _ Hpass Hlast) as (t & _ & ?). eauto.
  - by apply last_None in Hlast.
Qed.

End RecordPass.

(** ** [_lookup] *)

Section LookupFacts.

Variable isSubdomainOf : string -> string -> bool.
Variable self : MemoryAuthority.t.

Local Abbreviation _lookup := (MemoryAuthority._lookup isSubdomainOf self).

(** The failure [_lookup] fires with when it has no records to go on. *)
Lemma lookup_no_records (name : string) (cls type : Z) (timeout : option Z) :
  MemoryAuthority.records self !! Py.lower name = None \/
  MemoryAuthority.records self !! Py.lower name = Some [] ->
  _lookup name cls type timeout =
    Ok (fail (if isSubdomainOf name (MemoryAuthority.soa self).1
              then AuthoritativeDomainError name
              else DomainError name)).
Proof.
  unfold MemoryAuthority._lookup. intros [-> | ->];
    by destruct (isSubdomainOf _ _).
Qed.

(** [_lookup] on an owner with records, in terms of [sections]. *)
Lemma lookup_sections (name : string) (cls type : Z) (timeout : option Z)
    (recs : list dns.IRecord)
    (answer authority additional : list dns.RRHeader) (t : Z) :
  MemoryAuthority.records self !! Py.lower name = Some recs ->
  recs <> [] ->
  MemoryAuthority.sections self name type recs =
    Ok (answer, authority, additional, Some t) ->
  _lookup name cls type timeout =
    Ok (succeed
          (answer,
           match answer, authority with
           | [], [] => [Zone.soa_header self t]
           | _, _ => authority
           end,
           additional)).
Proof.
  unfold MemoryAuthority._lookup. intros -> Hne Hsec.
  destruct recs as [|record recs]; [done|].
  rewrite Hsec. simpl. by destruct answer, authority.
Qed.

(** C2. When the lower-cased query name is not a key of the store,
    [_lookup] returns no sections: it fails with
    [AuthoritativeDomainError(name)] (the spec's NotAuthoritative) if the
    name is a subdomain of, or equal to, the zone apex, and with
    [DomainError(name)] (the spec's NotInZone) otherwise. *)
Theorem lookup_absent_name_fails (name : string) (cls type : Z)
    (timeout : option Z) :
  MemoryAuthority.records self !! Py.lower name = None ->
  _lookup name cls type timeout =
    Ok (fail (if isSubdomainOf name (MemoryAuthority.soa self).1
              then AuthoritativeDomainError name
              else DomainError name)).
Proof. intros H. apply lookup_no_records. by left. Qed.

(** C10. A key that is present with an empty record sequence is treated
    as an absent one: [_lookup] on that name returns no sections and adds
    no SOA, it fails with [AuthoritativeDomainError(name)] inside the apex
    and with [DomainError(name)] outside, which is also what it does once
    the key has been removed from the store. *)
Theorem lookup_empty_entry_as_absent (name : string) (cls type : Z)
    (timeout : option Z) :
  MemoryAuthority.records self !! Py.lower name = Some [] ->
  _lookup name cls type timeout =
    Ok (fail (if isSubdomainOf name (MemoryAuthority.soa self).1
              then AuthoritativeDomainError name
              else DomainError name)) /\
  _lookup name cls type timeout =
    MemoryAuthority._lookup isSubdomainOf
      (Zone.without (Py.lower name) self) name cls type timeout.
Proof.
  intros H. rewrite lookup_no_records by (by right). split; [done|].
  unfold MemoryAuthority._lookup, Zone.without. simpl.
  rewrite lookup_delete_eq. by destruct (isSubdomainOf _ _).
Qed.

(** C3. On an owner with records, when answer and authority are both
    empty after the record pass and the additional processing, [_lookup]
    puts the zone's SOA record alone into authority, under the TTL of the
    last record [r] of the owner's list: [r.ttl] itself if it is not
    [None] (0 included), the zone default [_defaultTTL] otherwise. *)
Theorem empty_response_soa_ttl (name : string) (cls type : Z)
    (timeout : option Z) (recs : list dns.IRecord) (r : dns.IRecord)
    (additional : list dns.RRHeader) (ttl : option Z) :
  MemoryAuthority.records self !! Py.lower name = Some recs ->
  last recs = Some r ->
  MemoryAuthority.sections self name type recs =
    Ok ([], [], additional, ttl) ->
  exists t,
    match dns.ttl r with
    | Some own => t = own
    | None => MemoryAuthority._defaultTTL self = Ok t
    end /\
    _lookup name cls type timeout =
      Ok (succeed
            ([],
             [dns.mkRRHeader (MemoryAuthority.soa self).1 dns.SOA dns.IN t
                (MemoryAuthority.soa self).2 true],
             additional)).
Proof.
  intros Hrecs Hlast Hsec.
  assert (exists t, MemoryAuthority.ttl_if_not_None self r = Ok t
                    /\ ttl = Some t) as (t & Ht & ->).
  { unfold MemoryAuthority.sections in Hsec.
    bind_inv Hsec. bind_inv Hsec.
    destruct (record_pass_ttl _ _ _ _ _ _ _ Ha Hlast) as (t & Ht & Hl).
    exists t. split; [done|].
    destruct (MemoryAuthority.cnames a); injection Hsec as _ _ _ <-; done. }
  exists t. split.
  - unfold MemoryAuthority.ttl_if_not_None in Ht.
    destruct (dns.ttl r) as [own|]; [by injection Ht as -> | exact Ht].
  - rewrite (lookup_sections name cls type timeout recs [] [] additional t);
      [done..| |done].
    intros ->. discriminate.
Qed.

(** C1 (amended). On an owner with records, what the additional
    processing finds goes to the end of the answer section, and additional
    stays empty, exactly when the owner has a CNAME record; otherwise it
    all goes to additional.  An answer that holds a CNAME record is one
    such case, an answer of the queried type next to an unqueried CNAME
    of the same owner is another. *)
Theorem synthesized_records_follow_owner_CNAME (name : string)
    (cls type : Z) (timeout : option Z) (recs : list dns.IRecord)
    (l : MemoryAuthority.Locals) (synthesized : list dns.RRHeader) :
  MemoryAuthority.records self !! Py.lower name = Some recs ->
  recs <> [] ->
  MemoryAuthority.record_pass self name type recs MemoryAuthority.locals0
    = Ok l ->
  MemoryAuthority._additionalRecords self (MemoryAuthority.substituted l)
    (MemoryAuthority.authority l) = Ok synthesized ->
  (Zone.section_has_CNAME (MemoryAuthority.substituted l) = true ->
   Zone.owner_has_CNAME recs = true) /\
  exists authority,
    _lookup name cls type timeout =
      Ok (succeed
            (if Zone.owner_has_CNAME recs
             then (MemoryAuthority.substituted l ++ synthesized,
                   authority, [])
             else (MemoryAuthority.substituted l, authority, synthesized))).
Proof.
  intros Hrecs Hne Hpass Hsyn.
  pose proof (record_pass_cnames _ _ _ _ _ _ Hpass) as Hcn. simpl in Hcn.
  assert (exists t, MemoryAuthority.ttl l = Some t) as [t Ht].
  { destruct recs; [done|]. by eapply record_pass_ttl_bound. }
  split.
  - intros Hsec. destruct (Zone.owner_has_CNAME recs) eqn:Hown; [done|].
    assert (MemoryAuthority.cnames l = []) as Hnil by (by apply Hcn).
    exfalso. revert Hnil.
    unfold MemoryAuthority.substituted in Hsec.
    destruct (MemoryAuthority.results l) eqn:Hres.
    + intros Hnil. by rewrite Hnil in Hsec.
    + apply (record_pass_results_CNAME _ _ _ _ _ _ Hpass); [done|].
      by rewrite Hres.
  - assert (MemoryAuthority.sections self name type recs =
            Ok (if Zone.owner_has_CNAME recs
                then (MemoryAuthority.substituted l ++ synthesized,
                      MemoryAuthority.authority l, [], Some t)
                else (MemoryAuthority.substituted l,
                      MemoryAuthority.authority l, synthesized, Some t)))
      as Hsec.
    { unfold MemoryAuthority.sections. rewrite Hpass. simpl.
      rewrite Hsyn. simpl. rewrite Ht.
      destruct (MemoryAuthority.cnames l) eqn:Hc.
      - destruct Hcn as [[_ ->] _]; done.
      - destruct (Zone.owner_has_CNAME recs); [done|].
        destruct Hcn as [_ Hcn]. by discriminate Hcn. }
    destruct (Zone.owner_has_CNAME recs); eexists;
      by rewrite (lookup_sections _ _ _ _ _ _ _ _ _ Hrecs Hne Hsec).
Qed.

End LookupFacts.

(** ** [lookupZone] *)

Section ZoneTransfer.

Variable self : MemoryAuthority.t.
Variable soa_record : dns.IRecord.
Hypothesis soa_set : (MemoryAuthority.soa self).2 = Some soa_record.
Hypothesis soa_type : dns.TYPE soa_record = dns.SOA.

(** The owner key and the record object a header was built from. *)
Local Abbreviation source :=
  (fun h : dns.RRHeader => (dns.rr_name h, dns.rr_payload h)).
Local Abbreviation entry :=
  (fun kr : string * dns.IRecord => (kr.1, Some kr.2)).

Lemma zone_records_Ok (k : string) (r : list dns.IRecord) :
  exists headers,
    MemoryAuthority.zone_records self k r = Ok headers /\
    map source headers =
      map entry
        (map (pair k)
           (List.filter (fun rec => negb (dns.TYPE rec =? dns.SOA)) r)).
Proof.
  induction r as [|rec r (headers & IH & Hsrc)]; simpl; [by exists []|].
  destruct (ttl_if_not_None_defined self soa_record rec soa_set soa_type)
    as [t ->].
  simpl. rewrite IH. simpl.
  destruct (negb (dns.TYPE rec =? dns.SOA)); eexists; split; try done.
  simpl. by rewrite Hsrc.
Qed.

Lemma zone_items_Ok (items : list (string * list dns.IRecord)) :
  exists headers,
    MemoryAuthority.zone_items self items = Ok headers /\
    map source headers = map entry (Zone.non_soa_records items).
Proof.
  induction items as [|[k r] items (rest & IH & Hsrc)]; simpl;
    [by exists []|].
  destruct (zone_records_Ok k r) as (here & -> & Hhere).
  simpl. rewrite IH. simpl. exists (here ++ rest). split; [done|].
  by rewrite !map_app, Hhere, Hsrc.
Qed.

End ZoneTransfer.

(** C7. For a zone with its SOA record set, [lookupZone] on a name that
    equals the apex up to case succeeds with one list: the SOA header,
    then one header for every non-SOA record of the store, owner by owner
    in the store's iteration order, then the same SOA header again; with
    N non-SOA records in the store the list has N + 2 elements. *)
Theorem lookupZone_soa_at_both_ends (self : MemoryAuthority.t)
    (name : string) (timeout : option Z) (soa_record : dns.IRecord) :
  (MemoryAuthority.soa self).2 = Some soa_record ->
  dns.TYPE soa_record = dns.SOA ->
  Py.lower (MemoryAuthority.soa self).1 = Py.lower name ->
  exists (soa_header : dns.RRHeader) (others : list dns.RRHeader),
    MemoryAuthority.lookupZone self name timeout =
      Ok (succeed (soa_header :: others ++ [soa_header], [], [])) /\
    dns.rr_name soa_header = (MemoryAuthority.soa self).1 /\
    dns.rr_type soa_header = dns.SOA /\
    dns.rr_payload soa_header = Some soa_record /\
    map (fun h => (dns.rr_name h, dns.rr_payload h)) others =
      map (fun kr => (kr.1, Some kr.2))
        (Zone.non_soa_records
           (map_to_list (MemoryAuthority.records self))) /\
    length (soa_header :: others ++ [soa_header]) =
      (length (Zone.non_soa_records
                 (map_to_list (MemoryAuthority.records self))) + 2)%nat.
Proof.
  intros Hsoa Hty Hname. unfold MemoryAuthority.lookupZone.
  apply String.eqb_eq in Hname as ->. rewrite Hsoa.
  destruct (ttl_if_not_None_defined self soa_record soa_record Hsoa Hty)
    as [soa_ttl ->].
  destruct (zone_items_Ok self soa_record Hsoa Hty
              (map_to_list (MemoryAuthority.records self)))
    as (others & -> & Hsrc).
  simpl. eexists _, others. repeat split; try done.
  simpl. rewrite length_app. simpl.
  apply (f_equal length) in Hsrc. rewrite !length_map in Hsrc. lia.
Qed.

(** C8 (amended). [lookupZone] on a name that differs from the apex, both
    lower-cased, fails with [DomainError(name)]: the failure [_lookup]
    uses for a name outside the zone (the spec's NotInZone), not
    [AuthoritativeDomainError]. *)
Theorem lookupZone_other_name_fails (self : MemoryAuthority.t)
    (name : string) (timeout : option Z) :
  Py.lower (MemoryAuthority.soa self).1 <> Py.lower name ->
  MemoryAuthority.lookupZone self name timeout = Ok (fail (DomainError name)).
Proof.
  intros Hne. unfold MemoryAuthority.lookupZone.
  by apply String.eqb_neq in Hne as ->.
Qed.

(** ** The properties on the example zone *)

Lemma lookup_absent_name_fails_witness :
  MemoryAuthority.records Example.zone !! Py.lower "missing.example.com"
    = None /\
  Example.lookup Example.zone "missing.example.com" dns.IN dns.A None =
    Ok (fail (AuthoritativeDomainError "missing.example.com")).
Proof.
  split; [vm_compute; reflexivity|].
  apply (lookup_absent_name_fails dns._isSubdomainOf Example.zone
           "missing.example.com" dns.IN dns.A None).
  vm_compute; reflexivity.
Defined.

Lemma lookup_empty_entry_as_absent_witness :
  MemoryAuthority.records Example.zone !! Py.lower "empty.example.com"
    = Some [] /\
  Example.lookup Example.zone "empty.example.com" dns.IN dns.A None =
    Ok (fail (AuthoritativeDomainError "empty.example.com")).
Proof.
  split; [vm_compute; reflexivity|].
  apply (lookup_empty_entry_as_absent dns._isSubdomainOf Example.zone
           "empty.example.com" dns.IN dns.A None).
  vm_compute; reflexivity.
Defined.

Lemma empty_response_soa_ttl_witness :
  Example.lookup Example.hosts "multi.example.com" dns.IN dns.MX None =
    Ok (succeed
          ([],
           [dns.mkRRHeader "Example.com" dns.SOA dns.IN 45
              (Some Example.soa_record) true],
           [])) /\
  Example.lookup Example.hosts "plain.example.com" dns.IN dns.MX None =
    Ok (succeed
          ([],
           [dns.mkRRHeader "Example.com" dns.SOA dns.IN 3600
              (Some Example.soa_record) true],
           [])).
Proof.
  split.
  - destruct (empty_response_soa_ttl dns._isSubdomainOf Example.hosts
                "multi.example.com" dns.IN dns.MX None
                [Example.A_first; Example.A_second; Example.TXT_last]
                Example.TXT_last [] (Some 45)
                ltac:(vm_compute; reflexivity) ltac:(reflexivity)
                ltac:(vm_compute; reflexivity)) as (t & Ht & Hlookup).
    simpl in Ht. rewrite Ht in Hlookup. exact Hlookup.
  - destruct (empty_response_soa_ttl dns._isSubdomainOf Example.hosts
                "plain.example.com" dns.IN dns.MX None
                [Example.A_early; Example.TXT_plain]
                Example.TXT_plain [] (Some 3600)
                ltac:(vm_compute; reflexivity) ltac:(reflexivity)
                ltac:(vm_compute; reflexivity)) as (t & Ht & Hlookup).
    simpl in Ht. injection Ht as <-. exact Hlookup.
Defined.

Lemma synthesized_records_follow_owner_CNAME_witness :
  exists authority,
    Example.lookup Example.zone "alias.example.com" dns.IN dns.A None =
      Ok (succeed
            ([dns.mkRRHeader "alias.example.com" dns.CNAME dns.IN 3600
                (Some Example.CNAME_www) true;
              dns.mkRRHeader "www.example.com" dns.A dns.IN 300
                (Some Example.A_www) true],
             authority, [])).
Proof.
  apply (synthesized_records_follow_owner_CNAME dns._isSubdomainOf
           Example.zone "alias.example.com" dns.IN dns.A None
           [Example.CNAME_www]
           (MemoryAuthority.mkLocals
              [] []
              [dns.mkRRHeader "alias.example.com" dns.CNAME dns.IN 3600
                 (Some Example.CNAME_www) true]
              (Some 3600))
           [dns.mkRRHeader "www.example.com" dns.A dns.IN 300
              (Some Example.A_www) true]);
    [vm_compute; reflexivity | discriminate | vm_compute; reflexivity..].
Defined.

(** C1, as stated, fails on an MX query for an owner that has an MX and a
    CNAME record: the answer before the additional processing holds the
    MX header only, no CNAME, and yet the address record found for the
    exchange ends up in the answer section and additional stays empty. *)
Lemma answer_without_CNAME_takes_synthesized :
  exists (l : MemoryAuthority.Locals) (synthesized : list dns.RRHeader),
    MemoryAuthority.records Example.zone !! Py.lower "mail.example.com"
      = Some [Example.MX_www; Example.CNAME_www] /\
    MemoryAuthority.record_pass Example.zone "mail.example.com" dns.MX
      [Example.MX_www; Example.CNAME_www] MemoryAuthority.locals0 = Ok l /\
    Zone.section_has_CNAME (MemoryAuthority.substituted l) = false /\
    MemoryAuthority._additionalRecords Example.zone
      (MemoryAuthority.substituted l) (MemoryAuthority.authority l)
      = Ok synthesized /\
    synthesized <> [] /\
    Example.lookup Example.zone "mail.example.com" dns.IN dns.MX None =
      Ok (succeed (MemoryAuthority.substituted l ++ synthesized, [], [])).
Proof.
  eexists _, _. split; [vm_compute; reflexivity|].
  split; [vm_compute; reflexivity|].
  split; [vm_compute; reflexivity|].
  split; [vm_compute; reflexivity|].
  split; [discriminate | vm_compute; reflexivity].
Qed.

Lemma lookupZone_soa_at_both_ends_witness :
  exists (soa_header : dns.RRHeader) (others : list dns.RRHeader),
    MemoryAuthority.lookupZone Example.zone "EXAMPLE.com" None =
      Ok (succeed (soa_header :: others ++ [soa_header], [], [])) /\
    dns.rr_payload soa_header = Some Example.soa_record /\
    length (soa_header :: others ++ [soa_header]) = (8 + 2)%nat.
Proof.
  destruct (lookupZone_soa_at_both_ends Example.zone "EXAMPLE.com" None
              Example.soa_record)
    as (soa_header & others & Hzone & _ & _ & Hpayload & _ & Hlen);
    [vm_compute; reflexivity..|].
  exists soa_header, others. split; [exact Hzone|]. split; [exact Hpayload|].
  rewrite Hlen. vm_compute; reflexivity.
Defined.

Lemma lookupZone_other_name_fails_witness :
  Py.lower (MemoryAuthority.soa Example.zone).1 <> Py.lower "other.org" /\
  MemoryAuthority.lookupZone Example.zone "other.org" None =
    Ok (fail (DomainError "other.org")).
Proof.
  split; [vm_compute; discriminate|].
  apply (lookupZone_other_name_fails Example.zone "other.org" None).
  vm_compute; discriminate.
Defined.

(** C8, as stated, fails for a name outside the zone: [lookupZone] on
    [other.org] in the zone [example.com] fails with [DomainError], not
    with [AuthoritativeDomainError], and the name is not within the
    apex. *)
Lemma lookupZone_other_name_not_AuthoritativeDomainError :
  Py.lower (MemoryAuthority.soa Example.zone).1 <> Py.lower "other.org" /\
  dns._isSubdomainOf "other.org" (MemoryAuthority.soa Example.zone).1
    = false /\
  MemoryAuthority.lookupZone Example.zone "other.org" None <>
    Ok (fail (AuthoritativeDomainError "other.org")).
Proof.
  split; [vm_compute; discriminate|].
  split; [vm_compute; reflexivity | vm_compute; discriminate].
Qed.

(** C9, on the failing input.  The A record of [zero.example.com] has the
    explicit TTL 0.  A query for the name itself answers with TTL 0, the
    zone transfer lists the record with TTL 0, but the header that the
    additional processing builds from the same record, for a query on the
    alias [alias0.example.com], carries the zone default 3600. *)
Theorem additional_ttl_zero_replaced_by_default :
  dns.ttl Example.A_zero = Some 0 /\
  MemoryAuthority._defaultTTL Example.zone = Ok 3600 /\
  Example.lookup Example.zone "zero.example.com" dns.IN dns.A None =
    Ok (succeed
          ([dns.mkRRHeader "zero.example.com" dns.A dns.IN 0
              (Some Example.A_zero) true], [], [])) /\
  MemoryAuthority.zone_records Example.zone "zero.example.com"
    [Example.A_zero] =
    Ok [dns.mkRRHeader "zero.example.com" dns.A dns.IN 0
          (Some Example.A_zero) true] /\
  Example.lookup Example.zone "alias0.example.com" dns.IN dns.A None =
    Ok (succeed
          ([dns.mkRRHeader "alias0.example.com" dns.CNAME dns.IN 3600
              (Some Example.CNAME_zero) true;
            dns.mkRRHeader "zero.example.com" dns.A dns.IN 3600
              (Some Example.A_zero) true], [], [])).
Proof. repeat split; vm_compute; reflexivity. Qed.

(** ** The record-line grammar of [BindAuthority] *)

Section RecordLine.

Variables QUERY_CLASSES_values QUERY_TYPES_values : list string.

Local Abbreviation keyword :=
  (BindAuthority.numeric_or_marker QUERY_CLASSES_values QUERY_TYPES_values).
Local Abbreviation recordLine :=
  (BindAuthority.recordLine QUERY_CLASSES_values QUERY_TYPES_values).

(** The class, TTL and type part of a record line leaves [owner] and
    [domain] as the first part set them. *)
Lemma recordLine_rest (m : Exc (string * Z * list string))
    (owner domain : string) (a : BindAuthority.AddRecord) :
  bind m
    (fun rest =>
       let '(cls, ttl, line) := rest in
       bind (BindAuthority.item 0 line)
         (fun type =>
            Ok (BindAuthority.mkAddRecord owner ttl type domain cls
                  (tail line)))) = Ok a ->
  BindAuthority.owner a = owner /\ BindAuthority.domain a = domain.
Proof.
  intros H. bind_inv H. destruct a0 as [[cls ttl] line].
  bind_inv H. by injection H as <-.
Qed.

(** What [owner] and [domain] are handed to [addRecord], by the shape of
    the line's first two tokens. *)
Lemma recordLine_names (origin : string) (ttl : Z) (line : list string)
    (a : BindAuthority.AddRecord) :
  recordLine origin ttl line = Ok a ->
  exists t0,
    line !! 0%nat = Some t0 /\
    if (t0 =? "@")%string
       || negb (Py.isdigit t0)
          && negb (Py.str_in t0
                     (BindAuthority.MARKERS QUERY_CLASSES_values
                        QUERY_TYPES_values))
    then
      exists t1,
        line !! 1%nat = Some t1 /\
        if keyword t1
        then BindAuthority.owner a = origin /\
             BindAuthority.domain a =
               (if (t0 =? "@")%string then origin else t0)
        else BindAuthority.owner a =
               (if (t0 =? "@")%string then origin else t0) /\
             BindAuthority.domain a = t1
    else BindAuthority.owner a = origin /\ BindAuthority.domain a = origin.
Proof.
  unfold BindAuthority.recordLine, BindAuthority.item. intros H.
  destruct line as [|t0 line]; [discriminate|]. simpl in H.
  exists t0. split; [done|].
  destruct (t0 =? "@")%string eqn:Hat; simpl.
  - destruct line as [|t1 line]; [discriminate|]. simpl in H.
    exists t1. split; [done|].
    destruct (keyword t1); simpl in H;
      [|bind_inv H]; by apply recordLine_rest in H.
  - destruct (negb (Py.isdigit t0) && negb (Py.str_in t0 _)) eqn:Hplain.
    + destruct line as [|t1 line]; [discriminate|]. simpl in H.
      exists t1. split; [done|].
      destruct (keyword t1); simpl in H;
        [|bind_inv H]; by apply recordLine_rest in H.
    + simpl in H.
      assert (keyword t0 = true) as Hkey.
      { unfold BindAuthority.numeric_or_marker.
        apply andb_false_iff in Hplain
          as [Hd%negb_false_iff | Hm%negb_false_iff];
          [by rewrite Hd | by rewrite Hm, orb_true_r]. }
      rewrite Hkey in H. simpl in H. by apply recordLine_rest in H.
Qed.


(** Unless the line starts with two names, [addRecord] is called with the
    origin as [owner]. *)
Lemma recordLine_owner_origin (origin : string) (ttl : Z)
    (line : list string) (a : BindAuthority.AddRecord) :
  Zone.two_leading_names QUERY_CLASSES_values QUERY_TYPES_values line
    = false ->
  recordLine origin ttl line = Ok a ->
  BindAuthority.owner a = origin.
Proof.
  intros Htwo Hline.
  apply recordLine_names in Hline as (t0 & Ht0 & Hnames).
  destruct (t0 =? "@")%string eqn:Heq; simpl in Hnames.
  - destruct Hnames as (t1 & _ & Hnames). destruct (keyword t1); tauto.
  - destruct (negb (Py.isdigit t0) && negb (Py.str_in t0 _)) eqn:Hplain;
      [|tauto].
    destruct Hnames as (t1 & Ht1 & Hnames).
    destruct (keyword t1) eqn:Hk1; [tauto|].
    destruct line as [|t0' [|t1' line]]; try discriminate.
    injection Ht0 as ->. injection Ht1 as ->.
    unfold Zone.two_leading_names in Htwo.
    rewrite Heq, Hk1 in Htwo. simpl in Htwo.
    unfold BindAuthority.numeric_or_marker in Htwo.
    apply andb_true_iff in Hplain as [Hd%negb_true_iff Hm%negb_true_iff].
    by rewrite Hd, Hm in Htwo.
Qed.

(** On every line [addRecord] is called with [Zone.key_suffix] as
    [owner]; on a line that starts with two names the second of them is
    the [domain]. *)
Lemma recordLine_owner_suffix (origin : string) (ttl : Z)
    (line : list string) (a : BindAuthority.AddRecord) :
  recordLine origin ttl line = Ok a ->
  BindAuthority.owner a =
    Zone.key_suffix QUERY_CLASSES_values QUERY_TYPES_values origin line /\
  (Zone.two_leading_names QUERY_CLASSES_values QUERY_TYPES_values line
     = true ->
   line !! 1%nat = Some (BindAuthority.domain a)).
Proof.
  intros Hline.
  destruct (Zone.two_leading_names QUERY_CLASSES_values QUERY_TYPES_values
              line) eqn:Htwo.
  - apply recordLine_names in Hline as (t0 & Ht0 & Hnames).
    destruct line as [|t0' [|t1' line]]; try discriminate.
    injection Ht0 as ->.
    unfold Zone.key_suffix. rewrite Htwo.
    unfold Zone.two_leading_names in Htwo.
    apply andb_true_iff in Htwo as [Htwo Hk1%negb_true_iff].
    apply andb_true_iff in Htwo as [Hat%negb_true_iff Hk0%negb_true_iff].
    unfold BindAuthority.numeric_or_marker in Hk0.
    apply orb_false_iff in Hk0 as [Hd Hm].
    rewrite Hat, Hd, Hm in Hnames. simpl in Hnames.
    destruct Hnames as (t1 & Ht1 & Hnames). injection Ht1 as ->.
    rewrite Hk1 in Hnames. destruct Hnames as [-> ->]. done.
  - split; [|discriminate].
    rewrite (recordLine_owner_origin _ _ _ _ Htwo Hline).
    unfold Zone.key_suffix. rewrite Htwo. by destruct line.
Qed.

End RecordLine.

(** ** Domain normalization and the store key *)

Lemma take_app_length (d s : string) :
  Py.take (String.length d) (d +:+ s) = d.
Proof.
  induction d as [|c d IH]; simpl; [by destruct s|]. by rewrite IH.
Qed.

Lemma length_app_dot (d : string) :
  String.length (d +:+ ".") = S (String.length d).
Proof. induction d as [|c d IH]; simpl; [done|]. by rewrite IH. Qed.

Lemma endswith_app_dot (d : string) : Py.endswith "." (d +:+ ".") = true.
Proof.
  induction d as [|c d IH]; [done|].
  change (String c d +:+ ".") with (String c (d +:+ ".")).
  simpl. rewrite IH. by destruct (d +:+ ".") eqn:E; [destruct d|].
Qed.

(** A string that ends with a dot is some string followed by a dot. *)
Lemma endswith_dot_inv (s : string) :
  Py.endswith "." s = true -> exists d, s = d +:+ ".".
Proof.
  induction s as [|c s IH]; [discriminate|].
  destruct s as [|c' s].
  - simpl. intros ->%Ascii.eqb_eq. by exists ""%string.
  - intros H. destruct (IH H) as [d ->]. by exists (String c d).
Qed.

(** [domain[:-1]] takes the final dot off. *)
Lemma slice_to_app_dot (d : string) : Py.slice_to (d +:+ ".") (-1) = d.
Proof.
  unfold Py.slice_to, Py.len. simpl. rewrite length_app_dot.
  replace (Z.to_nat (Z.max 0 (Z.of_nat (S (String.length d)) + -1)))
    with (String.length d) by lia.
  apply take_app_length.
Qed.

Lemma qualify_absolute (owner d : string) :
  BindAuthority.qualify owner (d +:+ ".") = d.
Proof.
  unfold BindAuthority.qualify.
  by rewrite endswith_app_dot, slice_to_app_dot.
Qed.

Lemma qualify_relative (owner domain : string) :
  Py.endswith "." domain = false ->
  BindAuthority.qualify owner domain = domain +:+ "." +:+ owner.
Proof. unfold BindAuthority.qualify. by intros ->. Qed.

Section StoreKey.

Variables QUERY_CLASSES_values QUERY_TYPES_values : list string.
Variable Record_ : string -> option (list string -> Exc dns.IRecord).

(** [addRecord] appends one record under the lower-cased qualified
    domain and leaves the other keys alone. *)
Lemma addRecord_store (self self' : BindAuthority.t)
    (a : BindAuthority.AddRecord) :
  BindAuthority.addRecord Record_ self a = Ok self' ->
  exists r,
    let records := MemoryAuthority.records (BindAuthority.base self) in
    let key :=
      Py.lower
        (BindAuthority.qualify (BindAuthority.owner a)
           (BindAuthority.domain a)) in
    dns.ttl r = Some (BindAuthority.ttl a) /\
    MemoryAuthority.records (BindAuthority.base self') =
      <[key := default [] (records !! key) ++ [r]]> records.
Proof.
  unfold BindAuthority.addRecord, BindAuthority.class_IN. intros H.
  destruct (BindAuthority.cls a =? "IN")%string; [|discriminate].
  destruct (Record_ (BindAuthority.type a)) as [record|]; [|discriminate].
  bind_inv H. eexists {| dns.fields := dns.fields a0; dns.ttl := _ |}.
  destruct (BindAuthority.type a =? "SOA")%string;
    injection H as <-; by simpl.
Qed.

(** C6 (amended). A record line that is accepted stores its record
    under a key derived from its domain token.  A token that ends with a
    dot (some string followed by a dot) loses that dot, on every line.  Any other token gets a dot and a
    suffix appended: the current origin, except on a line that starts
    with two names, where the suffix is the first name and the domain
    token is the second.  The result is lower-cased. *)
Theorem store_key_of_record_line (self self' : BindAuthority.t)
    (origin : string) (ttl : Z) (line : list string) :
  BindAuthority.parseRecordLine QUERY_CLASSES_values QUERY_TYPES_values
    Record_ self origin ttl line = Ok self' ->
  exists (a : BindAuthority.AddRecord) (r : dns.IRecord) (key : string),
    BindAuthority.recordLine QUERY_CLASSES_values QUERY_TYPES_values
      origin ttl line = Ok a /\
    MemoryAuthority.records (BindAuthority.base self') =
      <[key := default []
                 (MemoryAuthority.records (BindAuthority.base self) !! key)
               ++ [r]]>
        (MemoryAuthority.records (BindAuthority.base self)) /\
    (Zone.two_leading_names QUERY_CLASSES_values QUERY_TYPES_values line
       = true ->
     line !! 1%nat = Some (BindAuthority.domain a)) /\
    (Py.endswith "." (BindAuthority.domain a) = true ->
     exists d, BindAuthority.domain a = d +:+ ".") /\
    (forall d, BindAuthority.domain a = d +:+ "." -> key = Py.lower d) /\
    (Py.endswith "." (BindAuthority.domain a) = false ->
     key =
       Py.lower
         (BindAuthority.domain a +:+ "." +:+
          (if Zone.two_leading_names QUERY_CLASSES_values
                QUERY_TYPES_values line
           then default origin (head line)
           else origin))).
Proof.
  unfold BindAuthority.parseRecordLine. intros H. bind_inv H.
  apply addRecord_store in H as (r & _ & Hstore).
  destruct (recordLine_owner_suffix _ _ _ _ _ _ Ha) as [Howner Hsecond].
  rewrite Howner in Hstore.
  exists a, r,
    (Py.lower
       (BindAuthority.qualify
          (Zone.key_suffix QUERY_CLASSES_values QUERY_TYPES_values origin
             line)
          (BindAuthority.domain a))).
  repeat split; [done..| | |].
  - apply endswith_dot_inv.
  - intros d ->. by rewrite qualify_absolute.
  - intros Hrel. rewrite qualify_relative by done.
    unfold Zone.key_suffix.
    destruct line as [|t0 line]; [|done].
    by destruct (Zone.two_leading_names _ _ _).
Qed.

End StoreKey.

(** ** The parser on the example files *)



(** C5, on the failing input.  The SOA line on one physical line is cut
    at its opening parenthesis: the five numbers are lost and [addRecord]
    gets two rdata tokens.  The same text split after the parenthesis is
    joined up to the closing parenthesis and [addRecord] gets all seven
    rdata tokens.  Split between the numbers, it loses the numbers that
    follow the parenthesis on its line. *)
Theorem continuation_on_one_line_drops_rdata :
  BindAuthority.collapseContinuations
    (BindAuthority.stripComments Example.soa_one_line) =
    Ok [["@"; "IN"; "SOA"; "ns1"; "admin"]%string] /\
  BindAuthority.collapseContinuations
    (BindAuthority.stripComments Example.soa_split) =
    Ok [["@"; "IN"; "SOA"; "ns1"; "admin"; "2020010100"; "3600"; "600";
         "604800"; "3600"]%string] /\
  BindAuthority.recordLine dns.QUERY_CLASSES_values dns.QUERY_TYPES_values
    "example.com." 10800 ["@"; "IN"; "SOA"; "ns1"; "admin"]%string =
    Ok (BindAuthority.mkAddRecord "example.com." 10800 "SOA" "example.com."
          "IN" ["ns1"; "admin"]%string) /\
  BindAuthority.recordLine dns.QUERY_CLASSES_values dns.QUERY_TYPES_values
    "example.com." 10800
    ["@"; "IN"; "SOA"; "ns1"; "admin"; "2020010100"; "3600"; "600";
     "604800"; "3600"]%string =
    Ok (BindAuthority.mkAddRecord "example.com." 10800 "SOA" "example.com."
          "IN"
          ["ns1"; "admin"; "2020010100"; "3600"; "600"; "604800";
           "3600"]%string) /\
  BindAuthority.collapseContinuations
    (BindAuthority.stripComments Example.soa_split_inside) =
    Ok [["@"; "IN"; "SOA"; "ns1"; "admin"; "600"; "604800";
         "3600"]%string] /\
  Example.load "example.com" Example.soa_one_line <>
    Example.load "example.com" Example.soa_split.
Proof.
  repeat split; try (vm_compute; reflexivity).
  vm_compute. discriminate.
Qed.

Lemma store_key_of_record_line_witness :
  (exists (a : BindAuthority.AddRecord) (r : dns.IRecord) (key : string),
     BindAuthority.recordLine dns.QUERY_CLASSES_values
       dns.QUERY_TYPES_values "example.com." 10800
       ["foo"; "Bar."; "IN"; "A"; "192.0.2.1"]%string = Ok a /\
     BindAuthority.domain a = "Bar."%string /\
     key = "bar"%string) /\
  (exists (a : BindAuthority.AddRecord) (r : dns.IRecord) (key : string),
     BindAuthority.recordLine dns.QUERY_CLASSES_values
       dns.QUERY_TYPES_values "example.com." 10800
       ["WWW"; "IN"; "A"; "192.0.2.80"]%string = Ok a /\
     BindAuthority.domain a = "WWW"%string /\
     key = "www.example.com."%string).
Proof.
  split.
  - destruct (store_key_of_record_line dns.QUERY_CLASSES_values
                dns.QUERY_TYPES_values dns.Record_
                (BindAuthority.mk MemoryAuthority.__init__ "example.com.")
                (BindAuthority.mk
                   (MemoryAuthority.mk ("", None)
                      {["bar"%string :=
                          [dns.mkRecord (dns.Record_A "192.0.2.1")
                             (Some 10800)]]}
                      None)
                   "example.com.")
                "example.com." 10800
                ["foo"; "Bar."; "IN"; "A"; "192.0.2.1"]%string)
      as (a & r & key & Ha & _ & _ & _ & Habs & _);
      [vm_compute; reflexivity|].
    exists a, r, key. split; [exact Ha|].
    injection Ha as <-. split; [reflexivity|].
    apply (Habs "Bar"%string). reflexivity.
  - destruct (store_key_of_record_line dns.QUERY_CLASSES_values
                dns.QUERY_TYPES_values dns.Record_
                (BindAuthority.mk MemoryAuthority.__init__ "example.com.")
                (BindAuthority.mk
                   (MemoryAuthority.mk ("", None)
                      {["www.example.com."%string :=
                          [dns.mkRecord (dns.Record_A "192.0.2.80")
                             (Some 10800)]]}
                      None)
                   "example.com.")
                "example.com." 10800
                ["WWW"; "IN"; "A"; "192.0.2.80"]%string)
      as (a & r & key & Ha & _ & _ & _ & _ & Hrel);
      [vm_compute; reflexivity|].
    exists a, r, key. split; [exact Ha|].
    injection Ha as <-. split; [reflexivity|].
    rewrite Hrel; vm_compute; reflexivity.
Defined.

(** C6, as stated, fails on a line that starts with two names: the
    domain token [bar] does not end with a dot, yet the record is stored
    under [bar.foo], the first name standing where the claim has the
    origin [example.com.]. *)
Lemma two_names_key_ignores_origin :
  exists auth : BindAuthority.t,
    BindAuthority.parseRecordLine dns.QUERY_CLASSES_values
      dns.QUERY_TYPES_values dns.Record_
      (BindAuthority.mk MemoryAuthority.__init__ "example.com.")
      "example.com." 10800 ["foo"; "bar"; "IN"; "A"; "192.0.2.1"]%string
      = Ok auth /\
    BindAuthority.recordLine dns.QUERY_CLASSES_values
      dns.QUERY_TYPES_values
      "example.com." 10800 ["foo"; "bar"; "IN"; "A"; "192.0.2.1"]%string
      = Ok (BindAuthority.mkAddRecord "foo" 10800 "A" "bar" "IN"
              ["192.0.2.1"%string]) /\
    map_to_list (MemoryAuthority.records (BindAuthority.base auth)) =
      [("bar.foo"%string,
          [dns.mkRecord (dns.Record_A "192.0.2.1") (Some 10800)])] /\
    "bar.foo"%string <> Py.lower ("bar" +:+ "." +:+ "example.com.").
Proof.
  eexists. split; [vm_compute; reflexivity|].
  split; [vm_compute; reflexivity|].
  split; [vm_compute; reflexivity | vm_compute; discriminate].
Qed.

(** * Further properties of the resolver *)

(** ** What the record pass selects *)

Section PassSelection.

Variables (self : MemoryAuthority.t) (name : string) (type : Z).

Local Abbreviation is_CNAME := (fun r : dns.IRecord => dns.TYPE r =? dns.CNAME).

Lemma record_step_built (record : dns.IRecord)
    (l l' : MemoryAuthority.Locals) :
  MemoryAuthority.record_step self name type record l = Ok l' ->
  exists t,
    MemoryAuthority.ttl_if_not_None self record = Ok t /\
    MemoryAuthority.ttl l' = Some t /\
    MemoryAuthority.results l' =
      MemoryAuthority.results l ++
        (if Query.answers self name type record
         then [dns.mkRRHeader name (dns.TYPE record) dns.IN t
                 (Some record) true]
         else []) /\
    MemoryAuthority.authority l' =
      MemoryAuthority.authority l ++
        (if Query.referral self name record
         then [dns.mkRRHeader name (dns.TYPE record) dns.IN t
                 (Some record) false]
         else []) /\
    MemoryAuthority.cnames l' =
      MemoryAuthority.cnames l ++
        (if is_CNAME record
         then [dns.mkRRHeader name (dns.TYPE record) dns.IN t
                 (Some record) true]
         else []).
Proof.
  unfold MemoryAuthority.record_step, Query.answers, Query.referral.
  intros H. bind_inv H. exists a. split; [done|].
  destruct (_ && _); simpl; [|destruct (_ || _)];
    injection H as <-; simpl;
    destruct (dns.TYPE record =? dns.CNAME);
    by rewrite ?app_nil_r.
Qed.

(** The three lists the pass builds, record by record. *)
Lemma record_pass_built (recs : list dns.IRecord)
    (l l' : MemoryAuthority.Locals) :
  MemoryAuthority.record_pass self name type recs l = Ok l' ->
  exists R A C,
    MemoryAuthority.results l' = MemoryAuthority.results l ++ R /\
    MemoryAuthority.authority l' = MemoryAuthority.authority l ++ A /\
    MemoryAuthority.cnames l' = MemoryAuthority.cnames l ++ C /\
    Forall2 (Query.built_from self name true)
      (List.filter (Query.answers self name type) recs) R /\
    Forall2 (Query.built_from self name false)
      (List.filter (Query.referral self name) recs) A /\
    Forall2 (Query.built_from self name true)
      (List.filter is_CNAME recs) C.
Proof.
  revert l. induction recs as [|record recs IH]; intros l Hpass.
  - injection Hpass as <-. exists [], [], [].
    by rewrite !app_nil_r.
  - simpl in Hpass. bind_inv Hpass.
    apply record_step_built in Ha as (t & Ht & _ & Hr & Ha' & Hc).
    destruct (IH a Hpass) as (R & A & C & -> & -> & -> & HR & HA & HC).
    rewrite Hr, Ha', Hc, <- !app_assoc. simpl.
    eexists _, _, _. repeat split; try reflexivity.
    + destruct (Query.answers self name type record); simpl; [|done].
      constructor; [by exists t | done].
    + destruct (Query.referral self name record); simpl; [|done].
      constructor; [by exists t | done].
    + destruct (dns.TYPE record =? dns.CNAME); simpl; [|done].
      constructor; [by exists t | done].
Qed.

End PassSelection.

(** ** The sections of a successful [_lookup] *)

(** The TTL the pass computes for a record is the record's own when it
    has one, and the zone default otherwise. *)
Lemma ttl_if_not_None_effective (self : MemoryAuthority.t)
    (r : dns.IRecord) (t : Z) :
  MemoryAuthority.ttl_if_not_None self r = Ok t ->
  Query.effective_ttl self r t.
Proof.
  unfold MemoryAuthority.ttl_if_not_None, Query.effective_ttl.
  destruct (dns.ttl r) as [own|]; [by intros [= ->] | done].
Qed.

Lemma built_from_header_of (self : MemoryAuthority.t) (name : string)
    (auth : bool) (r : dns.IRecord) (h : dns.RRHeader) :
  Query.built_from self name auth r h -> Query.header_of self name auth r h.
Proof.
  intros (t & Ht & ->). exists t.
  split; [by apply ttl_if_not_None_effective | done].
Qed.

Section LookupSections.

Variable isSubdomainOf : string -> string -> bool.
Variable self : MemoryAuthority.t.

Local Abbreviation _lookup := (MemoryAuthority._lookup isSubdomainOf self).
Local Abbreviation is_CNAME := (fun r : dns.IRecord => dns.TYPE r =? dns.CNAME).

(** A successful [_lookup], taken apart. *)
Lemma lookup_succeed_inv (name : string) (cls type : Z) (timeout : option Z)
    (recs : list dns.IRecord)
    (answer authority additional : list dns.RRHeader) :
  MemoryAuthority.records self !! Py.lower name = Some recs ->
  _lookup name cls type timeout = Ok (succeed (answer, authority, additional)) ->
  exists l synthesized t,
    recs <> [] /\
    MemoryAuthority.record_pass self name type recs MemoryAuthority.locals0
      = Ok l /\
    MemoryAuthority._additionalRecords self (MemoryAuthority.substituted l)
      (MemoryAuthority.authority l) = Ok synthesized /\
    MemoryAuthority.ttl l = Some t /\
    answer =
      MemoryAuthority.substituted l ++
        match MemoryAuthority.cnames l with
        | [] => []
        | _ => synthesized
        end /\
    additional =
      match MemoryAuthority.cnames l with
      | [] => synthesized
      | _ => []
      end /\
    authority =
      match answer, MemoryAuthority.authority l with
      | [], [] => [Zone.soa_header self t]
      | _, _ => MemoryAuthority.authority l
      end.
Proof.
  unfold MemoryAuthority._lookup. intros -> H.
  destruct recs as [|record recs];
    [by destruct (isSubdomainOf _ _)|].
  bind_inv H. destruct a as [[[results auth] addl] ttl].
  unfold MemoryAuthority.sections in Ha. bind_inv Ha. bind_inv Ha.
  rename a into l, a0 into synthesized.
  destruct (record_pass_ttl_bound _ _ _ _ _ _ _ Ha0) as [t Ht].
  exists l, synthesized, t.
  assert (results =
            MemoryAuthority.substituted l ++
              match MemoryAuthority.cnames l with
              | [] => []
              | _ => synthesized
              end /\
          auth = MemoryAuthority.authority l /\
          addl = match MemoryAuthority.cnames l with
                 | [] => synthesized
                 | _ => []
                 end /\
          ttl = Some t) as (-> & -> & -> & ->).
  { destruct (MemoryAuthority.cnames l); injection Ha as <- <- <- <-;
      by rewrite ?app_nil_r. }
  simpl in H.
  remember (MemoryAuthority.substituted l ++ _) as ans eqn:Hans in H.
  rewrite <- Hans.
  assert (answer = ans /\
          additional = match MemoryAuthority.cnames l with
                       | [] => synthesized
                       | _ => []
                       end /\
          authority = match ans, MemoryAuthority.authority l with
                      | [], [] => [Zone.soa_header self t]
                      | _, _ => MemoryAuthority.authority l
                      end) as (-> & -> & ->).
  { destruct ans, (MemoryAuthority.authority l);
      injection H as <- <- <-; done. }
  done.
Qed.

(** X1. When the owner has a record of the queried type (any record, for
    an ALL_RECORDS query) that is not a referral, the answer section
    starts with one authoritative class-IN header per such record, in the
    order of the store, each with the record as payload and under the
    record's own TTL if it is not [None] (0 included) and the zone
    default [_defaultTTL] otherwise; nothing follows them unless the
    owner also has a CNAME record. *)
Theorem answer_starts_with_selected_records (name : string) (cls type : Z)
    (timeout : option Z) (recs : list dns.IRecord)
    (answer authority additional : list dns.RRHeader) :
  MemoryAuthority.records self !! Py.lower name = Some recs ->
  List.filter (Query.answers self name type) recs <> [] ->
  _lookup name cls type timeout = Ok (succeed (answer, authority, additional)) ->
  exists selected extra,
    answer = selected ++ extra /\
    Forall2
      (fun (r : dns.IRecord) (h : dns.RRHeader) =>
         exists t,
           match dns.ttl r with
           | Some own => t = own
           | None => MemoryAuthority._defaultTTL self = Ok t
           end /\
           h = dns.mkRRHeader name (dns.TYPE r) dns.IN t (Some r) true)
      (List.filter (Query.answers self name type) recs) selected /\
    (Zone.owner_has_CNAME recs = false -> extra = []).
Proof.
  intros Hrecs Hsel H.
  destruct (lookup_succeed_inv _ _ _ _ _ _ _ _ Hrecs H)
    as (l & synthesized & t & _ & Hpass & _ & _ & -> & _ & _).
  destruct (record_pass_built _ _ _ _ _ _ Hpass)
    as (R & A & C & HR & _ & HC & HRb & _ & _). simpl in HR, HC.
  exists R, (match MemoryAuthority.cnames l with
             | [] => []
             | _ => synthesized
             end).
  assert (MemoryAuthority.substituted l = R) as ->.
  { unfold MemoryAuthority.substituted. rewrite HR.
    destruct R; [|done]. apply Forall2_nil_inv_r in HRb. done. }
  repeat split.
  - eapply Forall2_impl; [exact HRb|].
    intros r h Hb. by apply built_from_header_of in Hb.
  - intros Hno.
    destruct (record_pass_cnames _ _ _ _ _ _ Hpass) as [_ Hnil].
    by rewrite Hnil.
Qed.

(** X2. When no record of the owner is selected for the answer, the CNAME
    records of the owner stand in: the answer section starts with one
    authoritative header per CNAME record of the owner, in the order of
    the store. *)
Theorem answer_substitutes_CNAME_records (name : string) (cls type : Z)
    (timeout : option Z) (recs : list dns.IRecord)
    (answer authority additional : list dns.RRHeader) :
  MemoryAuthority.records self !! Py.lower name = Some recs ->
  List.filter (Query.answers self name type) recs = [] ->
  _lookup name cls type timeout = Ok (succeed (answer, authority, additional)) ->
  exists aliases extra,
    answer = aliases ++ extra /\
    Forall2 (Query.built_from self name true)
      (List.filter is_CNAME recs) aliases.
Proof.
  intros Hrecs Hsel H.
  destruct (lookup_succeed_inv _ _ _ _ _ _ _ _ Hrecs H)
    as (l & synthesized & t & _ & Hpass & _ & _ & -> & _ & _).
  destruct (record_pass_built _ _ _ _ _ _ Hpass)
    as (R & A & C & HR & _ & HC & HRb & _ & HCb). simpl in HR, HC.
  rewrite Hsel in HRb. apply Forall2_nil_inv_l in HRb as ->.
  eexists C, _. split; [|done].
  unfold MemoryAuthority.substituted. by rewrite HR, HC.
Qed.

(** X3. The authority section of a successful [_lookup] is one of two
    things: the referrals, one non-authoritative header per NS record of
    an owner other than the apex, in the order of the store; or, when
    there are neither referrals nor answers, the SOA header alone. *)
Theorem authority_is_referrals_or_SOA (name : string) (cls type : Z)
    (timeout : option Z) (recs : list dns.IRecord)
    (answer authority additional : list dns.RRHeader) :
  MemoryAuthority.records self !! Py.lower name = Some recs ->
  _lookup name cls type timeout = Ok (succeed (answer, authority, additional)) ->
  exists referrals,
    Forall2 (Query.built_from self name false)
      (List.filter (Query.referral self name) recs) referrals /\
    ((authority = referrals /\ (answer <> [] \/ referrals <> [])) \/
     (referrals = [] /\ answer = [] /\
      exists t, authority = [Zone.soa_header self t])).
Proof.
  intros Hrecs H.
  destruct (lookup_succeed_inv _ _ _ _ _ _ _ _ Hrecs H)
    as (l & synthesized & t & _ & Hpass & _ & _ & _ & _ & ->).
  destruct (record_pass_built _ _ _ _ _ _ Hpass)
    as (R & A & C & _ & HA & _ & _ & HAb & _). simpl in HA.
  exists A. split; [done|]. rewrite HA.
  destruct answer, A; eauto 6; left; split; auto; by left.
Qed.

(** X4. A query for the apex name itself never yields a referral: the
    authority section is empty, or it is the SOA header alone next to an
    empty answer. *)
Theorem apex_query_has_no_referral (name : string) (cls type : Z)
    (timeout : option Z) (recs : list dns.IRecord)
    (answer authority additional : list dns.RRHeader) :
  Py.lower name = Py.lower (MemoryAuthority.soa self).1 ->
  MemoryAuthority.records self !! Py.lower name = Some recs ->
  _lookup name cls type timeout = Ok (succeed (answer, authority, additional)) ->
  authority = [] \/
  (answer = [] /\ exists t, authority = [Zone.soa_header self t]).
Proof.
  intros Hapex Hrecs H.
  destruct (lookup_succeed_inv _ _ _ _ _ _ _ _ Hrecs H)
    as (l & synthesized & t & _ & Hpass & _ & _ & _ & _ & ->).
  destruct (record_pass_built _ _ _ _ _ _ Hpass)
    as (R & A & C & _ & HA & _ & _ & HAb & _). simpl in HA.
  assert (List.filter (Query.referral self name) recs = []) as Hnone.
  { clear -Hapex. induction recs as [|r recs' IH]; [done|]. simpl.
    rewrite IH. unfold Query.referral.
    by rewrite Hapex, String.eqb_refl, andb_false_r. }
  rewrite Hnone in HAb. apply Forall2_nil_inv_l in HAb as ->.
  rewrite HA. destruct answer; eauto.
Qed.

(** X5. A successful [_lookup] never returns an empty answer together
    with an empty authority section. *)
Theorem lookup_response_not_empty (name : string) (cls type : Z)
    (timeout : option Z)
    (answer authority additional : list dns.RRHeader) :
  _lookup name cls type timeout = Ok (succeed (answer, authority, additional)) ->
  answer <> [] \/ authority <> [].
Proof.
  intros H.
  destruct (MemoryAuthority.records self !! Py.lower name) as [recs|] eqn:Hrecs.
  - destruct (lookup_succeed_inv _ _ _ _ _ _ _ _ Hrecs H)
      as (l & synthesized & t & _ & _ & _ & _ & _ & _ & ->).
    destruct answer; [right | by left].
    by destruct (MemoryAuthority.authority l).
  - rewrite lookup_no_records in H by (by left). discriminate.
Qed.

End LookupSections.

(** ** Additional processing *)

Section Additional.

Variable self : MemoryAuthority.t.

Lemma address_headers_found (name : string) (recs : list dns.IRecord)
    (headers : list dns.RRHeader) :
  MemoryAuthority.address_headers self name recs = Ok headers ->
  Forall
    (fun h =>
       dns.rr_name h = name /\ dns.rr_cls h = dns.IN /\
       dns.rr_auth h = true /\
       (dns.rr_type h = dns.A \/ dns.rr_type h = dns.AAAA) /\
       exists rec,
         rec ∈ recs /\ dns.rr_payload h = Some rec /\
         dns.rr_type h = dns.TYPE rec /\
         MemoryAuthority.ttl_or_default self rec = Ok (dns.rr_ttl h))
    headers.
Proof.
  revert headers. induction recs as [|rec recs IH]; intros headers H.
  - injection H as <-. constructor.
  - simpl in H.
    destruct ((dns.TYPE rec =? dns.A) || _) eqn:Haddr.
    + bind_inv H. bind_inv H. injection H as <-. constructor.
      * simpl. repeat split; try done.
        { rewrite orb_false_r in Haddr.
          apply orb_true_iff in Haddr as [?%Z.eqb_eq | ?%Z.eqb_eq]; auto. }
        exists rec. repeat split; try done. apply list_elem_of_here.
      * eapply Forall_impl; [by apply IH|]. simpl.
        intros h (? & ? & ? & ? & rec' & ? & ?).
        repeat split; try done. exists rec'. split; [|done].
        by apply list_elem_of_further.
    + eapply Forall_impl; [by apply IH|]. simpl.
      intros h (? & ? & ? & ? & rec' & ? & ?).
      repeat split; try done. exists rec'. split; [|done].
      by apply list_elem_of_further.
Qed.

(** X6. Everything additional processing yields is an authoritative
    class-IN header of type A or AAAA, built from a record that the store
    holds under the lower-cased name the header carries. *)
Theorem additional_records_are_stored_addresses
    (answer authority synthesized : list dns.RRHeader) :
  MemoryAuthority._additionalRecords self answer authority
    = Ok synthesized ->
  Forall
    (fun h =>
       dns.rr_cls h = dns.IN /\ dns.rr_auth h = true /\
       (dns.rr_type h = dns.A \/ dns.rr_type h = dns.AAAA) /\
       exists rec recs,
         MemoryAuthority.records self !! Py.lower (dns.rr_name h)
           = Some recs /\
         rec ∈ recs /\ dns.rr_payload h = Some rec /\
         dns.rr_type h = dns.TYPE rec)
    synthesized.
Proof.
  unfold MemoryAuthority._additionalRecords.
  generalize (answer ++ authority). intros headers. revert synthesized.
  induction headers as [|record headers IH]; intros synthesized H.
  - injection H as <-. constructor.
  - simpl in H. bind_inv H. bind_inv H. injection H as <-.
    apply Forall_app. split; [|by apply IH].
    destruct ((dns.rr_type record =? dns.CNAME) || _);
      [|by injection Ha as <-].
    bind_inv Ha. apply address_headers_found in Ha.
    eapply Forall_impl; [exact Ha|]. simpl.
    intros h (-> & ? & ? & ? & rec & Hin & ? & ? & _).
    repeat split; try done.
    destruct (MemoryAuthority.records self !! Py.lower a1) as [recs|];
      simpl in Hin; [by exists rec, recs|].
    by apply elem_of_nil in Hin.
Qed.

Lemma additional_for_none (headers : list dns.RRHeader) :
  Forall
    (fun h =>
       Py.int_in (dns.rr_type h)
         MemoryAuthority._ADDITIONAL_PROCESSING_TYPES = false)
    headers ->
  MemoryAuthority.additional_for self headers = Ok [].
Proof.
  induction 1 as [|h headers Hh _ IH]; [done|].
  cbn [MemoryAuthority.additional_for]. by rewrite Hh, IH.
Qed.

(** A header built by the pass has its record as payload and its
    record's type. *)
Lemma built_from_payload (name : string) (auth : bool)
    (rs : list dns.IRecord) (hs : list dns.RRHeader) :
  Forall2 (Query.built_from self name auth) rs hs ->
  Forall
    (fun h =>
       exists r,
         r ∈ rs /\ dns.rr_payload h = Some r /\
         dns.rr_type h = dns.TYPE r)
    hs.
Proof.
  induction 1 as [|r h rs hs (t & _ & ->) _ IH]; constructor.
  - exists r. split; [apply list_elem_of_here | done].
  - eapply Forall_impl; [exact IH|]. simpl.
    intros h' (r' & ? & ?). exists r'. split; [|done].
    by apply list_elem_of_further.
Qed.

Lemma elem_of_filter_bool (f : dns.IRecord -> bool) (r : dns.IRecord)
    (rs : list dns.IRecord) :
  r ∈ List.filter f rs -> r ∈ rs.
Proof.
  rewrite !list_elem_of_In. intros H. by apply filter_In in H as [? _].
Qed.

(** The headers the pass hands to additional processing all come from
    records of the owner. *)
Lemma record_pass_payloads (name : string) (type : Z)
    (recs : list dns.IRecord) (l : MemoryAuthority.Locals) :
  MemoryAuthority.record_pass self name type recs MemoryAuthority.locals0
    = Ok l ->
  Forall
    (fun h =>
       exists r,
         r ∈ recs /\ dns.rr_payload h = Some r /\
         dns.rr_type h = dns.TYPE r)
    (MemoryAuthority.substituted l ++ MemoryAuthority.authority l).
Proof.
  intros Hpass.
  destruct (record_pass_built _ _ _ _ _ _ Hpass)
    as (R & A & C & HR & HA & HC & HRb & HAb & HCb).
  simpl in HR, HA, HC.
  assert (forall f hs auth,
            Forall2 (Query.built_from self name auth)
              (List.filter f recs) hs ->
            Forall
              (fun h =>
                 exists r,
                   r ∈ recs /\ dns.rr_payload h = Some r /\
                   dns.rr_type h = dns.TYPE r) hs) as Hin.
  { intros f hs auth Hb. apply built_from_payload in Hb.
    eapply Forall_impl; [exact Hb|]. simpl.
    intros h (r & ?%elem_of_filter_bool & ?). by exists r. }
  apply Forall_app. split; [|rewrite HA; by eapply Hin].
  unfold MemoryAuthority.substituted. rewrite HR, HC.
  destruct R; [by eapply Hin | by eapply (Hin _ (_ :: _))].
Qed.

End Additional.

(** ** When [_lookup] raises and when it cannot *)

Section LookupRaises.

Variable isSubdomainOf : string -> string -> bool.
Variable self : MemoryAuthority.t.

Local Abbreviation _lookup := (MemoryAuthority._lookup isSubdomainOf self).

(** X7. For an owner without NS, CNAME and MX records there is nothing to
    process: the additional section of a successful [_lookup] is empty
    and every header of the answer is built from a record of the owner. *)
Theorem no_additional_without_name_records (name : string) (cls type : Z)
    (timeout : option Z) (recs : list dns.IRecord)
    (answer authority additional : list dns.RRHeader) :
  MemoryAuthority.records self !! Py.lower name = Some recs ->
  Forall
    (fun r =>
       Py.int_in (dns.TYPE r)
         MemoryAuthority._ADDITIONAL_PROCESSING_TYPES = false) recs ->
  _lookup name cls type timeout = Ok (succeed (answer, authority, additional)) ->
  additional = [] /\
  Forall (fun h => exists r, r ∈ recs /\ dns.rr_payload h = Some r) answer.
Proof.
  intros Hrecs Hnone H.
  destruct (lookup_succeed_inv _ _ _ _ _ _ _ _ _ _ Hrecs H)
    as (l & synthesized & t & _ & Hpass & Hsyn & _ & -> & -> & _).
  pose proof (record_pass_payloads _ _ _ _ _ Hpass) as Hpay.
  assert (synthesized = []) as ->.
  { unfold MemoryAuthority._additionalRecords in Hsyn.
    rewrite additional_for_none in Hsyn; [by injection Hsyn|].
    eapply Forall_impl; [exact Hpay|]. simpl.
    intros h (r & Hin & _ & ->).
    rewrite Forall_forall in Hnone. by apply Hnone. }
  split; [by destruct (MemoryAuthority.cnames l)|].
  apply Forall_app in Hpay as [Hpay _].
  assert (forall x : list dns.RRHeader,
            match x with [] => [] | _ :: _ => @nil dns.RRHeader end = [])
    as -> by (by intros []).
  rewrite app_nil_r. eapply Forall_impl; [exact Hpay|]. simpl.
  intros h (r & ? & ? & _). by exists r.
Qed.

Lemma record_pass_defined (d : Z) (name : string) (type : Z)
    (recs : list dns.IRecord) (l : MemoryAuthority.Locals) :
  MemoryAuthority._defaultTTL self = Ok d ->
  exists l', MemoryAuthority.record_pass self name type recs l = Ok l'.
Proof.
  intros Hd. revert l. induction recs as [|r recs IH]; intros l;
    [by eexists|].
  simpl. unfold MemoryAuthority.record_step at 1.
  unfold MemoryAuthority.ttl_if_not_None. rewrite Hd.
  destruct (dns.ttl r); simpl; destruct (_ && _);
    try destruct (_ || _); apply IH.
Qed.

Lemma address_headers_defined (d : Z) (name : string)
    (recs : list dns.IRecord) :
  MemoryAuthority._defaultTTL self = Ok d ->
  exists hs, MemoryAuthority.address_headers self name recs = Ok hs.
Proof.
  intros Hd. induction recs as [|r recs [hs IH]]; [by eexists|].
  cbn [MemoryAuthority.address_headers]. rewrite IH.
  destruct (Py.int_in _ _); [|by eexists].
  unfold MemoryAuthority.ttl_or_default. rewrite Hd.
  destruct (dns.ttl r) as [t|]; [destruct (t =? 0)|]; by eexists.
Qed.

Lemma additional_for_defined (d : Z) (headers : list dns.RRHeader) :
  MemoryAuthority._defaultTTL self = Ok d ->
  Forall
    (fun h =>
       exists r, dns.rr_payload h = Some r /\ dns.rr_type h = dns.TYPE r)
    headers ->
  exists hs, MemoryAuthority.additional_for self headers = Ok hs.
Proof.
  intros Hd. induction 1 as [|h headers (r & Hp & Hty) _ [hs IH]];
    [by eexists|].
  cbn [MemoryAuthority.additional_for]. rewrite IH.
  destruct (Py.int_in _ _) eqn:Hproc; [|by eexists].
  assert (exists n, dns.payload_name h = Ok n) as [n ->].
  { unfold dns.payload_name. rewrite Hp. rewrite Hty in Hproc.
    unfold dns.TYPE in Hproc.
    destruct (dns.fields r); try discriminate; by eexists. }
  simpl.
  destruct (address_headers_defined d n
              (default [] (MemoryAuthority.records self !! Py.lower n)) Hd)
    as [here ->].
  by eexists.
Qed.

(** X8. When the default TTL can be had (one was configured, or the SOA
    record is there to fall back on), [_lookup] raises nothing, whatever
    the store holds: it returns a Deferred that has fired. *)
Theorem lookup_raises_nothing_with_default_TTL (d : Z) (name : string)
    (cls type : Z) (timeout : option Z) :
  MemoryAuthority._defaultTTL self = Ok d ->
  exists fired, _lookup name cls type timeout = Ok fired.
Proof.
  intros Hd. unfold MemoryAuthority._lookup.
  destruct (MemoryAuthority.records self !! Py.lower name) as [[|r recs]|];
    try (destruct (isSubdomainOf _ _); by eexists).
  destruct (record_pass_defined d name type (r :: recs)
              MemoryAuthority.locals0 Hd) as [l Hpass].
  destruct (record_pass_ttl_bound _ _ _ _ _ _ _ Hpass) as [t Ht].
  pose proof (record_pass_payloads _ _ _ _ _ Hpass) as Hpay.
  destruct (additional_for_defined d
              (MemoryAuthority.substituted l ++ MemoryAuthority.authority l)
              Hd) as [synthesized Hsyn].
  { eapply Forall_impl; [exact Hpay|]. simpl.
    intros h (r' & _ & ?). by exists r'. }
  unfold MemoryAuthority.sections, MemoryAuthority._additionalRecords.
  rewrite Hpass. simpl. rewrite Hsyn. simpl. rewrite Ht.
  destruct (MemoryAuthority.cnames l); simpl;
    repeat (match goal with
            | |- context [match ?x with [] => _ | _ :: _ => _ end] =>
                destruct x
            end; simpl);
    by eexists.
Qed.

Lemma record_pass_raises (e : Exn) (name : string) (type : Z)
    (recs : list dns.IRecord) (l : MemoryAuthority.Locals) :
  MemoryAuthority._defaultTTL self = Raise e ->
  Exists (fun r => dns.ttl r = None) recs ->
  MemoryAuthority.record_pass self name type recs l = Raise e.
Proof.
  intros He Hex. revert l.
  induction Hex as [r recs Hr | r recs _ IH]; intros l; simpl.
  - unfold MemoryAuthority.record_step, MemoryAuthority.ttl_if_not_None.
    by rewrite Hr, He.
  - destruct (MemoryAuthority.record_step self name type r l) eqn:Hs;
      simpl; [apply IH|].
    unfold MemoryAuthority.record_step,
      MemoryAuthority.ttl_if_not_None in Hs.
    destruct (dns.ttl r); simpl in Hs.
    + destruct (_ && _); [|destruct (_ || _)]; discriminate.
    + rewrite He in Hs. simpl in Hs. congruence.
Qed.

(** X9. When no default TTL can be had (none configured and no SOA record
    to fall back on), a query for an owner with a record that has no TTL
    of its own does not return: [_lookup] raises. *)
Theorem lookup_raises_without_default_TTL (e : Exn) (name : string)
    (cls type : Z) (timeout : option Z) (recs : list dns.IRecord) :
  MemoryAuthority._defaultTTL self = Raise e ->
  MemoryAuthority.records self !! Py.lower name = Some recs ->
  Exists (fun r => dns.ttl r = None) recs ->
  _lookup name cls type timeout = Raise e.
Proof.
  intros He Hrecs Hex. unfold MemoryAuthority._lookup. rewrite Hrecs.
  destruct recs as [|r recs]; [by apply Exists_nil in Hex|].
  unfold MemoryAuthority.sections.
  by rewrite (record_pass_raises e name type (r :: recs) _ He Hex).
Qed.

End LookupRaises.

(** ** The case of the queried name *)

Section LookupCase.

Variable isSubdomainOf : string -> string -> bool.
Variable self : MemoryAuthority.t.
Variables (name1 name2 : string).
Hypothesis same_lower : Py.lower name1 = Py.lower name2.

Lemma record_pass_similar (type : Z) (recs : list dns.IRecord)
    (l1 l2 l1' : MemoryAuthority.Locals) :
  Query.similar l1 l2 ->
  MemoryAuthority.record_pass self name1 type recs l1 = Ok l1' ->
  exists l2',
    MemoryAuthority.record_pass self name2 type recs l2 = Ok l2' /\
    Query.similar l1' l2'.
Proof.
  revert l1 l2. induction recs as [|r recs IH]; intros l1 l2 Hsim Hpass.
  - injection Hpass as <-. by exists l2.
  - simpl in Hpass. bind_inv Hpass.
    unfold MemoryAuthority.record_step in Ha. bind_inv Ha.
    simpl. unfold MemoryAuthority.record_step at 1. rewrite Ha0. simpl.
    rewrite <- same_lower.
    destruct Hsim as (Hr & Hau & Hc & Ht).
    destruct (_ && _); [|destruct (_ || _)]; injection Ha as <-;
      (eapply IH; [|exact Hpass]);
      unfold Query.similar; simpl;
      destruct (dns.TYPE r =? dns.CNAME);
      by rewrite ?map_app, ?Hr, ?Hau, ?Hc.
Qed.

Lemma additional_for_anonymous (hs1 hs2 : list dns.RRHeader) :
  map Query.anonymous hs1 = map Query.anonymous hs2 ->
  MemoryAuthority.additional_for self hs1 =
    MemoryAuthority.additional_for self hs2.
Proof.
  revert hs2. induction hs1 as [|h1 hs1 IH]; intros [|h2 hs2] Heq;
    try discriminate; [done|].
  injection Heq as Hty _ _ Hp _ Heq.
  cbn [MemoryAuthority.additional_for]. rewrite (IH hs2 Heq).
  unfold dns.payload_name. by rewrite Hty, Hp.
Qed.

(** X10. The store is consulted under the lower-cased name only: two
    queries whose names differ in case alone succeed together, with the
    same sections up to the owner name that the headers repeat. *)
Theorem lookup_ignores_case (cls type : Z) (timeout : option Z)
    (recs : list dns.IRecord) (sections1 : Query.Sections) :
  MemoryAuthority.records self !! Py.lower name1 = Some recs ->
  MemoryAuthority._lookup isSubdomainOf self name1 cls type timeout
    = Ok (succeed sections1) ->
  exists sections2,
    MemoryAuthority._lookup isSubdomainOf self name2 cls type timeout
      = Ok (succeed sections2) /\
    Query.anonymous_sections sections1 = Query.anonymous_sections sections2.
Proof.
  intros Hrecs H. destruct sections1 as [[answer authority] additional].
  destruct (lookup_succeed_inv _ _ _ _ _ _ _ _ _ _ Hrecs H)
    as (l1 & synthesized & t & Hne & Hpass & Hsyn & Ht & Hans & Hadd & Hau).
  destruct (record_pass_similar type recs MemoryAuthority.locals0
              MemoryAuthority.locals0 l1) as (l2 & Hpass2 & Hsim);
    [done | done |].
  destruct Hsim as (Hr & Hauth & Hc & Httl).
  assert (map Query.anonymous (MemoryAuthority.substituted l1) =
          map Query.anonymous (MemoryAuthority.substituted l2)) as Hsub.
  { unfold MemoryAuthority.substituted.
    destruct (MemoryAuthority.results l1), (MemoryAuthority.results l2);
      done. }
  assert (MemoryAuthority._additionalRecords self
            (MemoryAuthority.substituted l2) (MemoryAuthority.authority l2)
          = Ok synthesized) as Hsyn2.
  { rewrite <- Hsyn. unfold MemoryAuthority._additionalRecords.
    symmetry. apply additional_for_anonymous.
    by rewrite !map_app, Hsub, Hauth. }
  rewrite Ht in Httl.
  assert (MemoryAuthority.sections self name2 type recs =
          Ok (MemoryAuthority.substituted l2 ++
                match MemoryAuthority.cnames l2 with
                | [] => []
                | _ => synthesized
                end,
              MemoryAuthority.authority l2,
              match MemoryAuthority.cnames l2 with
              | [] => synthesized
              | _ => []
              end, Some t)) as Hsec.
  { unfold MemoryAuthority.sections. rewrite Hpass2. simpl.
    rewrite Hsyn2. simpl. rewrite <- Httl.
    destruct (MemoryAuthority.cnames l2); by rewrite ?app_nil_r. }
  rewrite same_lower in Hrecs.
  rewrite (lookup_sections _ _ _ _ _ _ _ _ _ _ t Hrecs Hne Hsec).
  eexists. split; [done|].
  assert (map Query.anonymous answer =
          map Query.anonymous
            (MemoryAuthority.substituted l2 ++
               match MemoryAuthority.cnames l2 with
               | [] => []
               | _ => synthesized
               end)) as Hanswer.
  { rewrite Hans, !map_app, Hsub.
    destruct (MemoryAuthority.cnames l1), (MemoryAuthority.cnames l2);
      done. }
  unfold Query.anonymous_sections. simpl. rewrite Hanswer.
  f_equal; [f_equal|].
  - rewrite Hau.
    destruct answer, (MemoryAuthority.substituted l2 ++ _); try done;
      destruct (MemoryAuthority.authority l1),
               (MemoryAuthority.authority l2); done.
  - rewrite Hadd.
    destruct (MemoryAuthority.cnames l1), (MemoryAuthority.cnames l2);
      done.
Qed.

End LookupCase.

(** ** The headers of a zone transfer *)

Section ZoneHeaders.

Variable self : MemoryAuthority.t.

Local Abbreviation built :=
  (fun (kr : string * dns.IRecord) (h : dns.RRHeader) =>
     Query.built_from self kr.1 true kr.2 h).

Lemma zone_records_built (k : string) (r : list dns.IRecord)
    (headers : list dns.RRHeader) :
  MemoryAuthority.zone_records self k r = Ok headers ->
  Forall2 built
    (map (pair k) (List.filter (fun rec => negb (dns.TYPE rec =? dns.SOA)) r))
    headers.
Proof.
  revert headers. induction r as [|rec r IH]; intros headers H.
  - injection H as <-. constructor.
  - simpl in H. bind_inv H. bind_inv H. simpl.
    destruct (negb (dns.TYPE rec =? dns.SOA)); injection H as <-;
      [|by apply IH].
    constructor; [by exists a | by apply IH].
Qed.

Lemma zone_items_built (items : list (string * list dns.IRecord))
    (headers : list dns.RRHeader) :
  MemoryAuthority.zone_items self items = Ok headers ->
  Forall2 built (Zone.non_soa_records items) headers.
Proof.
  revert headers. induction items as [|[k r] items IH]; intros headers H.
  - injection H as <-. constructor.
  - simpl in H. bind_inv H. bind_inv H. injection H as <-. simpl.
    apply Forall2_app; [by apply zone_records_built | by apply IH].
Qed.

(** X11. Whenever [lookupZone] succeeds, the name is the apex up to case,
    the second and third section are empty, and between the two copies of
    the SOA header there is, in [items()] order, one header per record
    that is not an SOA record: authoritative, of class IN, typed as the
    record it carries, named by that record's key in the store, and under
    that record's own TTL if it is not [None] (0 included) and the zone
    default [_defaultTTL] otherwise. *)
Theorem lookupZone_headers (name : string) (timeout : option Z)
    (sections : Query.Sections) :
  MemoryAuthority.lookupZone self name timeout = Ok (succeed sections) ->
  Py.lower (MemoryAuthority.soa self).1 = Py.lower name /\
  exists first others,
    sections = (first :: others ++ [first], [], []) /\
    Forall2
      (fun (kr : string * dns.IRecord) (h : dns.RRHeader) =>
         exists t,
           match dns.ttl kr.2 with
           | Some own => t = own
           | None => MemoryAuthority._defaultTTL self = Ok t
           end /\
           h = dns.mkRRHeader kr.1 (dns.TYPE kr.2) dns.IN t (Some kr.2) true)
      (Zone.non_soa_records (map_to_list (MemoryAuthority.records self)))
      others.
Proof.
  unfold MemoryAuthority.lookupZone. intros H.
  destruct (_ =? _)%string eqn:Hname; [|discriminate].
  apply String.eqb_eq in Hname. split; [done|].
  destruct (MemoryAuthority.soa self).2 as [soa_record|]; [|discriminate].
  bind_inv H. bind_inv H. injection H as <-.
  eexists _, a0. split; [done|].
  eapply Forall2_impl; [by apply zone_items_built|].
  intros kr h Hb. cbv beta in Hb. by apply built_from_header_of in Hb.
Qed.

End ZoneHeaders.

(** ** Merging the results of several authorities *)

(** X12. [_cbAllRecords] keeps the sections of the successful entries
    only and joins them section by section in the order of the entries:
    entries whose flag is false contribute nothing. *)
Theorem cbAllRecords_joins_successes
    (results : list (bool * Query.Sections)) :
  MemoryAuthority._cbAllRecords results =
    (concat (map (fun res => res.2.1.1) (List.filter fst results)),
     concat (map (fun res => res.2.1.2) (List.filter fst results)),
     concat (map (fun res => res.2.2) (List.filter fst results))).
Proof.
  induction results as [|[[] s] results IH]; simpl; [done|..];
    by rewrite IH.
Qed.

(** X13. Merging two batches of results one after the other is the same
    as merging each batch and appending the sections. *)
Theorem cbAllRecords_app (results1 results2 : list (bool * Query.Sections)) :
  MemoryAuthority._cbAllRecords (results1 ++ results2) =
    let '(ans1, auth1, add1) := MemoryAuthority._cbAllRecords results1 in
    let '(ans2, auth2, add2) := MemoryAuthority._cbAllRecords results2 in
    (ans1 ++ ans2, auth1 ++ auth2, add1 ++ add2).
Proof.
  induction results1 as [|[ok s] results1 IH]; simpl.
  - by destruct (MemoryAuthority._cbAllRecords results2) as [[? ?] ?].
  - rewrite IH.
    destruct (MemoryAuthority._cbAllRecords results1) as [[? ?] ?].
    destruct (MemoryAuthority._cbAllRecords results2) as [[? ?] ?].
    destruct ok; by rewrite ?app_assoc.
Qed.

(** * Properties of the zone loaders *)

(** ** [PySourceAuthority] *)

Section PySource.

Local Abbreviation owned_by :=
  (fun (k : string) (zone : list (string * dns.IRecord)) =>
     map snd (List.filter (fun rr => (Py.lower rr.1 =? k)%string) zone)).

Lemma zone_loop_lookup (self : MemoryAuthority.t)
    (zone : list (string * dns.IRecord)) (k : string) :
  MemoryAuthority.records (PySourceAuthority.zone_loop self zone) !! k =
    match MemoryAuthority.records self !! k, owned_by k zone with
    | None, [] => None
    | o, new => Some (default [] o ++ new)
    end.
Proof.
  revert self. induction zone as [|[owner r] zone IH]; intros self.
  - simpl. destruct (_ !! k); by rewrite ?app_nil_r.
  - simpl. rewrite IH. unfold PySourceAuthority.add_rr. simpl.
    destruct (Py.lower owner =? k)%string eqn:Hk.
    + apply String.eqb_eq in Hk as ->. rewrite lookup_insert_eq. simpl.
      destruct (MemoryAuthority.records self !! k); simpl;
        [by rewrite <- app_assoc | done].
    + apply String.eqb_neq in Hk. by rewrite lookup_insert_ne.
Qed.

(** X14. After [PySourceAuthority.loadFile], the store holds under each
    key exactly the records of the zone entries whose owner lower-cases
    to that key, in the order of the zone list; a key no owner
    lower-cases to is absent.  What the store held before is gone. *)
Theorem pysource_store_groups_by_lowered_owner (self auth : MemoryAuthority.t)
    (zone : list (string * dns.IRecord)) (k : string) :
  PySourceAuthority.loadFile self (Some zone) = Ok auth ->
  MemoryAuthority.records auth !! k =
    match owned_by k zone with
    | [] => None
    | recs => Some recs
    end.
Proof.
  unfold PySourceAuthority.loadFile. intros H. injection H as <-.
  rewrite zone_loop_lookup. simpl. rewrite lookup_empty.
  by destruct (owned_by k zone).
Qed.

Lemma zone_loop_soa (self : MemoryAuthority.t)
    (zone : list (string * dns.IRecord)) :
  MemoryAuthority.soa (PySourceAuthority.zone_loop self zone) =
    match last (List.filter
                  (fun rr => PySourceAuthority.is_Record_SOA rr.2) zone) with
    | Some rr => (rr.1, Some rr.2)
    | None => MemoryAuthority.soa self
    end.
Proof.
  revert self. induction zone as [|rr zone IH]; intros self; [done|].
  simpl. rewrite IH. unfold PySourceAuthority.add_rr at 1. simpl.
  destruct (PySourceAuthority.is_Record_SOA rr.2); [|done].
  destruct (List.filter _ zone) as [|rr' rest] eqn:Hf; [done|].
  rewrite last_cons_cons.
  destruct (last (rr' :: rest)) eqn:Hl; [done|]. by apply last_None in Hl.
Qed.

(** X15. After [PySourceAuthority.loadFile], the SOA identity is the
    last entry of the zone list that carries an SOA record, with its
    owner name as written; with no such entry it is what it was before
    the load. *)
Theorem pysource_soa_is_last_SOA_entry (self auth : MemoryAuthority.t)
    (zone : list (string * dns.IRecord)) :
  PySourceAuthority.loadFile self (Some zone) = Ok auth ->
  MemoryAuthority.soa auth =
    match last (List.filter
                  (fun rr => PySourceAuthority.is_Record_SOA rr.2) zone) with
    | Some rr => (rr.1, Some rr.2)
    | None => MemoryAuthority.soa self
    end.
Proof.
  unfold PySourceAuthority.loadFile. intros H. injection H as <-.
  by rewrite zone_loop_soa.
Qed.

(** X16. A zone loaded by [PySourceAuthority] answers for the owners of
    its entries and for no other name: [_lookup] fires with a failure
    exactly when no entry of the zone list has the queried name as its
    owner, up to case. *)
Theorem pysource_lookup_fails_iff_no_entry
    (isSubdomainOf : string -> string -> bool) (auth : MemoryAuthority.t)
    (zone : list (string * dns.IRecord)) (name : string) (cls type : Z)
    (timeout : option Z) :
  PySourceAuthority.__init__ (Some zone) = Ok auth ->
  (exists f,
     MemoryAuthority._lookup isSubdomainOf auth name cls type timeout
       = Ok (fail f)) <->
  Forall (fun rr => Py.lower rr.1 <> Py.lower name) zone.
Proof.
  intros Hload.
  assert (MemoryAuthority.records auth !! Py.lower name =
          match owned_by (Py.lower name) zone with
          | [] => None
          | recs => Some recs
          end) as Hstore.
  { unfold PySourceAuthority.__init__, PySourceAuthority.loadFile in Hload.
    injection Hload as <-. rewrite zone_loop_lookup. simpl.
    rewrite lookup_empty. by destruct (owned_by (Py.lower name) zone). }
  assert (owned_by (Py.lower name) zone = [] <->
          Forall (fun rr => Py.lower rr.1 <> Py.lower name) zone) as Hnone.
  { clear. induction zone as [|rr zone' IH]; simpl.
    - split; [constructor | done].
    - destruct (Py.lower rr.1 =? Py.lower name)%string eqn:E; simpl.
      + apply String.eqb_eq in E. split; [done|].
        intros H. by apply Forall_cons in H as [? _].
      + apply String.eqb_neq in E. rewrite IH, Forall_cons. tauto. }
  rewrite <- Hnone. split.
  - intros [f H]. destruct (owned_by (Py.lower name) zone) eqn:Ho; [done|].
    exfalso. unfold MemoryAuthority._lookup in H. rewrite Hstore in H.
    bind_inv H. destruct a as [[[results authority] additional] ttl].
    destruct results, authority, ttl; discriminate.
  - intros Ho. cbv beta in Ho, Hstore. rewrite Ho in Hstore.
    rewrite lookup_no_records by (by left).
    by eexists.
Qed.

End PySource.

(** ** Comments and continuations *)

Lemma find_range (c : ascii) (s : string) :
  Py.find c s = -1 \/ 0 <= Py.find c s.
Proof.
  induction s as [|d s IH]; simpl; [by left|].
  destruct (Ascii.eqb d c); [right; lia|].
  destruct (Py.find c s =? -1) eqn:E; [by left | right].
  apply Z.eqb_neq in E. lia.
Qed.

(** Nothing before the first occurrence of a character contains it. *)
Lemma find_take (c : ascii) (s : string) :
  0 <= Py.find c s ->
  Py.find c (Py.take (Z.to_nat (Py.find c s)) s) = -1.
Proof.
  induction s as [|d s IH]; simpl; [lia|].
  destruct (Ascii.eqb d c) eqn:Hd; [done|].
  destruct (Py.find c s =? -1) eqn:E; [lia|].
  apply Z.eqb_neq in E. intros Hpos.
  destruct (find_range c s) as [?|Hs]; [lia|].
  replace (Z.to_nat (Py.find c s + 1)) with (S (Z.to_nat (Py.find c s)))
    by lia.
  simpl. rewrite Hd, (IH Hs). done.
Qed.

Lemma take_all (s : string) : Py.take (String.length s) s = s.
Proof. induction s as [|c s IH]; simpl; [done | by rewrite IH]. Qed.

(** X17. [stripComments] returns one line per line it is given; each is
    a leading part of the input line stripped of surrounding whitespace,
    and none contains a semicolon. *)
Theorem stripComments_leaves_no_semicolon (lines : list string) :
  Forall2
    (fun b line =>
       Py.find ";" line = -1 /\ exists n, line = Py.take n (Py.strip b))
    lines (BindAuthority.stripComments lines).
Proof.
  induction lines as [|b lines IH]; simpl; constructor; [|exact IH].
  destruct (_ && _) eqn:Hcond.
  - apply andb_true_iff in Hcond as [Hfind%Z.eqb_eq _].
    split; [done|]. exists (String.length (Py.strip b)).
    by rewrite take_all.
  - unfold Py.slice_to.
    destruct (find_range ";" (Py.strip b)) as [Hnone | Hpos].
    + rewrite Hnone in *. simpl in Hcond.
      destruct (Py.strip b) eqn:Hs; [|discriminate].
      simpl. split; [done | by exists 0%nat].
    + destruct (Py.find ";" (Py.strip b) <? 0) eqn:Hneg; [lia|].
      split; [by apply find_take | by eexists].
Qed.

Lemma add_to_last_defined (L : list string) (s : string) :
  L <> [] ->
  exists L', BindAuthority.add_to_last L s = Ok L' /\ L' <> [].
Proof.
  intros HL. unfold BindAuthority.add_to_last.
  destruct (reverse L) as [|x before] eqn:Hrev.
  - apply (f_equal reverse) in Hrev. rewrite reverse_involutive in Hrev.
    done.
  - eexists. split; [done|]. by intros [? ?]%app_nil.
Qed.

Lemma collapse_defined (lines L : list string) (state : bool) :
  (state = true -> L <> []) ->
  exists L', BindAuthority.collapse lines L state = Ok L'.
Proof.
  revert L state. induction lines as [|line lines IH]; intros L state HL;
    [by eexists|].
  simpl. destruct state; simpl.
  - destruct (negb _).
    + destruct (add_to_last_defined L
                  (" " +:+ Py.slice_to line (Py.find ")" line)))
        as (L' & -> & HL'); [by apply HL|].
      simpl. by apply IH.
    + destruct (add_to_last_defined L (" " +:+ line))
        as (L' & -> & HL'); [by apply HL|].
      simpl. by apply IH.
  - destruct (_ =? _); apply IH; try done.
    intros _. by intros [? ?]%app_nil.
Qed.

(** X18. [collapseContinuations] raises for no input (its [L[-1]] is only
    reached after a line has been appended), and no token list it
    returns is empty. *)
Theorem collapseContinuations_defined (lines : list string) :
  exists logical,
    BindAuthority.collapseContinuations lines = Ok logical /\
    Forall (fun tokens => tokens <> []) logical.
Proof.
  unfold BindAuthority.collapseContinuations.
  destruct (collapse_defined lines [] false) as [L ->]; [done|].
  simpl. eexists. split; [done|].
  apply Forall_forall. intros tokens Hin.
  apply list_elem_of_In, filter_In in Hin as [_ Hne].
  by destruct tokens.
Qed.

Lemma collapse_no_parenthesis (lines L : list string) :
  Forall (fun line => Py.find "(" line = -1) lines ->
  BindAuthority.collapse lines L false = Ok (L ++ lines).
Proof.
  intros Hno. revert L.
  induction Hno as [|line lines Hline _ IH]; intros L; simpl.
  - by rewrite app_nil_r.
  - rewrite Hline. simpl. rewrite IH. by rewrite <- app_assoc.
Qed.

(** X19. On lines without an opening parenthesis [collapseContinuations]
    joins nothing: it splits each line into its tokens and drops the
    lines that have none. *)
Theorem collapseContinuations_without_parenthesis (lines : list string) :
  Forall (fun line => Py.find "(" line = -1) lines ->
  BindAuthority.collapseContinuations lines =
    Ok (List.filter (fun tokens => match tokens with [] => false | _ => true end)
          (map Py.split lines)).
Proof.
  intros Hno. unfold BindAuthority.collapseContinuations.
  by rewrite (collapse_no_parenthesis lines [] Hno).
Qed.

(** ** The parts of a record line *)

Section LineParts.

Variables QUERY_CLASSES_values QUERY_TYPES_values : list string.

Local Abbreviation keyword :=
  (BindAuthority.numeric_or_marker QUERY_CLASSES_values QUERY_TYPES_values).
Local Abbreviation recordLine :=
  (BindAuthority.recordLine QUERY_CLASSES_values QUERY_TYPES_values).
Local Abbreviation names_part :=
  (Query.names_part QUERY_CLASSES_values QUERY_TYPES_values).
Local Abbreviation class_ttl_part :=
  (Query.class_ttl_part QUERY_CLASSES_values).

(** [parseRecordLine] reads the names, then the class and the TTL, then
    the type; what is left is the rdata. *)
Lemma recordLine_parts (origin : string) (ttl : Z) (line : list string) :
  recordLine origin ttl line =
    let* names := names_part origin line in
    let* rest := class_ttl_part ttl names.2 in
    let* type := BindAuthority.item 0 rest.2 in
    Ok (BindAuthority.mkAddRecord names.1.1 rest.1.2 type names.1.2
          rest.1.1 (tail rest.2)).
Proof.
  unfold BindAuthority.recordLine, Query.names_part, Query.class_ttl_part,
    BindAuthority.numeric_or_marker, BindAuthority.item.
  destruct line as [|t0 [|t1 [|t2 [|t3 [|t4 line]]]]]; simpl;
    repeat (first
      [ done
      | match goal with
        | |- context [(?a =? ?b)%string] =>
            destruct (a =? b)%string eqn:?; simpl
        | |- context [Py.isdigit ?t] => destruct (Py.isdigit t) eqn:?; simpl
        | |- context [Py.str_in ?t ?l] =>
            destruct (Py.str_in t l) eqn:?; simpl
        | |- context [Py.int ?t] => destruct (Py.int t) eqn:?; simpl
        end ]).
Qed.

(** The class and TTL part consumes tokens from the front only. *)
Lemma class_ttl_part_suffix (ttl : Z) (line : list string)
    (cls : string) (ttl' : Z) (line' : list string) :
  class_ttl_part ttl line = Ok (cls, ttl', line') ->
  exists consumed, line = consumed ++ line'.
Proof.
  unfold Query.class_ttl_part, BindAuthority.item. intros H.
  destruct line as [|t line]; [discriminate|]. simpl in H.
  destruct (Py.str_in t QUERY_CLASSES_values).
  - destruct line as [|t' line]; [discriminate|]. simpl in H.
    destruct (Py.isdigit t').
    + bind_inv H. injection H as _ _ <-. by exists [t; t'].
    + injection H as _ _ <-. by exists [t].
  - destruct (Py.isdigit t).
    + bind_inv H. destruct line as [|t' line]; [discriminate|].
      simpl in H. destruct (Py.str_in t' QUERY_CLASSES_values);
        injection H as _ _ <-; [by exists [t; t'] | by exists [t]].
    + injection H as _ _ <-. by exists [].
Qed.

Lemma names_part_suffix (origin : string) (line : list string)
    (owner domain : string) (line' : list string) :
  names_part origin line = Ok (owner, domain, line') ->
  exists consumed, line = consumed ++ line'.
Proof.
  unfold Query.names_part, BindAuthority.item. intros H.
  destruct line as [|t0 line]; [discriminate|]. simpl in H.
  destruct (t0 =? "@")%string; [|destruct (negb (keyword t0))].
  - destruct line as [|t line]; [discriminate|]. simpl in H.
    destruct (keyword t); injection H as _ _ <-;
      [by exists [t0] | by exists [t0; t]].
  - destruct line as [|t line]; [discriminate|]. simpl in H.
    destruct (keyword t); injection H as _ _ <-;
      [by exists [t0] | by exists [t0; t]].
  - simpl in H. destruct (keyword t0); injection H as _ _ <-;
      [by exists [] | by exists [t0]].
Qed.

(** X20. Whatever [parseRecordLine] makes of the front of a line, the
    record type it hands to [addRecord] is a token of the line and the
    rdata are all the tokens that follow it: nothing after the type is
    dropped or reordered. *)
Theorem recordLine_type_then_rdata (origin : string) (ttl : Z)
    (line : list string) (a : BindAuthority.AddRecord) :
  recordLine origin ttl line = Ok a ->
  exists front,
    line = front ++ BindAuthority.type a :: BindAuthority.rdata a.
Proof.
  rewrite recordLine_parts. intros H.
  bind_inv H. destruct a0 as [[owner domain] line1].
  bind_inv H. destruct a0 as [[cls ttl'] line2].
  bind_inv H. injection H as <-. simpl in *.
  apply names_part_suffix in Ha0 as [front1 ->].
  apply class_ttl_part_suffix in Ha1 as [front2 ->].
  exists (front1 ++ front2). rewrite <- app_assoc. do 2 f_equal.
  unfold BindAuthority.item in Ha2.
  destruct line2; [discriminate|]. by injection Ha2 as <-.
Qed.

(** X21. The class and the TTL of a record line may come in either
    order: after an [@] or an owner name, [class ttl] and [ttl class]
    lead to the same call of [addRecord]. *)
Theorem recordLine_class_ttl_either_order (origin : string) (ttl : Z)
    (t0 class digits : string) (rest : list string) :
  (t0 =? "@")%string || negb (keyword t0) = true ->
  Py.str_in class QUERY_CLASSES_values = true ->
  Py.isdigit class = false ->
  Py.isdigit digits = true ->
  Py.str_in digits QUERY_CLASSES_values = false ->
  recordLine origin ttl (t0 :: class :: digits :: rest) =
    recordLine origin ttl (t0 :: digits :: class :: rest).
Proof.
  intros Ht0 Hclass Hcd Hdigits Hdc.
  assert (keyword class = true) as Hkc.
  { unfold BindAuthority.numeric_or_marker, BindAuthority.MARKERS, Py.str_in.
    rewrite existsb_app. unfold Py.str_in in Hclass. rewrite Hclass.
    by rewrite orb_true_r. }
  assert (keyword digits = true) as Hkd.
  { unfold BindAuthority.numeric_or_marker. by rewrite Hdigits. }
  rewrite !recordLine_parts.
  assert (forall t1 tl,
            keyword t1 = true ->
            names_part origin (t0 :: t1 :: tl) =
              Ok (origin, (if (t0 =? "@")%string then origin else t0),
                  t1 :: tl)) as Hnames.
  { intros t1 tl Hk. unfold Query.names_part. simpl.
    destruct (t0 =? "@")%string; simpl; [by rewrite Hk|].
    simpl in Ht0. rewrite Ht0. simpl. by rewrite Hk. }
  rewrite !Hnames by done. simpl.
  unfold Query.class_ttl_part. simpl.
  rewrite Hclass, Hdigits, Hdc. simpl.
  destruct (Py.int digits); simpl; by rewrite ?Hclass.
Qed.





End LineParts.

(** ** What loading a master file leaves in the store *)

Lemma lower_ascii_idempotent (c : ascii) :
  Py.lower_ascii (Py.lower_ascii c) = Py.lower_ascii c.
Proof. by destruct c as [[] [] [] [] [] [] [] []]. Qed.

Lemma lower_idempotent (s : string) : Py.lower (Py.lower s) = Py.lower s.
Proof.
  induction s as [|c s IH]; simpl; [done|].
  by rewrite lower_ascii_idempotent, IH.
Qed.

Section Loading.

Variables QUERY_CLASSES_values QUERY_TYPES_values : list string.
Variable str2time : string -> Exc Z.
Variable Record_ : string -> option (list string -> Exc dns.IRecord).

Local Abbreviation addRecord := (BindAuthority.addRecord Record_).
Local Abbreviation parseRecordLine :=
  (BindAuthority.parseRecordLine QUERY_CLASSES_values QUERY_TYPES_values
     Record_).
Local Abbreviation parse_loop :=
  (BindAuthority.parse_loop QUERY_CLASSES_values QUERY_TYPES_values
     str2time Record_).
Local Abbreviation parseLines :=
  (BindAuthority.parseLines QUERY_CLASSES_values QUERY_TYPES_values
     str2time Record_).
Local Abbreviation records :=
  (fun self : BindAuthority.t =>
     MemoryAuthority.records (BindAuthority.base self)).
Local Abbreviation soa :=
  (fun self : BindAuthority.t =>
     MemoryAuthority.soa (BindAuthority.base self)).

(** Everything a successful [addRecord] does. *)
Lemma addRecord_effect (self self' : BindAuthority.t)
    (a : BindAuthority.AddRecord) :
  addRecord self a = Ok self' ->
  BindAuthority.cls a = "IN"%string /\
  exists record r0,
    Record_ (BindAuthority.type a) = Some record /\
    record (BindAuthority.rdata a) = Ok r0 /\
    let r := dns.mkRecord (dns.fields r0) (Some (BindAuthority.ttl a)) in
    let domain :=
      BindAuthority.qualify (BindAuthority.owner a)
        (BindAuthority.domain a) in
    let key := Py.lower domain in
    records self' =
      <[key := default [] (records self !! key) ++ [r]]> (records self) /\
    soa self' =
      (if (BindAuthority.type a =? "SOA")%string then (domain, Some r)
       else soa self).
Proof.
  unfold BindAuthority.addRecord, BindAuthority.class_IN. intros H.
  destruct (BindAuthority.cls a =? "IN")%string eqn:Hcls; [|discriminate].
  apply String.eqb_eq in Hcls. split; [done|].
  destruct (Record_ (BindAuthority.type a)) as [record|]; [|discriminate].
  bind_inv H. exists record, a0. do 2 (split; [done|]).
  destruct (BindAuthority.type a =? "SOA")%string;
    injection H as <-; by simpl.
Qed.

(** X23. A record line that is accepted only ever appends: every key of
    the store keeps its records in their order, with at most new ones
    after them, and the name the record was stored under is from then on
    never reported as missing by [_lookup]. *)
Theorem parseRecordLine_appends (isSubdomainOf : string -> string -> bool)
    (self self' : BindAuthority.t) (origin : string) (ttl : Z)
    (line : list string) :
  parseRecordLine self origin ttl line = Ok self' ->
  (forall k recs,
     records self !! k = Some recs ->
     exists more, records self' !! k = Some (recs ++ more)) /\
  exists a,
    BindAuthority.recordLine QUERY_CLASSES_values QUERY_TYPES_values
      origin ttl line = Ok a /\
    forall name cls type timeout f,
      Py.lower name =
        Py.lower (BindAuthority.qualify (BindAuthority.owner a)
                    (BindAuthority.domain a)) ->
      MemoryAuthority._lookup isSubdomainOf (BindAuthority.base self')
        name cls type timeout <> Ok (fail f).
Proof.
  unfold BindAuthority.parseRecordLine. intros H. bind_inv H.
  apply addRecord_effect in H
    as (_ & record & r0 & _ & _ & Hstore & _). simpl in Hstore.
  split.
  - intros k recs Hk. rewrite Hstore.
    destruct (decide
                (Py.lower (BindAuthority.qualify (BindAuthority.owner a)
                             (BindAuthority.domain a)) = k)) as [<-|Hne].
    + rewrite lookup_insert_eq, Hk. simpl. by eexists.
    + rewrite lookup_insert_ne by done. exists []. by rewrite app_nil_r.
  - exists a. split; [done|]. intros name cls type timeout f Hname.
    unfold MemoryAuthority._lookup.
    rewrite Hstore, Hname, lookup_insert_eq.
    destruct (default [] _ ++ _) as [|r recs] eqn:Happ;
      [by apply app_nil in Happ as [_ ?]|].
    destruct (MemoryAuthority.sections _ _ _ _)
      as [[[[results authority] additional] t]|]; simpl; [|done].
    by destruct results, authority, t.
Qed.

Lemma parse_loop_Ok_step (self auth : BindAuthority.t) (TTL : Z)
    (ORIGIN : string) (line : list string) (lines : list (list string)) :
  parse_loop self TTL ORIGIN (line :: lines) = Ok auth ->
  exists t0,
    line !! 0%nat = Some t0 /\
    t0 <> "$INCLUDE"%string /\ t0 <> "$GENERATE"%string /\
    exists self' TTL' ORIGIN',
      parse_loop self' TTL' ORIGIN' lines = Ok auth /\
      ((self' = self /\ (t0 = "$TTL"%string \/ t0 = "$ORIGIN"%string)) \/
       parseRecordLine self ORIGIN TTL line = Ok self').
Proof.
  simpl. unfold BindAuthority.item at 1. intros H.
  destruct (line !! 0%nat) as [t0|] eqn:Ht0; [|discriminate].
  simpl in H. exists t0. split; [done|].
  destruct (t0 =? "$TTL")%string eqn:E1.
  { apply String.eqb_eq in E1 as ->. do 2 (split; [done|]).
    bind_inv H. bind_inv H. eauto 10. }
  destruct (t0 =? "$ORIGIN")%string eqn:E2.
  { apply String.eqb_eq in E2 as ->. do 2 (split; [done|]).
    bind_inv H. eauto 10. }
  destruct (t0 =? "$INCLUDE")%string eqn:E3; [discriminate|].
  destruct (t0 =? "$GENERATE")%string eqn:E4; [discriminate|].
  apply String.eqb_neq in E3, E4. do 2 (split; [done|]).
  bind_inv H. eauto 8.
Qed.

(** X24. A load that completes has met neither [$INCLUDE] nor
    [$GENERATE]: [parseLines] returns only if no line starts with one of
    them. *)
Theorem parseLines_rejects_include_and_generate (self auth : BindAuthority.t)
    (lines : list (list string)) :
  parseLines self lines = Ok auth ->
  Forall
    (fun line =>
       exists t0,
         line !! 0%nat = Some t0 /\
         t0 <> "$INCLUDE"%string /\ t0 <> "$GENERATE"%string)
    lines.
Proof.
  unfold BindAuthority.parseLines.
  generalize (BindAuthority.set_records self ∅) (60 * 60 * 3)
    (BindAuthority.origin self).
  induction lines as [|line lines IH]; intros self0 TTL ORIGIN H;
    [constructor|].
  apply parse_loop_Ok_step in H
    as (t0 & Ht0 & Hi & Hg & self' & TTL' & ORIGIN' & Hrest & _).
  constructor; [by exists t0 | by eapply IH].
Qed.

(** X22. Only class IN and the registered record types are implemented:
    in a load that completes, every line that is not a [$TTL] or
    [$ORIGIN] directive is a record line whose class is IN and whose type
    has a record class. *)
Theorem parseLines_accepts_class_IN_only (self auth : BindAuthority.t)
    (lines : list (list string)) :
  parseLines self lines = Ok auth ->
  Forall
    (fun line =>
       exists t0,
         line !! 0%nat = Some t0 /\
         (t0 = "$TTL"%string \/ t0 = "$ORIGIN"%string \/
          exists origin ttl a,
            BindAuthority.recordLine QUERY_CLASSES_values
              QUERY_TYPES_values origin ttl line = Ok a /\
            BindAuthority.cls a = "IN"%string /\
            is_Some (Record_ (BindAuthority.type a))))
    lines.
Proof.
  unfold BindAuthority.parseLines.
  generalize (BindAuthority.set_records self ∅) (60 * 60 * 3)
    (BindAuthority.origin self).
  induction lines as [|line lines IH]; intros self0 TTL ORIGIN H;
    [constructor|].
  apply parse_loop_Ok_step in H
    as (t0 & Ht0 & _ & _ & self' & TTL' & ORIGIN' & Hrest & Hself).
  constructor; [|by eapply IH].
  exists t0. split; [done|].
  destruct Hself as [[_ [-> | ->]] | Hline]; [by left | by right; left |].
  right; right. unfold BindAuthority.parseRecordLine in Hline.
  bind_inv Hline.
  apply addRecord_effect in Hline as (Hcls & record & r0 & Hreg & _).
  exists ORIGIN, TTL, a. by rewrite Hreg.
Qed.

Lemma addRecord_loaded (self self' : BindAuthority.t)
    (a : BindAuthority.AddRecord) :
  Query.loaded (records self) ->
  addRecord self a = Ok self' ->
  Query.loaded (records self').
Proof.
  intros Hinv H.
  apply addRecord_effect in H
    as (_ & record & r0 & _ & _ & Hstore & _). simpl in Hstore.
  intros k recs. rewrite Hstore.
  destruct (decide
              (Py.lower (BindAuthority.qualify (BindAuthority.owner a)
                           (BindAuthority.domain a)) = k)) as [<-|Hne].
  - rewrite lookup_insert_eq. intros [= <-].
    split; [by rewrite lower_idempotent|].
    split; [by intros [_ ?]%app_nil|].
    apply Forall_app. split; [|by repeat constructor].
    destruct (records self !! _) as [old|] eqn:Hold; [|constructor].
    by destruct (Hinv _ _ Hold) as (_ & _ & ?).
  - rewrite lookup_insert_ne by done. apply Hinv.
Qed.

Lemma parse_loop_loaded (self auth : BindAuthority.t) (TTL : Z)
    (ORIGIN : string) (lines : list (list string)) :
  Query.loaded (records self) ->
  parse_loop self TTL ORIGIN lines = Ok auth ->
  Query.loaded (records auth).
Proof.
  revert self TTL ORIGIN.
  induction lines as [|line lines IH]; intros self TTL ORIGIN Hinv H.
  - by injection H as <-.
  - apply parse_loop_Ok_step in H
      as (t0 & _ & _ & _ & self' & TTL' & ORIGIN' & Hrest & Hself).
    apply (IH self' TTL' ORIGIN'); [|done].
    destruct Hself as [[-> _] | Hline]; [done|].
    unfold BindAuthority.parseRecordLine in Hline. bind_inv Hline.
    by eapply addRecord_loaded.
Qed.




End Loading.

(** ** Queries on a loaded master file *)

Section Loaded.

Variables QUERY_CLASSES_values QUERY_TYPES_values : list string.
Variable str2time : string -> Exc Z.
Variable Record_ : string -> option (list string -> Exc dns.IRecord).

Local Abbreviation has_ttl := (fun r : dns.IRecord => is_Some (dns.ttl r)).
Local Abbreviation own_ttl :=
  (fun h : dns.RRHeader =>
     exists r, dns.rr_payload h = Some r /\ dns.ttl r = Some (dns.rr_ttl h)).

Lemma ttl_if_not_None_own (self : MemoryAuthority.t) (r : dns.IRecord) :
  has_ttl r ->
  exists t,
    dns.ttl r = Some t /\ MemoryAuthority.ttl_if_not_None self r = Ok t.
Proof.
  intros [t Ht]. exists t. split; [done|].
  by apply ttl_if_not_None_explicit.
Qed.

Lemma record_pass_own_ttl_defined (self : MemoryAuthority.t)
    (name : string) (type : Z) (recs : list dns.IRecord)
    (l : MemoryAuthority.Locals) :
  Forall has_ttl recs ->
  exists l', MemoryAuthority.record_pass self name type recs l = Ok l'.
Proof.
  intros Hall. revert l.
  induction Hall as [|r recs Hr _ IH]; intros l; [by eexists|].
  simpl. unfold MemoryAuthority.record_step at 1.
  destruct (ttl_if_not_None_own self r Hr) as (t & _ & ->). simpl.
  destruct (_ && _); [|destruct (_ || _)]; apply IH.
Qed.

Lemma built_from_own_ttl (self : MemoryAuthority.t) (name : string)
    (auth : bool) (rs : list dns.IRecord) (hs : list dns.RRHeader) :
  Forall2 (Query.built_from self name auth) rs hs ->
  Forall has_ttl rs ->
  Forall own_ttl hs.
Proof.
  induction 1 as [|r h rs hs (t & Ht & ->) _ IH]; intros Hall;
    [constructor|].
  apply Forall_cons in Hall as [Hr Hall]. constructor; [|by apply IH].
  destruct (ttl_if_not_None_own self r Hr) as (t' & Ht' & Hok).
  exists r. simpl. split; [done|]. congruence.
Qed.

Lemma Forall_filter_bool (P : dns.IRecord -> Prop)
    (f : dns.IRecord -> bool) (rs : list dns.IRecord) :
  Forall P rs -> Forall P (List.filter f rs).
Proof.
  rewrite !Forall_forall. intros H r Hin. apply H.
  by eapply elem_of_filter_bool.
Qed.

(** X26. On the store of a loaded master file the record pass of
    [_lookup] raises for no query, with or without a default TTL to
    fall back on, and every header it builds is under the TTL its
    record was loaded with. *)
Theorem loaded_zone_pass_uses_own_TTL (self auth : BindAuthority.t)
    (lines : list (list string)) (name : string) (type : Z)
    (recs : list dns.IRecord) :
  BindAuthority.parseLines QUERY_CLASSES_values QUERY_TYPES_values
    str2time Record_ self lines = Ok auth ->
  MemoryAuthority.records (BindAuthority.base auth) !! Py.lower name
    = Some recs ->
  exists l,
    MemoryAuthority.record_pass (BindAuthority.base auth) name type recs
      MemoryAuthority.locals0 = Ok l /\
    Forall own_ttl
      (MemoryAuthority.results l ++ MemoryAuthority.authority l
         ++ MemoryAuthority.cnames l).
Proof.
  intros Hload Hrecs.
  apply parse_loop_loaded in Hload;
    [|intros k recs'; simpl; by rewrite lookup_empty].
  destruct (Hload _ _ Hrecs) as (_ & _ & Hall).
  destruct (record_pass_own_ttl_defined (BindAuthority.base auth) name type
              recs MemoryAuthority.locals0 Hall) as [l Hpass].
  exists l. split; [done|].
  destruct (record_pass_built _ _ _ _ _ _ Hpass)
    as (R & A & C & -> & -> & -> & HR & HA & HC). simpl.
  rewrite !Forall_app.
  repeat split; eapply built_from_own_ttl; try eassumption;
    by apply Forall_filter_bool.
Qed.

Local Abbreviation soa_stored :=
  (fun self : BindAuthority.t =>
     MemoryAuthority.soa (BindAuthority.base self) = (""%string, None) \/
     exists apex r recs,
       MemoryAuthority.soa (BindAuthority.base self) = (apex, Some r) /\
       MemoryAuthority.records (BindAuthority.base self) !! Py.lower apex
         = Some recs /\
       r ∈ recs).

Lemma parseRecordLine_soa_stored (self self' : BindAuthority.t)
    (origin : string) (ttl : Z) (line : list string) :
  soa_stored self ->
  BindAuthority.parseRecordLine QUERY_CLASSES_values QUERY_TYPES_values
    Record_ self origin ttl line = Ok self' ->
  soa_stored self'.
Proof.
  unfold BindAuthority.parseRecordLine. intros Hinv H. bind_inv H.
  apply addRecord_effect in H
    as (_ & record & r0 & _ & _ & Hstore & Hsoa). simpl in Hstore, Hsoa.
  rewrite Hstore, Hsoa.
  destruct (BindAuthority.type a =? "SOA")%string.
  - right. eexists _, _, _. split; [done|].
    rewrite lookup_insert_eq. split; [done|].
    apply elem_of_app. right. apply list_elem_of_here.
  - destruct Hinv as [Hnone | (apex & r & recs & Hs & Hrecs & Hin)];
      [by left | right].
    exists apex, r.
    destruct (decide
                (Py.lower (BindAuthority.qualify (BindAuthority.owner a)
                             (BindAuthority.domain a)) = Py.lower apex))
      as [Heq | Hne].
    + rewrite Heq, lookup_insert_eq, Hrecs. simpl.
      eexists. split; [done|]. split; [done|].
      apply elem_of_app. by left.
    + rewrite lookup_insert_ne by done. by exists recs.
Qed.

Lemma parse_loop_soa_stored (self auth : BindAuthority.t) (TTL : Z)
    (ORIGIN : string) (lines : list (list string)) :
  soa_stored self ->
  BindAuthority.parse_loop QUERY_CLASSES_values QUERY_TYPES_values
    str2time Record_ self TTL ORIGIN lines = Ok auth ->
  soa_stored auth.
Proof.
  revert self TTL ORIGIN.
  induction lines as [|line lines IH]; intros self TTL ORIGIN Hinv H.
  - by injection H as <-.
  - apply parse_loop_Ok_step in H
      as (t0 & _ & _ & _ & self' & TTL' & ORIGIN' & Hrest & Hself).
    apply (IH self' TTL' ORIGIN'); [|done].
    destruct Hself as [[-> _] | Hline]; [done|].
    by eapply parseRecordLine_soa_stored.
Qed.

(** X27. After [BindAuthority(filename)] the SOA identity is either
    still unset, or it names the SOA record of the last SOA line and that
    very record is in the store under the lower-cased apex name. *)
Theorem bind_soa_record_is_stored (basename : string) (lines : list string)
    (auth : BindAuthority.t) :
  BindAuthority.__init__ QUERY_CLASSES_values QUERY_TYPES_values str2time
    Record_ basename lines = Ok auth ->
  MemoryAuthority.soa (BindAuthority.base auth) = (""%string, None) \/
  exists apex r recs,
    MemoryAuthority.soa (BindAuthority.base auth) = (apex, Some r) /\
    MemoryAuthority.records (BindAuthority.base auth) !! Py.lower apex
      = Some recs /\
    r ∈ recs.
Proof.
  unfold BindAuthority.__init__, BindAuthority.loadFile,
    BindAuthority.parseLines.
  intros H. bind_inv H.
  eapply parse_loop_soa_stored; [|exact H]. by left.
Qed.

Lemma zone_records_own_ttl_defined (self : MemoryAuthority.t) (k : string)
    (r : list dns.IRecord) :
  Forall has_ttl r ->
  exists hs, MemoryAuthority.zone_records self k r = Ok hs.
Proof.
  induction 1 as [|rec r Hrec _ [hs IH]]; [by eexists|].
  simpl. destruct (ttl_if_not_None_own self rec Hrec) as (t & _ & ->).
  simpl. rewrite IH. simpl. destruct (negb _); by eexists.
Qed.

Lemma zone_items_own_ttl_defined (self : MemoryAuthority.t)
    (items : list (string * list dns.IRecord)) :
  Forall (fun kr => Forall has_ttl kr.2) items ->
  exists hs, MemoryAuthority.zone_items self items = Ok hs.
Proof.
  induction 1 as [|[k r] items Hr _ [hs IH]]; [by eexists|].
  simpl. destruct (zone_records_own_ttl_defined self k r Hr) as [here ->].
  simpl. rewrite IH. by eexists.
Qed.

(** X28. A master file with an SOA line that [BindAuthority] has loaded
    can always be transferred: [lookupZone] on the apex name raises
    nothing and succeeds, whatever else the file holds. *)
Theorem bind_loaded_zone_transfers (basename : string) (lines : list string)
    (auth : BindAuthority.t) (apex : string) (r : dns.IRecord)
    (timeout : option Z) :
  BindAuthority.__init__ QUERY_CLASSES_values QUERY_TYPES_values str2time
    Record_ basename lines = Ok auth ->
  MemoryAuthority.soa (BindAuthority.base auth) = (apex, Some r) ->
  exists sections,
    MemoryAuthority.lookupZone (BindAuthority.base auth) apex timeout
      = Ok (succeed sections).
Proof.
  intros Hinit Hsoa.
  unfold BindAuthority.__init__, BindAuthority.loadFile,
    BindAuthority.parseLines in Hinit.
  bind_inv Hinit.
  pose proof Hinit as Hstored.
  apply parse_loop_soa_stored in Hstored; [|by left].
  destruct Hstored as [Hnone | (apex' & r' & recs & Hs & Hrecs & Hin)];
    [congruence|].
  rewrite Hsoa in Hs. injection Hs as <- <-.
  apply parse_loop_loaded in Hinit;
    [|intros k recs'; simpl; by rewrite lookup_empty].
  unfold MemoryAuthority.lookupZone. rewrite Hsoa. simpl.
  rewrite String.eqb_refl.
  destruct (Hinit _ _ Hrecs) as (_ & _ & Hall).
  rewrite Forall_forall in Hall.
  destruct (ttl_if_not_None_own (BindAuthority.base auth) r (Hall r Hin))
    as (t & _ & ->).
  simpl.
  destruct (zone_items_own_ttl_defined (BindAuthority.base auth)
              (map_to_list
                 (MemoryAuthority.records (BindAuthority.base auth))))
    as [others ->]; [|by eexists].
  apply Forall_forall. intros [k recs'] Hk%elem_of_map_to_list.
  by destruct (Hinit _ _ Hk) as (_ & _ & ?).
Qed.

End Loaded.

(** * The further properties on the examples *)

Lemma answer_starts_with_selected_records_witness :
  exists selected extra,
    [Example.header "multi.example.com" Example.A_first 0 true;
     Example.header "multi.example.com" Example.A_second 3600 true]
      = selected ++ extra /\
    Forall2
      (fun (r : dns.IRecord) (h : dns.RRHeader) =>
         exists t,
           match dns.ttl r with
           | Some own => t = own
           | None => MemoryAuthority._defaultTTL Example.hosts = Ok t
           end /\
           h = dns.mkRRHeader "multi.example.com" (dns.TYPE r) dns.IN t
                 (Some r) true)
      (List.filter (Query.answers Example.hosts "multi.example.com" dns.A)
         [Example.A_first; Example.A_second; Example.TXT_last])
      selected /\
    (Zone.owner_has_CNAME
       [Example.A_first; Example.A_second; Example.TXT_last] = false ->
     extra = []).
Proof.
  apply (answer_starts_with_selected_records dns._isSubdomainOf
           Example.hosts "multi.example.com" dns.IN dns.A None
           [Example.A_first; Example.A_second; Example.TXT_last] _ [] []);
    [vm_compute; reflexivity | vm_compute; discriminate
    | vm_compute; reflexivity].
Defined.

Lemma answer_substitutes_CNAME_records_witness :
  exists aliases extra,
    [Example.header "alias.example.com" Example.CNAME_www 3600 true;
     Example.header "www.example.com" Example.A_www 300 true]
      = aliases ++ extra /\
    Forall2 (Query.built_from Example.zone "alias.example.com" true)
      (List.filter (fun r => dns.TYPE r =? dns.CNAME) [Example.CNAME_www])
      aliases.
Proof.
  apply (answer_substitutes_CNAME_records dns._isSubdomainOf
           Example.zone "alias.example.com" dns.IN dns.A None
           [Example.CNAME_www] _ [] []);
    vm_compute; reflexivity.
Defined.

Lemma authority_is_referrals_or_SOA_witness :
  exists referrals,
    Forall2 (Query.built_from Example.zone "www.example.com" false)
      (List.filter (Query.referral Example.zone "www.example.com")
         [Example.A_www])
      referrals /\
    (([Zone.soa_header Example.zone 300] = referrals /\
      (@nil dns.RRHeader <> [] \/ referrals <> [])) \/
     (referrals = [] /\ @nil dns.RRHeader = [] /\
      exists t,
        [Zone.soa_header Example.zone 300] = [Zone.soa_header Example.zone t])).
Proof.
  apply (authority_is_referrals_or_SOA dns._isSubdomainOf Example.zone
           "www.example.com" dns.IN dns.MX None [Example.A_www] [] _ []);
    vm_compute; reflexivity.
Defined.

Lemma apex_query_has_no_referral_witness :
  @nil dns.RRHeader = [] \/
  ([Example.header "Example.COM" Example.NS_ns1 3600 true] = [] /\
   exists t, @nil dns.RRHeader = [Zone.soa_header Example.zone t]).
Proof.
  apply (apex_query_has_no_referral dns._isSubdomainOf Example.zone
           "Example.COM" dns.IN dns.NS None
           [Example.soa_record; Example.NS_ns1] _ _
           [Example.header "ns1.example.com"
              (dns.mkRecord (dns.Record_A "192.0.2.1") None) 3600 true]);
    vm_compute; reflexivity.
Defined.

Lemma lookup_response_not_empty_witness :
  @nil dns.RRHeader <> [] \/ [Zone.soa_header Example.zone 300] <> [].
Proof.
  apply (lookup_response_not_empty dns._isSubdomainOf Example.zone
           "www.example.com" dns.IN dns.MX None [] _ []).
  vm_compute; reflexivity.
Defined.

Lemma additional_records_are_stored_addresses_witness :
  Forall
    (fun h =>
       dns.rr_cls h = dns.IN /\ dns.rr_auth h = true /\
       (dns.rr_type h = dns.A \/ dns.rr_type h = dns.AAAA) /\
       exists rec recs,
         MemoryAuthority.records Example.zone !! Py.lower (dns.rr_name h)
           = Some recs /\
         rec ∈ recs /\ dns.rr_payload h = Some rec /\
         dns.rr_type h = dns.TYPE rec)
    [Example.header "www.example.com" Example.A_www 300 true].
Proof.
  apply (additional_records_are_stored_addresses Example.zone
           [Example.header "alias.example.com" Example.CNAME_www 3600 true]
           []).
  vm_compute; reflexivity.
Defined.

Lemma no_additional_without_name_records_witness :
  @nil dns.RRHeader = [] /\
  Forall
    (fun h => exists r, r ∈ [Example.A_www] /\ dns.rr_payload h = Some r)
    [Example.header "www.example.com" Example.A_www 300 true].
Proof.
  apply (no_additional_without_name_records dns._isSubdomainOf Example.zone
           "www.example.com" dns.IN dns.A None [Example.A_www] _ [] []);
    [vm_compute; reflexivity | by repeat constructor
    | vm_compute; reflexivity].
Defined.

Lemma lookup_raises_nothing_with_default_TTL_witness :
  exists fired,
    Example.lookup Example.zone "mail.example.com" dns.IN
      dns.ALL_RECORDS None = Ok fired.
Proof.
  apply (lookup_raises_nothing_with_default_TTL dns._isSubdomainOf
           Example.zone 3600).
  vm_compute; reflexivity.
Defined.

Lemma lookup_raises_without_default_TTL_witness :
  Example.lookup Example.bare "host.example.org" dns.IN dns.A None
    = Raise AttributeError.
Proof.
  apply (lookup_raises_without_default_TTL dns._isSubdomainOf Example.bare
           AttributeError "host.example.org" dns.IN dns.A None
           [Example.A_host]);
    [vm_compute; reflexivity | vm_compute; reflexivity
    | by constructor].
Defined.

Lemma lookup_ignores_case_witness :
  exists sections2,
    Example.lookup Example.zone "alias.EXAMPLE.com" dns.IN dns.A None
      = Ok (succeed sections2) /\
    Query.anonymous_sections
      ([Example.header "ALIAS.example.com" Example.CNAME_www 3600 true;
        Example.header "www.example.com" Example.A_www 300 true], [], [])
      = Query.anonymous_sections sections2.
Proof.
  refine (lookup_ignores_case dns._isSubdomainOf Example.zone
            "ALIAS.example.com" "alias.EXAMPLE.com" _ dns.IN dns.A None
            [Example.CNAME_www] _ _ _);
    vm_compute; reflexivity.
Defined.

Lemma lookupZone_headers_witness :
  Py.lower (MemoryAuthority.soa Example.hosts).1 = Py.lower "EXAMPLE.com" /\
  exists first others,
    (([Example.header "Example.com" Example.soa_record 3600 true;
      Example.header "multi.example.com" Example.A_first 0 true;
      Example.header "multi.example.com" Example.A_second 3600 true;
      Example.header "multi.example.com" Example.TXT_last 45 true;
      Example.header "plain.example.com" Example.A_early 7 true;
      Example.header "plain.example.com" Example.TXT_plain 3600 true;
      Example.header "Example.com" Example.soa_record 3600 true],
     [], []) : Query.Sections)
      = (first :: others ++ [first], [], []) /\
    Forall2
      (fun (kr : string * dns.IRecord) (h : dns.RRHeader) =>
         exists t,
           match dns.ttl kr.2 with
           | Some own => t = own
           | None => MemoryAuthority._defaultTTL Example.hosts = Ok t
           end /\
           h = dns.mkRRHeader kr.1 (dns.TYPE kr.2) dns.IN t (Some kr.2) true)
      (Zone.non_soa_records
         (map_to_list (MemoryAuthority.records Example.hosts)))
      others.
Proof.
  apply (lookupZone_headers Example.hosts "EXAMPLE.com" None).
  vm_compute; reflexivity.
Defined.

Lemma pysource_store_groups_by_lowered_owner_witness :
  exists auth,
    PySourceAuthority.__init__ (Some Example.pyzone) = Ok auth /\
    MemoryAuthority.records auth !! "www.example.com"%string
      = Some [Example.A_www; Example.A_zero].
Proof.
  eexists. split; [vm_compute; reflexivity|].
  rewrite (pysource_store_groups_by_lowered_owner MemoryAuthority.__init__
             _ Example.pyzone "www.example.com");
    vm_compute; reflexivity.
Defined.

Lemma pysource_soa_is_last_SOA_entry_witness :
  exists auth,
    PySourceAuthority.__init__ (Some Example.pyzone) = Ok auth /\
    MemoryAuthority.soa auth
      = ("Example.com"%string, Some Example.soa_record).
Proof.
  eexists. split; [vm_compute; reflexivity|].
  rewrite (pysource_soa_is_last_SOA_entry MemoryAuthority.__init__
             _ Example.pyzone);
    vm_compute; reflexivity.
Defined.

Lemma pysource_lookup_fails_iff_no_entry_witness :
  exists auth f,
    PySourceAuthority.__init__ (Some Example.pyzone) = Ok auth /\
    Example.lookup auth "ftp.example.com" dns.IN dns.A None = Ok (fail f).
Proof.
  eexists.
  assert (PySourceAuthority.__init__ (Some Example.pyzone) = Ok _) as Hload
    by (vm_compute; reflexivity).
  destruct (proj2 (pysource_lookup_fails_iff_no_entry dns._isSubdomainOf
                     _ Example.pyzone "ftp.example.com" dns.IN dns.A None
                     Hload)) as [f Hf].
  - repeat constructor; vm_compute; discriminate.
  - by exists f.
Defined.

Lemma collapseContinuations_without_parenthesis_witness :
  BindAuthority.collapseContinuations
    ["www IN A 192.0.2.80"; ""; "  IN A 192.0.2.81"]%string =
    Ok [["www"; "IN"; "A"; "192.0.2.80"]; ["IN"; "A"; "192.0.2.81"]]%string.
Proof.
  rewrite collapseContinuations_without_parenthesis;
    [vm_compute; reflexivity | repeat constructor].
Defined.

Lemma recordLine_type_then_rdata_witness :
  exists front,
    ["www"; "60"; "IN"; "A"; "192.0.2.80"]%string =
      front ++ "A"%string :: ["192.0.2.80"%string].
Proof.
  apply (recordLine_type_then_rdata dns.QUERY_CLASSES_values
           dns.QUERY_TYPES_values "example.com." 300
           ["www"; "60"; "IN"; "A"; "192.0.2.80"]%string
           (BindAuthority.mkAddRecord "example.com." 60 "A" "www" "IN"
              ["192.0.2.80"%string])).
  vm_compute; reflexivity.
Defined.

Lemma recordLine_class_ttl_either_order_witness :
  BindAuthority.recordLine dns.QUERY_CLASSES_values dns.QUERY_TYPES_values
    "example.com." 300 ["www"; "IN"; "60"; "A"; "192.0.2.80"]%string =
  BindAuthority.recordLine dns.QUERY_CLASSES_values dns.QUERY_TYPES_values
    "example.com." 300 ["www"; "60"; "IN"; "A"; "192.0.2.80"]%string.
Proof.
  apply (recordLine_class_ttl_either_order dns.QUERY_CLASSES_values
           dns.QUERY_TYPES_values "example.com." 300 "www" "IN" "60"
           ["A"; "192.0.2.80"]%string);
    vm_compute; reflexivity.
Defined.

Lemma parseLines_accepts_class_IN_only_witness :
  exists auth,
    Example.parse Example.fresh Example.master_lines = Ok auth /\
    Forall
      (fun line =>
         exists t0,
           line !! 0%nat = Some t0 /\
           (t0 = "$TTL"%string \/ t0 = "$ORIGIN"%string \/
            exists origin ttl a,
              BindAuthority.recordLine dns.QUERY_CLASSES_values
                dns.QUERY_TYPES_values origin ttl line = Ok a /\
              BindAuthority.cls a = "IN"%string /\
              is_Some (dns.Record_ (BindAuthority.type a))))
      Example.master_lines.
Proof.
  eexists. split; [vm_compute; reflexivity|].
  eapply (parseLines_accepts_class_IN_only dns.QUERY_CLASSES_values
            dns.QUERY_TYPES_values dns.str2time dns.Record_ Example.fresh).
  vm_compute; reflexivity.
Defined.

Lemma parseRecordLine_appends_witness :
  exists a,
    BindAuthority.recordLine dns.QUERY_CLASSES_values dns.QUERY_TYPES_values
      "example.com." 300 ["www"; "IN"; "A"; "192.0.2.80"]%string = Ok a /\
    forall name cls type timeout f,
      Py.lower name =
        Py.lower (BindAuthority.qualify (BindAuthority.owner a)
                    (BindAuthority.domain a)) ->
      MemoryAuthority._lookup dns._isSubdomainOf
        (MemoryAuthority.mk ("", None)
           {["www.example.com."%string :=
               [dns.mkRecord (dns.Record_A "192.0.2.80") (Some 300)]]}
           None)
        name cls type timeout <> Ok (fail f).
Proof.
  refine (proj2 (parseRecordLine_appends dns.QUERY_CLASSES_values
                   dns.QUERY_TYPES_values dns.Record_ dns._isSubdomainOf
                   Example.fresh
                   (BindAuthority.mk
                      (MemoryAuthority.mk ("", None)
                         {["www.example.com."%string :=
                             [dns.mkRecord (dns.Record_A "192.0.2.80")
                                (Some 300)]]}
                         None)
                      "example.com.")
                   "example.com." 300
                   ["www"; "IN"; "A"; "192.0.2.80"]%string _)).
  vm_compute; reflexivity.
Defined.

Lemma parseLines_rejects_include_and_generate_witness :
  exists auth,
    Example.parse Example.fresh Example.master_lines = Ok auth /\
    Forall
      (fun line =>
         exists t0,
           line !! 0%nat = Some t0 /\
           t0 <> "$INCLUDE"%string /\ t0 <> "$GENERATE"%string)
      Example.master_lines.
Proof.
  eexists. split; [vm_compute; reflexivity|].
  eapply (parseLines_rejects_include_and_generate dns.QUERY_CLASSES_values
            dns.QUERY_TYPES_values dns.str2time dns.Record_ Example.fresh).
  vm_compute; reflexivity.
Defined.


Lemma loaded_zone_pass_uses_own_TTL_witness :
  exists auth l,
    Example.parse Example.fresh Example.master_lines = Ok auth /\
    MemoryAuthority.record_pass (BindAuthority.base auth)
      "WWW.example.com." dns.A
      [dns.mkRecord (dns.Record_A "192.0.2.80") (Some 60)]
      MemoryAuthority.locals0 = Ok l /\
    MemoryAuthority.results l =
      [dns.mkRRHeader "WWW.example.com." dns.A dns.IN 60
         (Some (dns.mkRecord (dns.Record_A "192.0.2.80") (Some 60))) true].
Proof.
  eexists.
  assert (Example.parse Example.fresh Example.master_lines = Ok _) as Hload
    by (vm_compute; reflexivity).
  destruct (loaded_zone_pass_uses_own_TTL dns.QUERY_CLASSES_values
              dns.QUERY_TYPES_values dns.str2time dns.Record_ Example.fresh
              _ Example.master_lines "WWW.example.com." dns.A
              [dns.mkRecord (dns.Record_A "192.0.2.80") (Some 60)] Hload)
    as (l & Hpass & _); [vm_compute; reflexivity|].
  exists l. split; [exact Hload|]. split; [exact Hpass|].
  vm_compute in Hpass. by injection Hpass as <-.
Defined.

Lemma bind_soa_record_is_stored_witness :
  exists auth,
    Example.load "example.com" Example.master_file = Ok auth /\
    (MemoryAuthority.soa (BindAuthority.base auth) = (""%string, None) \/
     exists apex r recs,
       MemoryAuthority.soa (BindAuthority.base auth) = (apex, Some r) /\
       MemoryAuthority.records (BindAuthority.base auth) !! Py.lower apex
         = Some recs /\
       r ∈ recs).
Proof.
  eexists. split; [vm_compute; reflexivity|].
  eapply (bind_soa_record_is_stored dns.QUERY_CLASSES_values
            dns.QUERY_TYPES_values dns.str2time dns.Record_ "example.com"
            Example.master_file).
  vm_compute; reflexivity.
Defined.

Lemma bind_loaded_zone_transfers_witness :
  exists auth sections,
    Example.load "example.com" Example.master_file = Ok auth /\
    MemoryAuthority.lookupZone (BindAuthority.base auth) "example.com" None
      = Ok (succeed sections).
Proof.
  eexists.
  assert (Example.load "example.com" Example.master_file = Ok _) as Hload
    by (vm_compute; reflexivity).
  destruct (bind_loaded_zone_transfers dns.QUERY_CLASSES_values
              dns.QUERY_TYPES_values dns.str2time dns.Record_ "example.com"
              Example.master_file _ "example.com"
              (dns.mkRecord
                 (dns.Record_SOA "ns1" "admin" 2020010100 3600 600 604800
                    3600) (Some 300))
              None Hload) as [sections Hzone];
    [vm_compute; reflexivity|].
  exists sections. split; [exact Hload | exact Hzone].
Defined.

(** * Properties of [getSerial] *)

(** ** Decimal numerals *)

Lemma digit_char_facts (d : N) :
  (d < 10)%N ->
  Py.is_digit (Fmt.digit_char d) = true /\
  Z.of_N (N_of_ascii (Fmt.digit_char d)) - 48 = Z.of_N d /\
  Ascii.is_space (Fmt.digit_char d) = false /\
  Fmt.digit_char d <> "-"%char /\ Fmt.digit_char d <> "+"%char.
Proof.
  intros Hd.
  assert (d = 0 \/ d = 1 \/ d = 2 \/ d = 3 \/ d = 4 \/ d = 5 \/ d = 6 \/
          d = 7 \/ d = 8 \/ d = 9)%N as Hcases by lia.
  repeat (destruct Hcases as [-> | Hcases]); try subst d;
    by vm_compute.
Qed.

Lemma int_go_app (a : Z) (s1 s2 : string) :
  Py.int_go a (s1 +:+ s2) = bind (Py.int_go a s1) (fun v => Py.int_go v s2).
Proof.
  revert a. induction s1 as [|c s1 IH]; intros a; [done|].
  change (String c s1 +:+ s2) with (String c (s1 +:+ s2)). simpl.
  destruct (Py.is_digit c); [apply IH | done].
Qed.

Lemma all_digits_app (s1 s2 : string) :
  Py.all_digits (s1 +:+ s2) = Py.all_digits s1 && Py.all_digits s2.
Proof.
  induction s1 as [|c s1 IH]; [done|].
  change (String c s1 +:+ s2) with (String c (s1 +:+ s2)). simpl.
  by rewrite IH, andb_assoc.
Qed.

Lemma app_char_not_empty (s : string) (c : ascii) (t : string) :
  s +:+ String c t <> EmptyString.
Proof. destruct s; cbn [String.append]; discriminate. Qed.

Lemma str_go_S (fuel : nat) (n : N) :
  Fmt.str_go (S fuel) n =
    if (n <? 10)%N then String (Fmt.digit_char n) EmptyString
    else Fmt.str_go fuel (n / 10)
         +:+ String (Fmt.digit_char (n mod 10)) EmptyString.
Proof. done. Qed.

(** With enough fuel, the digits of [n] read back as [n]. *)
Lemma str_go_int (fuel : nat) (n : N) :
  (n < 2 ^ N.of_nat fuel)%N ->
  Py.int_go 0 (Fmt.str_go (S fuel) n) = Ok (Z.of_N n) /\
  Py.all_digits (Fmt.str_go (S fuel) n) = true /\
  Fmt.str_go (S fuel) n <> EmptyString.
Proof.
  revert n. induction fuel as [|fuel IH]; intros n Hn.
  - assert (n = 0%N) as -> by (simpl in Hn; lia). by vm_compute.
  - rewrite (str_go_S (S fuel) n). destruct (n <? 10)%N eqn:Hlt.
    + apply N.ltb_lt in Hlt.
      destruct (digit_char_facts n Hlt) as (Hd & Hv & _).
      cbn [Py.int_go Py.all_digits]. rewrite Hd. simpl.
      split; [f_equal; lia | done].
    + apply N.ltb_ge in Hlt.
      assert (n / 10 < 2 ^ N.of_nat fuel)%N as Hdiv.
      { rewrite Nat2N.inj_succ, N.pow_succ_r' in Hn.
        apply N.Div0.div_lt_upper_bound. lia. }
      destruct (IH (n / 10)%N Hdiv) as (Hint & Hall & Hne).
      assert (n mod 10 < 10)%N as Hmod by (apply N.mod_lt; lia).
      destruct (digit_char_facts (n mod 10) Hmod) as (Hd & Hv & _).
      rewrite int_go_app, Hint, all_digits_app, Hall. simpl.
      rewrite Hd. simpl. split; [|split; [done|]].
      * f_equal. rewrite Hv.
        pose proof (N.div_mod n 10). lia.
      * apply app_char_not_empty.
Qed.

Lemma str_N_int (n : N) :
  Py.int_go 0 (Fmt.str_N n) = Ok (Z.of_N n) /\
  Py.all_digits (Fmt.str_N n) = true /\
  Fmt.str_N n <> EmptyString.
Proof.
  apply str_go_int. rewrite N2Nat.id. apply N.size_gt.
Qed.

Lemma all_digits_no_space (s : string) :
  Py.all_digits s = true -> Fmt.no_space s = true.
Proof.
  induction s as [|c s IH]; [done|]. simpl.
  intros [Hc Hs]%andb_true_iff. rewrite (IH Hs), andb_true_r.
  revert Hc. destruct c as [[] [] [] [] [] [] [] []]; by vm_compute.
Qed.

Lemma all_digits_no_sign (c : ascii) (s : string) :
  Py.all_digits (String c s) = true -> c <> "-"%char /\ c <> "+"%char.
Proof.
  simpl. intros [Hc _]%andb_true_iff.
  split; intros ->; by vm_compute in Hc.
Qed.

(** [int] reads back what [%d] prints. *)
Lemma int_format_d (z : Z) : Fmt.int (Fmt.format_d z) = Ok z.
Proof.
  unfold Fmt.format_d. destruct (z <? 0) eqn:Hz.
  - apply Z.ltb_lt in Hz.
    destruct (str_N_int (Z.to_N (- z))) as (Hint & _ & Hne).
    cbn [Fmt.int]. unfold Py.int.
    destruct (Fmt.str_N (Z.to_N (- z))) eqn:Hs; [done|].
    rewrite Hint. simpl. f_equal. lia.
  - apply Z.ltb_ge in Hz.
    destruct (str_N_int (Z.to_N z)) as (Hint & Hall & Hne).
    destruct (Fmt.str_N (Z.to_N z)) as [|c s] eqn:Hs; [done|].
    destruct (all_digits_no_sign c s Hall) as [Hminus Hplus].
    assert (Fmt.int (String c s) = Py.int (String c s)) as ->.
    { unfold Fmt.int.
      destruct c as [[] [] [] [] [] [] [] []]; try done;
        by (exfalso; (apply Hminus || apply Hplus)). }
    unfold Py.int. rewrite Hint. f_equal. lia.
Qed.

(** What [%d] prints is one word for [split]. *)
Lemma is_token_format_d (z : Z) : Fmt.is_token (Fmt.format_d z) = true.
Proof.
  unfold Fmt.format_d. destruct (z <? 0).
  - destruct (str_N_int (Z.to_N (- z))) as (_ & Hall & _).
    simpl. by apply all_digits_no_space.
  - destruct (str_N_int (Z.to_N z)) as (_ & Hall & Hne).
    unfold Fmt.is_token. destruct (Fmt.str_N (Z.to_N z)) eqn:Hs; [done|].
    by apply all_digits_no_space.
Qed.

(** ** Words and lines *)

Lemma rev_app_rev_app (s acc rest : string) :
  String.rev_app (String.rev_app s acc) rest =
    String.rev_app acc (s +:+ rest).
Proof.
  revert acc rest. induction s as [|c s IH]; intros acc rest; [done|].
  simpl. by rewrite IH.
Qed.

Lemma string_app_empty_r (s : string) : s +:+ "" = s.
Proof.
  induction s as [|c s IH]; [done|].
  change (String c s +:+ "") with (String c (s +:+ "")). by rewrite IH.
Qed.

Lemma rev_rev_app (s : string) : String.rev (String.rev_app s "") = s.
Proof.
  unfold String.rev. rewrite rev_app_rev_app. simpl.
  apply string_app_empty_r.
Qed.

(** [split] reads a word up to the next whitespace. *)
Lemma words_go_token (t : string) (cur : option string) (rest : string) :
  Fmt.is_token t = true ->
  String.words_go cur (t +:+ rest) =
    String.words_go (Some (String.rev_app t (default EmptyString cur))) rest.
Proof.
  revert cur. induction t as [|c t IH]; intros cur Ht; [done|].
  simpl in Ht. apply andb_true_iff in Ht as [Hc%negb_true_iff Ht].
  change (String c t +:+ rest) with (String c (t +:+ rest)).
  cbn [String.words_go]. rewrite Hc.
  assert (from_option (String c) (String c "") cur =
          String c (default EmptyString cur)) as -> by (by destruct cur).
  destruct t as [|c' t]; [done|].
  rewrite IH by done. done.
Qed.

Lemma split_two_tokens (t u : string) :
  Fmt.is_token t = true -> Fmt.is_token u = true ->
  Py.split (t +:+ " " +:+ u) = [t; u].
Proof.
  intros Ht Hu. unfold Py.split, String.words.
  rewrite words_go_token by done.
  change (" " +:+ u) with (String " " u). cbn [String.words_go].
  change (Ascii.is_space " ") with true. cbv iota. simpl default.
  rewrite <- (string_app_empty_r u) at 1. rewrite words_go_token by done.
  simpl. by rewrite !rev_rev_app.
Qed.

Lemma readline_no_space (t rest : string) :
  Fmt.no_space t = true ->
  Fmt.readline (t +:+ rest) = t +:+ Fmt.readline rest.
Proof.
  induction t as [|c t IH]; [done|]. simpl.
  intros [Hc%negb_true_iff Ht]%andb_true_iff.
  change (String c t +:+ rest) with (String c (t +:+ rest)).
  change (String c t +:+ Fmt.readline rest)
    with (String c (t +:+ Fmt.readline rest)).
  cbn [Fmt.readline]. rewrite (IH Ht).
  destruct (Ascii.eqb c "010") eqn:Hnl; [|done].
  apply Ascii.eqb_eq in Hnl as ->. by vm_compute in Hc.
Qed.

Lemma is_token_no_space (t : string) :
  Fmt.is_token t = true -> Fmt.no_space t = true.
Proof. by destruct t. Qed.

(** The first line of a file that holds two words and a blank. *)
Lemma first_line_two_tokens (t u : string) :
  Fmt.is_token t = true -> Fmt.is_token u = true ->
  Py.split (Fmt.readline (t +:+ " " +:+ u)) = [t; u].
Proof.
  intros Ht Hu.
  rewrite readline_no_space by (by apply is_token_no_space).
  change (" " +:+ u) with (String " " u). cbn [Fmt.readline].
  change (Ascii.eqb " " "010") with false. cbv iota.
  assert (Fmt.readline u = u) as ->.
  { rewrite <- (string_app_empty_r u) at 1.
    rewrite readline_no_space by (by apply is_token_no_space).
    cbn [Fmt.readline]. apply string_app_empty_r. }
  by apply split_two_tokens.
Qed.

(** ** The serial from one call to the next *)

(** What a call that returns leaves in the file. *)
Lemma getSerial_Ok (today : string) (file file' : option string)
    (serial : string) :
  getSerial today file = (Ok serial, file') ->
  exists ID,
    serial = today +:+ Fmt.format_02d ID /\
    file' = Some (today +:+ " " +:+ Fmt.format_d ID).
Proof.
  unfold getSerial. intros H.
  destruct (Py.split _) as [|lastSerial [|ID [|? ?]]]; try discriminate.
  destruct (lastSerial =? today)%string.
  - destruct (Fmt.int ID) as [n|]; simpl in H; [|discriminate].
    injection H as <- <-. by eexists.
  - injection H as <- <-. by eexists.
Qed.

(** A call on the file that an earlier call of the same day left. *)
Lemma getSerial_same_day (today : string) (ID : Z) :
  Fmt.is_token today = true ->
  getSerial today (Some (today +:+ " " +:+ Fmt.format_d ID)) =
    (Ok (today +:+ Fmt.format_02d (ID + 1)),
     Some (today +:+ " " +:+ Fmt.format_d (ID + 1))).
Proof.
  intros Htoday. unfold getSerial.
  rewrite first_line_two_tokens by (done || apply is_token_format_d).
  rewrite String.eqb_refl, int_format_d. simpl.
  destruct (ID + 1 =? 0) eqn:Hz; [|done].
  apply Z.eqb_eq in Hz. by rewrite Hz.
Qed.

(** X29. Within one day [getSerial] counts up: when a call returns the
    serial made of the date and the number [ID], the next call on the
    file it left behind returns the date and [ID + 1], whatever the file
    held before the first call. *)
Theorem getSerial_counts_up (today : string) (file file' : option string)
    (serial : string) :
  Fmt.is_token today = true ->
  getSerial today file = (Ok serial, file') ->
  exists ID,
    serial = today +:+ Fmt.format_02d ID /\
    getSerial today file' =
      (Ok (today +:+ Fmt.format_02d (ID + 1)),
       Some (today +:+ " " +:+ Fmt.format_d (ID + 1))).
Proof.
  intros Htoday H. apply getSerial_Ok in H as (ID & -> & ->).
  exists ID. split; [done|]. by apply getSerial_same_day.
Qed.

(** X30. How a day starts: when there is no file, [getSerial] creates it
    and returns the date followed by [01]; when the file was left on
    another day, it returns the date followed by [00], without reading
    the old number. *)
Theorem getSerial_starts_the_day (today : string) :
  Fmt.is_token today = true ->
  getSerial today None =
    (Ok (today +:+ "01"), Some (today +:+ " 1")) /\
  forall other ID,
    Fmt.is_token other = true -> Fmt.is_token ID = true ->
    other <> today ->
    getSerial today (Some (other +:+ " " +:+ ID)) =
      (Ok (today +:+ "00"), Some (today +:+ " 0")).
Proof.
  intros Htoday. split.
  - apply (getSerial_same_day today 0 Htoday).
  - intros other ID Hother HID Hne. unfold getSerial.
    rewrite first_line_two_tokens by done.
    by apply String.eqb_neq in Hne as ->.
Qed.

Lemma getSerial_counts_up_witness :
  exists ID,
    "2020010101"%string = "20200101" +:+ Fmt.format_02d ID /\
    getSerial "20200101" (Some "20200101 1"%string) =
      (Ok ("20200101" +:+ Fmt.format_02d (ID + 1)),
       Some ("20200101" +:+ " " +:+ Fmt.format_d (ID + 1))).
Proof.
  apply (getSerial_counts_up "20200101" None (Some "20200101 1"%string)
           "2020010101");
    vm_compute; reflexivity.
Defined.

Lemma getSerial_starts_the_day_witness :
  getSerial "20200101" None =
    (Ok "2020010101"%string, Some "20200101 1"%string) /\
  getSerial "20200101" (Some "20191231 7"%string) =
    (Ok "2020010100"%string, Some "20200101 0"%string).
Proof.
  destruct (getSerial_starts_the_day "20200101") as [Hnew Hold];
    [vm_compute; reflexivity|].
  split; [exact Hnew|].
  apply (Hold "20191231"%string "7"%string);
    [vm_compute; reflexivity | vm_compute; reflexivity | discriminate].
Defined.
